(** * upgradeScripts: load-test breakpoint detection and OpenSearch metrics checker

    A shallow embedding of
      - [load-tests/chat-load-test.js] and [load-tests/single-room-load-test.js]
        (the k6 iteration function [default] and [handleSummary]), and
      - [checkOpenSearchMetrics.ts] (class [OpenSearchMetricsChecker]),
    followed by the properties proved about them.

    Conventions.  Module-level mutable variables and k6 counters become fields
    of an explicit state record that every function threads through.  An
    awaited client call is an input of the model: its outcome is either
    resolved with a body or rejected with an error.  Console output is not part
    of the state.  JavaScript numbers that can be fractional, infinite or NaN
    are values of [JS.number], whose finite values are rationals;
    integer-valued API fields are [Z]. *)

From Stdlib Require Import ZArith QArith Qround List String Ascii Bool Lia.
Import ListNotations.

Open Scope bool_scope.
Open Scope string_scope.
Open Scope Z_scope.

(* ================================================================== *)
(** ** JavaScript primitives used by the scripts *)
(* ================================================================== *)

Module JS.

(** A JavaScript number.  A finite value is kept as the rational it stands
    for; there is no signed zero.  [div] and [mul] below give the real
    quotient and product, and [binary64] the Number that holds a real. *)
Inductive number : Type :=
| NaN
| PInf
| NInf
| Fin (q : Q).

(** [floor (log2 (n / d))] for positive [n] and [d]. *)
Definition floor_log2 (n d : Z) : Z :=
  let e := Z.log2 n - Z.log2 d in
  if (if 0 <=? e then d * 2 ^ e <=? n else d <=? n * 2 ^ (- e))
  then e else e - 1.

(** The Number value of a real: the nearest binary64, a tie going to the
    even significand, with 53 bits above [2^-1022], steps of [2^-1074]
    below, and an infinity from [2^1024 - 2^970] on. *)
Definition binary64 (q : Q) : number :=
  let n := Z.abs (Qnum q) in
  let d := Z.pos (Qden q) in
  if n =? 0 then Fin 0
  else
    let c := Z.max (floor_log2 n d - 52) (-1074) in
    let N := if c <? 0 then n * 2 ^ (- c) else n in
    let D := if c <? 0 then d else d * 2 ^ c in
    let m0 := N / D in
    let r := N mod D in
    let m :=
      if (D <? 2 * r) || ((D =? 2 * r) && Z.odd m0) then m0 + 1 else m0 in
    let s := Z.sgn (Qnum q) in
    if (0 <=? c) && (2 ^ 1024 <=? m * 2 ^ c)
    then (if 0 <? s then PInf else NInf)
    else if c <? 0 then Fin (Qred (s * m # Z.to_pos (2 ^ (- c))))
    else Fin (inject_Z (s * m * 2 ^ c)).

(** The Number that holds the result of an operation. *)
Definition to_binary64 (x : number) : number :=
  match x with
  | Fin q => binary64 q
  | other => other
  end.

Definition of_Z (z : Z) : number := Fin (inject_Z z).

(** [undefined] and [null] coerced by an arithmetic operator. *)
Definition of_undefined (o : option Z) : number :=
  match o with
  | Some z => of_Z z
  | None => NaN
  end.

(** ToBoolean on a number: [NaN] and [0] are falsy. *)
Definition truthy (x : number) : bool :=
  match x with
  | NaN => false
  | Fin q => negb (Qeq_bool q 0%Q)
  | PInf | NInf => true
  end.

(** [x || y] on numbers. *)
Definition or (x y : number) : number := if truthy x then x else y.

(** [x > y]; any comparison with [NaN] is false. *)
Definition gt (x y : number) : bool :=
  match x, y with
  | NaN, _ | _, NaN => false
  | NInf, _ => false
  | PInf, PInf => false
  | PInf, _ => true
  | Fin _, PInf => false
  | Fin _, NInf => true
  | Fin a, Fin b => negb (Qle_bool a b)
  end.

(** [x / y]. *)
Definition div (x y : number) : number :=
  match x, y with
  | NaN, _ | _, NaN => NaN
  | Fin a, Fin b =>
      if Qeq_bool b 0%Q
      then (if Qeq_bool a 0%Q then NaN
            else if Qle_bool 0%Q a then PInf else NInf)
      else Fin (Qred (a / b)%Q)
  | Fin _, _ => Fin 0%Q
  | PInf, Fin b => if Qle_bool 0%Q b then PInf else NInf
  | NInf, Fin b => if Qle_bool 0%Q b then NInf else PInf
  | _, _ => NaN
  end.

(** [x * y]. *)
Definition mul (x y : number) : number :=
  match x, y with
  | NaN, _ | _, NaN => NaN
  | Fin a, Fin b => Fin (Qred (a * b)%Q)
  | PInf, Fin b | Fin b, PInf =>
      if Qeq_bool b 0%Q then NaN else if Qle_bool 0%Q b then PInf else NInf
  | NInf, Fin b | Fin b, NInf =>
      if Qeq_bool b 0%Q then NaN else if Qle_bool 0%Q b then NInf else PInf
  | PInf, PInf | NInf, NInf => PInf
  | PInf, NInf | NInf, PInf => NInf
  end.

(** [Math.max(x, y)]: [NaN] as soon as one argument is. *)
Definition max (x y : number) : number :=
  match x, y with
  | NaN, _ | _, NaN => NaN
  | _, _ => if gt y x then y else x
  end.

(** The decimal that [x.toFixed(2)] prints for the Number of value [q]: the
    multiple of 1/100 nearest to [q], a tie going away from zero. *)
Definition round2 (q : Q) : Q :=
  if Qle_bool 0%Q q
  then Qred (inject_Z (Qfloor (q * 100 + (1 # 2))%Q) / 100)%Q
  else Qred (- (inject_Z (Qfloor (- q * 100 + (1 # 2))%Q) / 100))%Q.

(** [parseFloat(x.toFixed(2))]: the Number nearest to the printed decimal. *)
Definition parseFloat_toFixed2 (x : number) : number :=
  match x with
  | Fin q => binary64 (round2 q)
  | other => other
  end.

(** [s.includes(needle)]. *)
Fixpoint includes (s needle : string) : bool :=
  if String.prefix needle s then true
  else match s with
       | EmptyString => false
       | String _ rest => includes rest needle
       end.

(** ASCII white space skipped by [parseInt]. *)
Definition is_white_space (c : ascii) : bool :=
  let n := nat_of_ascii c in
  (Nat.eqb n 32 || (Nat.leb 9 n && Nat.leb n 13))%bool.

Fixpoint skip_white_space (s : string) : string :=
  match s with
  | String c rest => if is_white_space c then skip_white_space rest else s
  | EmptyString => s
  end.

Definition digit_value (c : ascii) : option Z :=
  let n := Z.of_nat (nat_of_ascii c) in
  if (48 <=? n) && (n <=? 57) then Some (n - 48)
  else if (97 <=? n) && (n <=? 122) then Some (n - 87)
  else if (65 <=? n) && (n <=? 90) then Some (n - 55)
  else None.

(** Longest prefix of digits of the radix, as a number; [None] when empty. *)
Fixpoint parse_digits (radix : Z) (s : string) (acc : option Z) : option Z :=
  match s with
  | String c rest =>
      match digit_value c with
      | Some d =>
          if d <? radix
          then parse_digits radix rest
                 (Some (match acc with Some a => a * radix + d | None => d end))
          else acc
      | None => acc
      end
  | EmptyString => acc
  end.

(** [parseInt(s)] without a radix argument: the Number of the integer that
    the digits write. *)
Definition parseInt (s : string) : number :=
  let s := skip_white_space s in
  let '(negative, s) :=
    match s with
    | String "-"%char rest => (true, rest)
    | String "+"%char rest => (false, rest)
    | _ => (false, s)
    end in
  let '(radix, s) :=
    match s with
    | String "0"%char (String "x"%char rest) => (16, rest)
    | String "0"%char (String "X"%char rest) => (16, rest)
    | _ => (10, s)
    end in
  match parse_digits radix s None with
  | None => NaN
  | Some v => binary64 (inject_Z (if negative then - v else v))
  end.

Definition newline : ascii := "010"%char.

(** [s.split('\n')]. *)
Fixpoint split_lines (s : string) : list string :=
  match s with
  | EmptyString => [""]
  | String c rest =>
      if Ascii.eqb c newline then "" :: split_lines rest
      else match split_lines rest with
           | l :: ls => String c l :: ls
           | [] => [String c ""]
           end
  end.

(** [lines.join('\n')]. *)
Definition join_lines (ls : list string) : string :=
  String.concat (String newline "") ls.

(** [xs.slice(0, n)]. *)
Definition slice0 {A : Type} (n : nat) (xs : list A) : list A := firstn n xs.

(** [s.split(sep)] for a one-character separator. *)
Fixpoint split_on (sep : ascii) (s : string) : list string :=
  match s with
  | EmptyString => [""]
  | String c rest =>
      if Ascii.eqb c sep then "" :: split_on sep rest
      else match split_on sep rest with
           | l :: ls => String c l :: ls
           | [] => [String c ""]
           end
  end.


End JS.

(* ================================================================== *)
(** ** load-tests/chat-load-test.js *)
(* ================================================================== *)

Module ChatLoadTest.

(** The fields of a k6 response that the script reads. *)
Record response : Type := mkResponse {
  status : Z;
  error_code : Z;
  body : option string   (* [None] is a null body *)
}.

(** The custom metrics and the three module-level latches.  A k6 [Rate] is
    the pair (samples that were true, samples).  k6 runs every VU in a
    JavaScript runtime of its own: the latches are those of one VU, [run]
    below is the sequence of iterations of one VU, and what it adds to the
    counters is that VU's part of the totals. *)
Record state : Type := mkState {
  chatApiSuccess : Z * Z;
  greendotUpdates : Z;
  s3SlowDownErrors : Z;
  s3Errors : Z;
  totalRequests : Z;
  totalErrors : Z;
  timeoutErrors : Z;
  firstErrorIteration : option Z;
  firstS3SlowDownIteration : option Z;
  firstTimeoutIteration : option Z
}.

Definition initial : state :=
  mkState (0, 0) 0 0 0 0 0 0 None None None.

Definition rate_add (b : bool) (st : state) : state :=
  let '(t, n) := chatApiSuccess st in
  mkState ((if b then t + 1 else t), n + 1)
    (greendotUpdates st) (s3SlowDownErrors st) (s3Errors st) (totalRequests st)
    (totalErrors st) (timeoutErrors st) (firstErrorIteration st)
    (firstS3SlowDownIteration st) (firstTimeoutIteration st).

Definition add_greendotUpdates (k : Z) (st : state) : state :=
  mkState (chatApiSuccess st) (greendotUpdates st + k) (s3SlowDownErrors st)
    (s3Errors st) (totalRequests st) (totalErrors st) (timeoutErrors st)
    (firstErrorIteration st) (firstS3SlowDownIteration st)
    (firstTimeoutIteration st).

Definition add_s3SlowDownErrors (k : Z) (st : state) : state :=
  mkState (chatApiSuccess st) (greendotUpdates st) (s3SlowDownErrors st + k)
    (s3Errors st) (totalRequests st) (totalErrors st) (timeoutErrors st)
    (firstErrorIteration st) (firstS3SlowDownIteration st)
    (firstTimeoutIteration st).

Definition add_s3Errors (k : Z) (st : state) : state :=
  mkState (chatApiSuccess st) (greendotUpdates st) (s3SlowDownErrors st)
    (s3Errors st + k) (totalRequests st) (totalErrors st) (timeoutErrors st)
    (firstErrorIteration st) (firstS3SlowDownIteration st)
    (firstTimeoutIteration st).

Definition add_totalRequests (k : Z) (st : state) : state :=
  mkState (chatApiSuccess st) (greendotUpdates st) (s3SlowDownErrors st)
    (s3Errors st) (totalRequests st + k) (totalErrors st) (timeoutErrors st)
    (firstErrorIteration st) (firstS3SlowDownIteration st)
    (firstTimeoutIteration st).

Definition add_totalErrors (k : Z) (st : state) : state :=
  mkState (chatApiSuccess st) (greendotUpdates st) (s3SlowDownErrors st)
    (s3Errors st) (totalRequests st) (totalErrors st + k) (timeoutErrors st)
    (firstErrorIteration st) (firstS3SlowDownIteration st)
    (firstTimeoutIteration st).

Definition add_timeoutErrors (k : Z) (st : state) : state :=
  mkState (chatApiSuccess st) (greendotUpdates st) (s3SlowDownErrors st)
    (s3Errors st) (totalRequests st) (totalErrors st) (timeoutErrors st + k)
    (firstErrorIteration st) (firstS3SlowDownIteration st)
    (firstTimeoutIteration st).

Definition set_firstErrorIteration (i : Z) (st : state) : state :=
  mkState (chatApiSuccess st) (greendotUpdates st) (s3SlowDownErrors st)
    (s3Errors st) (totalRequests st) (totalErrors st) (timeoutErrors st)
    (Some i) (firstS3SlowDownIteration st) (firstTimeoutIteration st).

Definition set_firstS3SlowDownIteration (i : Z) (st : state) : state :=
  mkState (chatApiSuccess st) (greendotUpdates st) (s3SlowDownErrors st)
    (s3Errors st) (totalRequests st) (totalErrors st) (timeoutErrors st)
    (firstErrorIteration st) (Some i) (firstTimeoutIteration st).

Definition set_firstTimeoutIteration (i : Z) (st : state) : state :=
  mkState (chatApiSuccess st) (greendotUpdates st) (s3SlowDownErrors st)
    (s3Errors st) (totalRequests st) (totalErrors st) (timeoutErrors st)
    (firstErrorIteration st) (firstS3SlowDownIteration st) (Some i).

(** [const isTimeout = response.status === 0 || response.error_code === 1050] *)
Definition isTimeout (r : response) : bool :=
  (status r =? 0) || (error_code r =? 1050).

(** [const isSuccess = response.status === 200 || response.status === 201] *)
Definition isSuccess (r : response) : bool :=
  (status r =? 200) || (status r =? 201).

(** The guard [!isSuccess && !isTimeout] of the generic-error branch. *)
Definition isGenericError (r : response) : bool :=
  negb (isSuccess r) && negb (isTimeout r).

(** [response.body && response.body.includes(marker)]: a null or empty body
    is falsy. *)
Definition body_includes (r : response) (marker : string) : bool :=
  match body r with
  | None => false
  | Some b => negb (String.eqb b "") && JS.includes b marker
  end.

(** The guard of the rate-limit branch. *)
Definition isS3SlowDown (r : response) : bool := body_includes r "SlowDown".

(** The guard of the [else if] storage-error branch. *)
Definition isS3Error (r : response) : bool :=
  body_includes r "S3" || body_includes r "ServiceUnavailable"
  || body_includes r "InternalError".

(** [export default function ()], from the response on: one iteration with
    index [iterationId] (k6's [__ITER]) whose request came back as
    [response].  The log statements, the last of which come after every
    update below, and the final [sleep] do not touch the state. *)
Definition default (iterationId : Z) (response : response) (st : state)
  : state :=
  let st := add_totalRequests 1 st in
  let st := rate_add (isSuccess response) st in
  let st :=
    if (status response =? 200) || (status response =? 201)
    then add_greendotUpdates 1 st else st in
  let st :=
    if isTimeout response then
      let st := add_timeoutErrors 1 st in
      let st := add_totalErrors 1 st in
      match firstTimeoutIteration st with
      | None => set_firstTimeoutIteration iterationId st
      | Some _ => st
      end
    else st in
  let st :=
    if negb (isSuccess response) && negb (isTimeout response) then
      let st := add_totalErrors 1 st in
      match firstErrorIteration st with
      | None => set_firstErrorIteration iterationId st
      | Some _ => st
      end
    else st in
  if isS3SlowDown response then
    let st := add_s3SlowDownErrors 1 st in
    let st := add_s3Errors 1 st in
    match firstS3SlowDownIteration st with
    | None => set_firstS3SlowDownIteration iterationId st
    | Some _ => st
    end
  else if isS3Error response then add_s3Errors 1 st
  else st.

(** Iterations executed one after the other, each with its index and the
    response it received. *)
Fixpoint run (evs : list (Z * response)) (st : state) : state :=
  match evs with
  | [] => st
  | (i, r) :: rest => run rest (default i r st)
  end.

(** [data.metrics.<name>?.values?.count] for the metrics the summary reads;
    [None] when the metric is absent from the summary data. *)
Record summary_data : Type := mkSummaryData {
  total_requests : option Z;
  total_errors : option Z;
  timeout_errors : option Z;
  s3_slowdown_errors : option Z;
  s3_errors_total : option Z
}.

(** [count || 0] on a possibly undefined count. *)
Definition count_or_0 (o : option Z) : Z :=
  match o with
  | Some z => if z =? 0 then 0 else z
  | None => 0
  end.

(** The breaking-point block of the text that [handleSummary] builds: for
    each latch the iteration shown ([None] prints the "none detected" line),
    the five totals, and the two rates, each printed with [toFixed(2)] and a
    percent sign. *)
Record report : Type := mkReport {
  first_timeout : option Z;
  first_error : option Z;
  first_s3_slowdown : option Z;
  shown_total_requests : Z;
  shown_total_errors : Z;
  shown_timeout_errors : Z;
  shown_s3_slowdown_errors : Z;
  shown_s3_errors_total : Z;
  errorRate : JS.number;
  timeoutRate : JS.number
}.

(** [export function handleSummary(data)] of chat-load-test.js. *)
Definition handleSummary (st : state) (data : summary_data) : report :=
  let errorRate :=
    JS.or (JS.mul (JS.div (JS.of_undefined (total_errors data))
                          (JS.of_undefined (total_requests data)))
                  (JS.of_Z 100))
          (JS.of_Z 0) in
  let timeoutRate :=
    JS.or (JS.mul (JS.div (JS.of_undefined (timeout_errors data))
                          (JS.of_undefined (total_requests data)))
                  (JS.of_Z 100))
          (JS.of_Z 0) in
  mkReport (firstTimeoutIteration st) (firstErrorIteration st)
    (firstS3SlowDownIteration st)
    (count_or_0 (total_requests data)) (count_or_0 (total_errors data))
    (count_or_0 (timeout_errors data)) (count_or_0 (s3_slowdown_errors data))
    (count_or_0 (s3_errors_total data)) errorRate timeoutRate.




(** [function getCurrentPhase(iteration)] *)
Definition getCurrentPhase (iteration : Z) : string :=
  if iteration <? 100 then "warmup"
  else if iteration <? 500 then "rampup"
  else if iteration <? 1000 then "steady"
  else "spike".

End ChatLoadTest.

(* ================================================================== *)
(** ** load-tests/single-room-load-test.js *)
(* ================================================================== *)

Module SingleRoomLoadTest.

Import ChatLoadTest.

(** The iteration function of the single-room script updates the counters
    and latches with the same statements as the multi-room one; the two
    differ in the payload, the log texts and the sleep. *)
Definition default (iterationId : Z) (response : response) (st : state)
  : state :=
  ChatLoadTest.default iterationId response st.

Fixpoint run (evs : list (Z * response)) (st : state) : state :=
  match evs with
  | [] => st
  | (i, r) :: rest => run rest (default i r st)
  end.

(** [export function handleSummary(data)] of single-room-load-test.js: the
    rates are computed from the [|| 0] totals behind a [totalReqs > 0]
    guard. *)
Definition handleSummary (st : state) (data : summary_data) : report :=
  let totalReqs := count_or_0 (total_requests data) in
  let totalErrs := count_or_0 (total_errors data) in
  let timeoutCount := count_or_0 (timeout_errors data) in
  let errorRate :=
    if 0 <? totalReqs
    then JS.mul (JS.div (JS.of_Z totalErrs) (JS.of_Z totalReqs)) (JS.of_Z 100)
    else JS.of_Z 0 in
  let timeoutRate :=
    if 0 <? totalReqs
    then JS.mul (JS.div (JS.of_Z timeoutCount) (JS.of_Z totalReqs))
                (JS.of_Z 100)
    else JS.of_Z 0 in
  mkReport (firstTimeoutIteration st) (firstErrorIteration st)
    (firstS3SlowDownIteration st)
    (count_or_0 (total_requests data)) (count_or_0 (total_errors data))
    (count_or_0 (timeout_errors data)) (count_or_0 (s3_slowdown_errors data))
    (count_or_0 (s3_errors_total data)) errorRate timeoutRate.


End SingleRoomLoadTest.

(* ================================================================== *)
(** ** checkOpenSearchMetrics.ts *)
(* ================================================================== *)

Module Metrics.

(** *** Bodies returned by the cluster

    Only the fields that the checker reads outside of a [console.log] are
    kept.  Rows of the cat API carry their numbers as strings. *)

Record health_body : Type := mkHealth {
  status : string;
  number_of_nodes : Z
}.

(** One row of [cat.threadPool]: [node_name], [name], [queue], [rejected],
    [queue_size]. *)
Record pool : Type := mkPool {
  pool_node_name : string;
  pool_name : string;
  pool_queue : string;
  pool_rejected : string;
  pool_queue_size : string
}.

(** One node of [nodes.stats]: [name], [jvm.mem.heap_used_percent],
    [jvm.gc.collectors.old.collection_count], [os.cpu.percent]. *)
Record node : Type := mkNode {
  node_name : string;
  heap_used_percent : Z;
  old_collection_count : Z;
  cpu_percent : Z
}.

(** [indices[indexName].total] of [indices.stats]: [indexing.index_total],
    [indexing.index_time_in_millis], [refresh.total],
    [refresh.total_time_in_millis]. *)
Record index_total : Type := mkIndexTotal {
  indexing_index_total : Z;
  indexing_index_time_in_millis : Z;
  refresh_total : Z;
  refresh_total_time_in_millis : Z
}.

Record index_settings : Type := mkIndexSettings {
  number_of_shards : string;
  number_of_replicas : string;
  refresh_interval : option string
}.

Record settings_body : Type := mkSettings {
  persistent : list (string * string);
  defaults : list (string * string)
}.

Record pending_task : Type := mkPendingTask {
  priority : string;
  source : string;
  time_in_queue_millis : Z
}.

Record task : Type := mkTask {
  action : option string;
  running_time_in_nanos : Z
}.

Record breaker : Type := mkBreaker {
  estimated_size_in_bytes : Z;
  limit_size_in_bytes : Z;
  tripped : Z
}.

Record breaker_node : Type := mkBreakerNode {
  breaker_node_name : string;
  breakers : list (string * breaker)
}.

Record cache_stats : Type := mkCacheStats {
  evictions : Z
}.

(** [node.indices] of [nodes.stats] with metric [indices]. *)
Record cache_node : Type := mkCacheNode {
  cache_node_name : string;
  query_cache : option cache_stats;
  fielddata : option cache_stats;
  request_cache : option cache_stats
}.

(** [indices[indexName].total.segments]: [count], [memory_in_bytes]. *)
Record segments_body : Type := mkSegments {
  segments_count : Z;
  segments_memory_in_bytes : Z
}.

(** *** Values returned by the check methods *)

Record active_tasks : Type := mkActiveTasks {
  total : Z;
  searchTasks : Z;
  longRunning5s : Z;
  longRunning10s : Z;
  longRunning30s : Z;
  tasks : list task
}.

Record circuit_breaker_status : Type := mkBreakerStatus {
  breaker_nodes : list breaker_node;
  totalTrips : Z
}.

Record cache_metrics : Type := mkCacheMetrics {
  queryCacheEvictions : Z;
  fieldDataEvictions : Z;
  cache_nodes : list cache_node
}.

Record segment_stats : Type := mkSegmentStats {
  count : Z;
  memoryInBytes : Z;
  segments : segments_body
}.

Record queue_metrics : Type := mkQueueMetrics {
  maxSaturation : JS.number;
  poolData : list pool
}.

Record hot_threads : Type := mkHotThreads {
  hot_summary : string
}.

(** *** Entries of the two lists of the summary

    An entry stands for the template string that the analysis pushes,
    together with the values interpolated into it. *)

Inductive issue : Type :=
| ClusterRed                                   (* CLUSTER STATUS IS RED *)
| PoolRejections (name rejected : string)      (* thread pool has N rejections *)
| JvmCritical (name : string) (heapPercent : Z)
| CpuCritical (name : string) (cpuPercent : Z)
| RefreshCritical (avgRefreshTime : JS.number)
| LongRunning30s (n : Z)                       (* queries running >30s *)
| BreakersTripped (n : Z)
| QueueSaturationCritical (maxSaturation : JS.number).

Inductive warning : Type :=
| ClusterYellow
| PoolQueueFull (name : string) (percentFull : JS.number)
| JvmHigh (name : string) (heapPercent : Z)
| CpuHigh (name : string) (cpuPercent : Z)
| OldGenCollections (name : string) (oldGC : Z)
| RefreshHigh (avgRefreshTime : JS.number)
| PendingTasks (n : Z)
| LongRunning10s (n : Z)
| LongRunning5s (n : Z)
| QueueSaturationHigh (maxSaturation : JS.number)
| SegmentsGreenDot (n : Z)                     (* pms_green_dot has N segments *)
| SegmentsUserRooms (n : Z)                    (* pms-user-rooms has N segments *)
| QueryCacheEvictions (n : Z)
| FieldDataEvictions (n : Z).

Record Summary : Type := mkSummary {
  critical_issues : list issue;
  warnings : list warning;
  health_status : string;
  active_searches : Z;
  long_running_queries_5s : Z;
  long_running_queries_10s : Z;
  long_running_queries_30s : Z;
  circuit_breaker_trips : Z;
  search_queue_saturation_pct : JS.number
}.

(** [interface MetricsResult]; [None] is [null]. *)
Record MetricsResult : Type := mkMetricsResult {
  timestamp : string;
  clusterHealth : option health_body;
  threadPoolStats : option (list pool);
  nodeStats : option (list node);
  indexStats : option index_total;
  indexStatsUserRooms : option index_total;
  clusterStats : option settings_body;
  pendingTasks : option (list pending_task);
  activeTasks : option active_tasks;
  circuitBreakerStatus : option circuit_breaker_status;
  cacheMetrics : option cache_metrics;
  segmentStats : option segment_stats;
  segmentStatsUserRooms : option segment_stats;
  hotThreads : option hot_threads;
  queueMetrics : option queue_metrics;
  summary : Summary
}.

(** The summary that [runFullCheck] puts in a fresh [metrics] object. *)
Definition initial_summary : Summary :=
  mkSummary [] [] "unknown" 0 0 0 0 0 (JS.of_Z 0).

(** *** The cluster as seen by one poll cycle

    One outcome per call site of the cycle, in the order of the calls. *)

Inductive outcome (A : Type) : Type :=
| Resolved (body : A)
| Rejected (error : string).
Arguments Resolved {A} body.
Arguments Rejected {A} error.

Record environment : Type := mkEnvironment {
  env_parameter : outcome (option string);            (* ssmClient.send *)
  env_health : outcome health_body;                   (* checkClusterHealth *)
  env_threadPool : outcome (list pool);               (* checkThreadPools *)
  env_nodes : outcome (list node);                    (* checkNodeStats *)
  env_indexStats : string -> outcome (option index_total);
  env_indexSettings : string -> outcome (option index_settings);
  env_clusterSettings : outcome settings_body;
  env_pendingTasks : outcome (list pending_task);
  env_tasks : outcome (option (list task));           (* checkActiveTasks *)
  env_breakers : outcome (list breaker_node);
  env_caches : outcome (list cache_node);
  env_segments : string -> outcome (option segments_body);
  env_threadPoolQueue : outcome (list pool);          (* checkQueueMetrics *)
  env_hotThreads : outcome string
}.

(** The client calls, as they appear in the log of a cycle. *)
Inductive request : Type :=
| ssm_send
| cluster_health
| cat_threadPool
| nodes_stats (metric : list string)
| indices_stats (index : string) (metric : list string)
| indices_getSettings (index : string)
| cluster_getSettings
| cluster_pendingTasks
| tasks_list
| nodes_hotThreads.

(** One cell of a line of the summary CSV, before [join(',')].
    [CFixed2 x] is the text [x.toFixed(2)]. *)
Inductive cell : Type :=
| CString (s : string)
| CInt (z : Z)
| CFixed2 (x : JS.number).

(** What a cycle leaves behind: the calls it made, whether the directory
    [metrics-output/] exists, the JSON snapshots written in it, and its CSV
    file ([None] while it does not exist). *)
Record world : Type := mkWorld {
  requests : list request;
  output_dir : bool;
  json_files : list MetricsResult;
  csv_file : option (list (list cell))
}.

(** Before the first cycle: no call made, no directory. *)
Definition empty_world : world := mkWorld [] false [] None.

(** *** Completion of an async method: a value or a thrown error, in a world *)

Inductive result (A : Type) : Type :=
| Ok (value : A)
| Throw (error : string).
Arguments Ok {A} value.
Arguments Throw {A} error.

Definition M (A : Type) : Type := world -> world * result A.

Definition ret {A : Type} (a : A) : M A := fun w => (w, Ok a).

Definition throw {A : Type} (error : string) : M A := fun w => (w, Throw error).

Definition bind {A B : Type} (m : M A) (k : A -> M B) : M B :=
  fun w =>
    match m w with
    | (w', Ok a) => k a w'
    | (w', Throw e) => (w', Throw e)
    end.

(** [try { body } catch (error) { handler }] *)
Definition try_catch {A : Type} (body : M A) (handler : string -> M A) : M A :=
  fun w =>
    match body w with
    | (w', Ok a) => (w', Ok a)
    | (w', Throw e) => handler e w'
    end.

Definition logged (req : request) (w : world) : world :=
  mkWorld (requests w ++ [req]) (output_dir w) (json_files w) (csv_file w).

(** [await client.call(...)]: the call is logged and its outcome taken from
    the environment. *)
Definition await {A : Type} (req : request) (o : outcome A) : M A :=
  fun w =>
    (logged req w,
     match o with
     | Resolved b => Ok b
     | Rejected e => Throw e
     end).

Notation "x <- m ;; k" := (bind m (fun x => k))
  (at level 100, m at next level, right associativity).

(** [xs.includes(x)] on an array of strings. *)
Definition array_includes (xs : list string) (x : string) : bool :=
  existsb (String.eqb x) xs.

(** [xs.length] *)
Definition length_of {A : Type} (xs : list A) : Z := Z.of_nat (List.length xs).

(** *** The check methods *)

Definition no_host_error : string :=
  "Failed to retrieve OpenSearch URL from Parameter Store".

Definition initializeOpenSearchClient (env : environment) : M string :=
  try_catch
    (host <- await ssm_send (env_parameter env) ;;
     match host with
     | Some h => if String.eqb h "" then throw no_host_error else ret h
     | None => throw no_host_error
     end)
    (fun error => throw error).

Definition checkClusterHealth (env : environment) : M health_body :=
  health <- await cluster_health (env_health env) ;;
  ret health.

Definition checkThreadPools (env : environment) : M (list pool) :=
  stats <- await cat_threadPool (env_threadPool env) ;;
  let pools := ["write"; "bulk"; "search"; "get"; "index"; "refresh"] in
  let poolData := filter (fun p => array_includes pools (pool_name p)) stats in
  ret poolData.

(** The annotation printed after a node's "JVM Memory Pressure" line. *)
Definition heapWarning (heapUsedPercent : Z) : string :=
  if 75 <? heapUsedPercent then " ⚠️ HIGH"
  else if 85 <? heapUsedPercent then " 🔴 CRITICAL"
  else "".

(** The annotation printed after a node's "CPU Utilization" line. *)
Definition cpuWarning (cpuPercent : Z) : string :=
  if 80 <? cpuPercent then " ⚠️ HIGH"
  else if 90 <? cpuPercent then " 🔴 CRITICAL"
  else "".

Definition checkNodeStats (env : environment) : M (list node) :=
  nodes <- await (nodes_stats ["jvm"; "os"; "indices"; "thread_pool"])
                 (env_nodes env) ;;
  ret nodes.

Definition checkIndexStats (env : environment) (indexName : string)
  : M (option index_total) :=
  try_catch
    (indexData <- await (indices_stats indexName
                           ["indexing"; "search"; "refresh"; "flush"; "merge"])
                        (env_indexStats env indexName) ;;
     match indexData with
     | None => ret None
     | Some total => ret (Some total)
     end)
    (fun _ => ret None).

Definition checkIndexSettings (env : environment) (indexName : string)
  : M (option index_settings) :=
  try_catch
    (indexSettings <- await (indices_getSettings indexName)
                            (env_indexSettings env indexName) ;;
     ret indexSettings)
    (fun _ => ret None).

Definition checkClusterSettings (env : environment) : M settings_body :=
  settings <- await cluster_getSettings (env_clusterSettings env) ;;
  ret settings.

Definition checkPendingTasks (env : environment) : M (list pending_task) :=
  tasks <- await cluster_pendingTasks (env_pendingTasks env) ;;
  ret tasks.

(** [t.action?.includes('search') || t.action?.includes('query')] *)
Definition is_search_task (t : task) : bool :=
  match action t with
  | Some a => JS.includes a "search" || JS.includes a "query"
  | None => false
  end.

(** The body of the [try] of [checkActiveTasks], after the call. *)
Definition activeTasks_of (body : option (list task)) : active_tasks :=
  let allTasks := match body with Some ts => ts | None => [] end in
  let taskList := allTasks in
  let searchTasks := filter is_search_task taskList in
  let longRunning5s :=
    filter (fun t => 5000000000 <? running_time_in_nanos t) searchTasks in
  let longRunning10s :=
    filter (fun t => 10000000000 <? running_time_in_nanos t) searchTasks in
  let longRunning30s :=
    filter (fun t => 30000000000 <? running_time_in_nanos t) searchTasks in
  mkActiveTasks (length_of taskList) (length_of searchTasks)
    (length_of longRunning5s) (length_of longRunning10s)
    (length_of longRunning30s) (JS.slice0 20 searchTasks).

Definition no_activeTasks : active_tasks := mkActiveTasks 0 0 0 0 0 [].

Definition checkActiveTasks (env : environment) : M active_tasks :=
  try_catch
    (tasks <- await tasks_list (env_tasks env) ;;
     ret (activeTasks_of tasks))
    (fun _ => ret no_activeTasks).

Definition breakerStatus_of (nodes : list breaker_node)
  : circuit_breaker_status :=
  let totalTrips :=
    fold_left
      (fun totalTrips node =>
         fold_left
           (fun totalTrips (entry : string * breaker) =>
              let (breakerName, breaker) := entry in
              if String.eqb breakerName "parent"
                 || String.eqb breakerName "request"
                 || String.eqb breakerName "fielddata"
              then totalTrips + tripped breaker
              else totalTrips)
           (breakers node) totalTrips)
      nodes 0 in
  mkBreakerStatus nodes totalTrips.

Definition no_breakerStatus : circuit_breaker_status := mkBreakerStatus [] 0.

Definition checkCircuitBreakerStatus (env : environment)
  : M circuit_breaker_status :=
  try_catch
    (nodes <- await (nodes_stats ["breaker"]) (env_breakers env) ;;
     ret (breakerStatus_of nodes))
    (fun _ => ret no_breakerStatus).

(** The guard of the "HIGH CACHE EVICTION RATE" console line. *)
Definition highCacheEvictionRate
  (totalQueryCacheEvictions totalFieldDataEvictions : Z) : bool :=
  (5000 <? totalQueryCacheEvictions) || (500 <? totalFieldDataEvictions).

Definition cacheMetrics_of (nodes : list cache_node) : cache_metrics :=
  let totalQueryCacheEvictions :=
    fold_left
      (fun acc node =>
         match query_cache node with
         | Some qc => acc + evictions qc
         | None => acc
         end) nodes 0 in
  let totalFieldDataEvictions :=
    fold_left
      (fun acc node =>
         match fielddata node with
         | Some fd => acc + evictions fd
         | None => acc
         end) nodes 0 in
  mkCacheMetrics totalQueryCacheEvictions totalFieldDataEvictions nodes.

Definition no_cacheMetrics : cache_metrics := mkCacheMetrics 0 0 [].

Definition checkCacheMetrics (env : environment) : M cache_metrics :=
  try_catch
    (nodes <- await (nodes_stats ["indices"]) (env_caches env) ;;
     ret (cacheMetrics_of nodes))
    (fun _ => ret no_cacheMetrics).

Definition segmentStats_of (indexData : option segments_body)
  : option segment_stats :=
  match indexData with
  | None => None
  | Some segments =>
      Some (mkSegmentStats (segments_count segments)
              (segments_memory_in_bytes segments) segments)
  end.

Definition checkSegmentStats (env : environment) (indexName : string)
  : M (option segment_stats) :=
  try_catch
    (indexData <- await (indices_stats indexName ["segments"])
                        (env_segments env indexName) ;;
     ret (segmentStats_of indexData))
    (fun _ => ret None).

(** [parseFloat(saturation)] for one row of the cat API.  The text comes
    from [((queueDepth / queueSize) * 100).toFixed(2)], whose digits depend on
    the last bit of the quotient and of the product, so the Number that
    holds each of them is written out. *)
Definition saturation (p : pool) : JS.number :=
  let queueSize := JS.parseInt (pool_queue_size p) in
  let queueDepth := JS.parseInt (pool_queue p) in
  if JS.gt queueSize (JS.of_Z 0)
  then JS.parseFloat_toFixed2
         (JS.to_binary64
            (JS.mul (JS.to_binary64 (JS.div queueDepth queueSize))
                    (JS.of_Z 100)))
  else JS.of_Z 0.

Definition queueMetrics_of (stats : list pool) : queue_metrics :=
  let pools := ["write"; "bulk"; "search"; "get"] in
  let poolData := filter (fun p => array_includes pools (pool_name p)) stats in
  let maxSaturation :=
    fold_left
      (fun maxSaturation poolName =>
         let poolEntries :=
           filter (fun p => String.eqb (pool_name p) poolName) poolData in
         fold_left (fun maxSaturation p => JS.max maxSaturation (saturation p))
           poolEntries maxSaturation)
      pools (JS.of_Z 0) in
  mkQueueMetrics maxSaturation poolData.

Definition no_queueMetrics : queue_metrics := mkQueueMetrics (JS.of_Z 0) [].

Definition checkQueueMetrics (env : environment) : M queue_metrics :=
  try_catch
    (stats <- await cat_threadPool (env_threadPoolQueue env) ;;
     ret (queueMetrics_of stats))
    (fun _ => ret no_queueMetrics).

Definition hotThreads_of (output : string) : hot_threads :=
  let lines := JS.slice0 30 (JS.split_lines output) in
  mkHotThreads (JS.join_lines (JS.slice0 15 lines)).

Definition no_hotThreads : hot_threads := mkHotThreads "Not available".

Definition checkHotThreads (env : environment) : M hot_threads :=
  try_catch
    (output <- await nodes_hotThreads (env_hotThreads env) ;;
     ret (hotThreads_of output))
    (fun _ => ret no_hotThreads).

(** *** analyzeCriticalIssues

    The two local arrays and the summary that the method mutates in place. *)

Record analysis : Type := mkAnalysis {
  issues : list issue;
  warns : list warning;
  current : Summary
}.

Definition push_issue (x : issue) (a : analysis) : analysis :=
  mkAnalysis (issues a ++ [x]) (warns a) (current a).

Definition push_warning (x : warning) (a : analysis) : analysis :=
  mkAnalysis (issues a) (warns a ++ [x]) (current a).

Definition set_active (t : active_tasks) (a : analysis) : analysis :=
  let s := current a in
  mkAnalysis (issues a) (warns a)
    (mkSummary (critical_issues s) (warnings s) (health_status s)
       (searchTasks t) (longRunning5s t) (longRunning10s t) (longRunning30s t)
       (circuit_breaker_trips s) (search_queue_saturation_pct s)).

Definition set_circuit_breaker_trips (n : Z) (a : analysis) : analysis :=
  let s := current a in
  mkAnalysis (issues a) (warns a)
    (mkSummary (critical_issues s) (warnings s) (health_status s)
       (active_searches s) (long_running_queries_5s s)
       (long_running_queries_10s s) (long_running_queries_30s s)
       n (search_queue_saturation_pct s)).

Definition set_search_queue_saturation_pct (x : JS.number) (a : analysis)
  : analysis :=
  let s := current a in
  mkAnalysis (issues a) (warns a)
    (mkSummary (critical_issues s) (warnings s) (health_status s)
       (active_searches s) (long_running_queries_5s s)
       (long_running_queries_10s s) (long_running_queries_30s s)
       (circuit_breaker_trips s) x).

Definition set_summary (s : Summary) (m : MetricsResult) : MetricsResult :=
  mkMetricsResult (timestamp m) (clusterHealth m) (threadPoolStats m)
    (nodeStats m) (indexStats m) (indexStatsUserRooms m) (clusterStats m)
    (pendingTasks m) (activeTasks m) (circuitBreakerStatus m) (cacheMetrics m)
    (segmentStats m) (segmentStatsUserRooms m) (hotThreads m) (queueMetrics m)
    s.

(** Reading a property of [null]. *)
Definition null_error : string :=
  "TypeError: Cannot read properties of null".

Definition check_health (health : health_body) (a : analysis) : analysis :=
  if String.eqb (status health) "red" then push_issue ClusterRed a
  else if String.eqb (status health) "yellow" then push_warning ClusterYellow a
  else a.

(** The callback of [metrics.threadPoolStats.forEach]. *)
Definition check_pool (a : analysis) (pool : pool) : analysis :=
  let a :=
    if JS.gt (JS.parseInt (pool_rejected pool)) (JS.of_Z 0)
    then push_issue (PoolRejections (pool_name pool) (pool_rejected pool)) a
    else a in
  let queueSize := JS.parseInt (pool_queue_size pool) in
  let queueDepth := JS.parseInt (pool_queue pool) in
  if JS.gt queueSize (JS.of_Z 0)
     && JS.gt queueDepth (JS.mul queueSize (JS.Fin (8 # 10)))
  then push_warning
         (PoolQueueFull (pool_name pool)
            (JS.mul (JS.div queueDepth queueSize) (JS.of_Z 100))) a
  else a.

(** The callback of [metrics.nodeStats.forEach]. *)
Definition check_node (a : analysis) (node : node) : analysis :=
  let heapPercent := heap_used_percent node in
  let a :=
    if 85 <? heapPercent
    then push_issue (JvmCritical (node_name node) heapPercent) a
    else if 75 <? heapPercent
    then push_warning (JvmHigh (node_name node) heapPercent) a
    else a in
  let cpuPercent := cpu_percent node in
  let a :=
    if 90 <? cpuPercent
    then push_issue (CpuCritical (node_name node) cpuPercent) a
    else if 80 <? cpuPercent
    then push_warning (CpuHigh (node_name node) cpuPercent) a
    else a in
  let oldGC := old_collection_count node in
  if 10 <? oldGC
  then push_warning (OldGenCollections (node_name node) oldGC) a
  else a.

Definition check_refresh (indexStats : option index_total) (a : analysis)
  : analysis :=
  match indexStats with
  | None => a
  | Some stats =>
      let avgRefreshTime :=
        if 0 <? refresh_total stats
        then JS.div (JS.of_Z (refresh_total_time_in_millis stats))
                    (JS.of_Z (refresh_total stats))
        else JS.of_Z 0 in
      if JS.gt avgRefreshTime (JS.of_Z 100)
      then push_issue (RefreshCritical avgRefreshTime) a
      else if JS.gt avgRefreshTime (JS.of_Z 50)
      then push_warning (RefreshHigh avgRefreshTime) a
      else a
  end.

Definition check_pending (pending : list pending_task) (a : analysis)
  : analysis :=
  if 10 <? length_of pending
  then push_warning (PendingTasks (length_of pending)) a
  else a.

Definition check_active (activeTasks : option active_tasks) (a : analysis)
  : analysis :=
  match activeTasks with
  | None => a
  | Some t =>
      let a :=
        if 0 <? longRunning30s t
        then push_issue (LongRunning30s (longRunning30s t)) a else a in
      let a :=
        if 0 <? longRunning10s t
        then push_warning (LongRunning10s (longRunning10s t)) a else a in
      let a :=
        if 5 <? longRunning5s t
        then push_warning (LongRunning5s (longRunning5s t)) a else a in
      set_active t a
  end.

Definition check_breakers (cb : option circuit_breaker_status) (a : analysis)
  : analysis :=
  match cb with
  | None => a
  | Some cb =>
      if 0 <? totalTrips cb
      then set_circuit_breaker_trips (totalTrips cb)
             (push_issue (BreakersTripped (totalTrips cb)) a)
      else a
  end.

Definition check_queue (qm : option queue_metrics) (a : analysis) : analysis :=
  match qm with
  | None => a
  | Some qm =>
      if JS.gt (maxSaturation qm) (JS.of_Z 80)
      then set_search_queue_saturation_pct (maxSaturation qm)
             (push_issue (QueueSaturationCritical (maxSaturation qm)) a)
      else if JS.gt (maxSaturation qm) (JS.of_Z 50)
      then set_search_queue_saturation_pct (maxSaturation qm)
             (push_warning (QueueSaturationHigh (maxSaturation qm)) a)
      else a
  end.

Definition check_segments (greenDot userRooms : option segment_stats)
  (a : analysis) : analysis :=
  let a :=
    match greenDot with
    | Some s =>
        if 500 <? count s then push_warning (SegmentsGreenDot (count s)) a
        else a
    | None => a
    end in
  match userRooms with
  | Some s =>
      if 500 <? count s then push_warning (SegmentsUserRooms (count s)) a
      else a
  | None => a
  end.

Definition check_caches (cm : option cache_metrics) (a : analysis) : analysis :=
  match cm with
  | None => a
  | Some cm =>
      let a :=
        if 10000 <? queryCacheEvictions cm
        then push_warning (QueryCacheEvictions (queryCacheEvictions cm)) a
        else a in
      if 1000 <? fieldDataEvictions cm
      then push_warning (FieldDataEvictions (fieldDataEvictions cm)) a
      else a
  end.

(** [async analyzeCriticalIssues(metrics)]: the snapshot with its summary
    replaced, or the [TypeError] of reading a group that is [null] without a
    guard. *)
Definition analyzeCriticalIssues (metrics : MetricsResult)
  : result MetricsResult :=
  let a := mkAnalysis [] [] (summary metrics) in
  match clusterHealth metrics with
  | None => Throw null_error
  | Some health =>
  let a := check_health health a in
  match threadPoolStats metrics with
  | None => Throw null_error
  | Some pools =>
  let a := fold_left check_pool pools a in
  match nodeStats metrics with
  | None => Throw null_error
  | Some nodes =>
  let a := fold_left check_node nodes a in
  let a := check_refresh (indexStats metrics) a in
  match pendingTasks metrics with
  | None => Throw null_error
  | Some pending =>
  let a := check_pending pending a in
  let a := check_active (activeTasks metrics) a in
  let a := check_breakers (circuitBreakerStatus metrics) a in
  let a := check_queue (queueMetrics metrics) a in
  let a := check_segments (segmentStats metrics)
             (segmentStatsUserRooms metrics) a in
  let a := check_caches (cacheMetrics metrics) a in
  Ok (set_summary
        (mkSummary (issues a) (warns a) (status health)
           (active_searches (current a))
           (long_running_queries_5s (current a))
           (long_running_queries_10s (current a))
           (long_running_queries_30s (current a))
           (circuit_breaker_trips (current a))
           (search_queue_saturation_pct (current a)))
        metrics)
  end end end end.

(** *** saveSummaryCSV *)

Definition headers : list string :=
  [ "timestamp"; "cluster_status"; "active_nodes"; "pending_tasks";
    "write_rejections"; "bulk_rejections"; "search_rejections";
    "jvm_memory_percent"; "cpu_percent"; "avg_refresh_time_ms";
    "indexing_rate"; "critical_issues_count"; "warnings_count";
    "active_searches"; "long_running_queries_5s"; "long_running_queries_10s";
    "long_running_queries_30s"; "circuit_breaker_trips";
    "search_queue_saturation_pct"; "segment_count_pms_green_dot";
    "segment_count_pms_user_rooms"; "query_cache_evictions";
    "field_data_evictions" ].

(** [x || 0] on a possibly undefined integer. *)
Definition int_or_0 (o : option Z) : Z :=
  match o with
  | Some z => if z =? 0 then 0 else z
  | None => 0
  end.

(** [metrics.threadPoolStats?.find(p => p.name === name)] *)
Definition find_pool (name : string) (metrics : MetricsResult) : option pool :=
  match threadPoolStats metrics with
  | Some pools => find (fun p => String.eqb (pool_name p) name) pools
  | None => None
  end.

(** [pool?.rejected || 0]: the string of the row unless it is empty. *)
Definition rejected_or_0 (p : option pool) : cell :=
  match p with
  | Some p =>
      if String.eqb (pool_rejected p) "" then CInt 0
      else CString (pool_rejected p)
  | None => CInt 0
  end.

(** The array [row] built by [saveSummaryCSV]. *)
Definition summary_row (metrics : MetricsResult) : list cell :=
  let writePool := find_pool "write" metrics in
  let bulkPool := find_pool "bulk" metrics in
  let searchPool := find_pool "search" metrics in
  let firstNode :=
    match nodeStats metrics with
    | Some nodes => nth_error nodes 0
    | None => None
    end in
  let avgRefreshTime :=
    match indexStats metrics with
    | Some stats =>
        if 0 <? refresh_total stats
        then CFixed2 (JS.div (JS.of_Z (refresh_total_time_in_millis stats))
                             (JS.of_Z (refresh_total stats)))
        else CString "0"
    | None => CString "0"
    end in
  let indexingRate :=
    match indexStats metrics with
    | Some stats =>
        if negb (indexing_index_time_in_millis stats =? 0)
        then CFixed2
               (JS.div (JS.of_Z (indexing_index_total stats))
                  (JS.div (JS.of_Z (indexing_index_time_in_millis stats))
                          (JS.of_Z 1000)))
        else CString "0"
    | None => CString "0"
    end in
  [ CString (timestamp metrics);
    CString (match clusterHealth metrics with
             | Some h => if String.eqb (status h) "" then "unknown"
                         else status h
             | None => "unknown"
             end);
    CInt (int_or_0 (option_map number_of_nodes (clusterHealth metrics)));
    CInt (int_or_0 (option_map length_of (pendingTasks metrics)));
    rejected_or_0 writePool;
    rejected_or_0 bulkPool;
    rejected_or_0 searchPool;
    CInt (int_or_0 (option_map heap_used_percent firstNode));
    CInt (int_or_0 (option_map cpu_percent firstNode));
    avgRefreshTime;
    indexingRate;
    CInt (length_of (critical_issues (summary metrics)));
    CInt (length_of (warnings (summary metrics)));
    CInt (active_searches (summary metrics));
    CInt (long_running_queries_5s (summary metrics));
    CInt (long_running_queries_10s (summary metrics));
    CInt (long_running_queries_30s (summary metrics));
    CInt (circuit_breaker_trips (summary metrics));
    CFixed2 (search_queue_saturation_pct (summary metrics));
    CInt (int_or_0 (option_map count (segmentStats metrics)));
    CInt (int_or_0 (option_map count (segmentStatsUserRooms metrics)));
    CInt (int_or_0 (option_map queryCacheEvictions (cacheMetrics metrics)));
    CInt (int_or_0 (option_map fieldDataEvictions (cacheMetrics metrics))) ].

(** The error of [fs.writeFileSync] on a file whose directory does not
    exist; the message goes on with the path of the file. *)
Definition no_directory_error : string :=
  "ENOENT: no such file or directory".

(** The method does not create [metrics-output/]: without it
    [fs.existsSync(csvFile)] is false and [fs.writeFileSync] throws. *)
Definition saveSummaryCSV (metrics : MetricsResult) : M unit :=
  fun w =>
    if output_dir w
    then
      let file :=
        match csv_file w with
        | None => [map CString headers]
        | Some lines => lines
        end in
      (mkWorld (requests w) true (json_files w)
         (Some (file ++ [summary_row metrics])%list),
       Ok tt)
    else (w, Throw no_directory_error).

(** [if (!fs.existsSync(dir)) { fs.mkdirSync(dir, { recursive: true }) }] *)
Definition ensure_directory : M unit :=
  fun w => (mkWorld (requests w) true (json_files w) (csv_file w), Ok tt).

(** [fs.writeFileSync(filepath, JSON.stringify(metrics, null, 2))] *)
Definition write_json (metrics : MetricsResult) : M unit :=
  fun w =>
    if output_dir w
    then (mkWorld (requests w) true (json_files w ++ [metrics]) (csv_file w),
          Ok tt)
    else (w, Throw no_directory_error).

Definition lift {A : Type} (r : result A) : M A := fun w => (w, r).

(** *** runFullCheck

    The fields of the local [metrics] object are assigned one by one; the
    object is only observed once all of them are, so it is built at that
    point. *)
Definition runFullCheck (saveToFile : bool) (timestamp : string)
  (env : environment) : M MetricsResult :=
  try_catch
    (_ <- initializeOpenSearchClient env ;;
     clusterHealth <- checkClusterHealth env ;;
     threadPoolStats <- checkThreadPools env ;;
     nodeStats <- checkNodeStats env ;;
     indexStats <- checkIndexStats env "pms_green_dot" ;;
     indexStatsUserRooms <- checkIndexStats env "pms-user-rooms" ;;
     _ <- checkIndexSettings env "pms_green_dot" ;;
     _ <- checkIndexSettings env "pms-user-rooms" ;;
     clusterStats <- checkClusterSettings env ;;
     pendingTasks <- checkPendingTasks env ;;
     activeTasks <- checkActiveTasks env ;;
     circuitBreakerStatus <- checkCircuitBreakerStatus env ;;
     cacheMetrics <- checkCacheMetrics env ;;
     segmentStats <- checkSegmentStats env "pms_green_dot" ;;
     segmentStatsUserRooms <- checkSegmentStats env "pms-user-rooms" ;;
     queueMetrics <- checkQueueMetrics env ;;
     hotThreads <- checkHotThreads env ;;
     let metrics :=
       mkMetricsResult timestamp (Some clusterHealth) (Some threadPoolStats)
         (Some nodeStats) indexStats indexStatsUserRooms (Some clusterStats)
         (Some pendingTasks) (Some activeTasks) (Some circuitBreakerStatus)
         (Some cacheMetrics) segmentStats segmentStatsUserRooms
         (Some hotThreads) (Some queueMetrics) initial_summary in
     metrics <- lift (analyzeCriticalIssues metrics) ;;
     _ <- (if saveToFile
           then (_ <- ensure_directory ;;
                 _ <- write_json metrics ;;
                 saveSummaryCSV metrics)
           else ret tt) ;;
     ret metrics)
    (fun error => throw error).

(** *** main *)

(** [process.argv.includes('--continuous')] *)
Definition continuousMode (argv : list string) : bool :=
  array_includes argv "--continuous".

(** [parseInt(process.argv.find(arg => arg.startsWith('--interval='))
              ?.split('=')[1] || '30')] *)
Definition interval (argv : list string) : JS.number :=
  let flag := find (fun arg => String.prefix "--interval=" arg) argv in
  let value :=
    match flag with
    | Some arg => nth_error (JS.split_on "="%char arg) 1
    | None => None
    end in
  JS.parseInt
    (match value with
     | Some v => if String.eqb v "" then "30" else v
     | None => "30"
     end).

(** One pass of the body of the [while (true)] loop of [main]: the error of
    a cycle that throws is printed and dropped.  The two [setTimeout] waits
    are not part of the state. *)
Definition continuous_cycle (timestamp : string) (env : environment) : M unit :=
  try_catch
    (_ <- runFullCheck true timestamp env ;; ret tt)
    (fun _ => ret tt).

(** The first passes of the loop, each with the time at which it starts and
    the cluster as it answers during that pass. *)
Fixpoint continuous (cycles : list (string * environment)) : M unit :=
  match cycles with
  | [] => ret tt
  | (timestamp, env) :: rest =>
      _ <- continuous_cycle timestamp env ;; continuous rest
  end.

End Metrics.

(* ================================================================== *)
(** ** Vocabulary of the statements: sample inputs and predicates *)
(* ================================================================== *)

Module LoadSamples.

Import ChatLoadTest.

Definition timeout_response : response := mkResponse 0 1050 None.
Definition ok_response : response := mkResponse 200 0 (Some "{}").
Definition error_response : response := mkResponse 500 0 (Some "boom").
Definition slowdown_response : response :=
  mkResponse 503 0 (Some "<Code>SlowDown</Code>").

(** A response whose status says success while its error code says timeout. *)
Definition late_success_response : response := mkResponse 200 1050 None.

(** Exactly one of three booleans holds. *)
Definition exactly_one (a b c : bool) : bool :=
  (a && negb b && negb c) || (negb a && b && negb c)
  || (negb a && negb b && c).

(** How many of the responses of a run satisfy a condition. *)
Definition occurrences (cond : response -> bool) (evs : list (Z * response))
  : Z :=
  Z.of_nat (List.length (filter (fun e => cond (snd e)) evs)).



End LoadSamples.

Module MetricsSamples.

Import Metrics.

(** What a guarded group holds after its fetch: the value computed from the
    body, or the fallback of the [catch]. *)
Definition settle {A B : Type} (o : outcome A) (f : A -> B) (fallback : B) : B :=
  match o with
  | Resolved body => f body
  | Rejected _ => fallback
  end.

(** The calls of a complete cycle, in order. *)
Definition all_requests : list request :=
  [ ssm_send; cluster_health; cat_threadPool;
    nodes_stats ["jvm"; "os"; "indices"; "thread_pool"];
    indices_stats "pms_green_dot"
      ["indexing"; "search"; "refresh"; "flush"; "merge"];
    indices_stats "pms-user-rooms"
      ["indexing"; "search"; "refresh"; "flush"; "merge"];
    indices_getSettings "pms_green_dot";
    indices_getSettings "pms-user-rooms";
    cluster_getSettings; cluster_pendingTasks; tasks_list;
    nodes_stats ["breaker"]; nodes_stats ["indices"];
    indices_stats "pms_green_dot" ["segments"];
    indices_stats "pms-user-rooms" ["segments"];
    cat_threadPool; nodes_hotThreads ].

(** The world in which the first [k] calls of a cycle have been made and
    nothing else has changed. *)
Definition calls_made (k : nat) (w : world) : world :=
  mkWorld (requests w ++ firstn k all_requests) (output_dir w) (json_files w)
    (csv_file w).

(** A healthy three-node cluster in which nothing crosses a threshold,
    except for what the arguments say: the outcome of the health call, the
    rows of the two thread-pool calls, the per-node caches and the nodes. *)
Definition cluster_with (health : outcome health_body)
  (threadPool threadPoolQueue : outcome (list pool))
  (caches : list cache_node) (nodes : list node) : environment :=
  mkEnvironment (Resolved (Some "https://search.example"))
    health threadPool (Resolved nodes)
    (fun _ => Resolved (Some (mkIndexTotal 1000 5000 10 200)))
    (fun _ => Resolved (Some (mkIndexSettings "1" "1" None)))
    (Resolved (mkSettings [] []))
    (Resolved [])
    (Resolved (Some []))
    (Resolved [])
    (Resolved caches)
    (fun _ => Resolved (Some (mkSegments 40 1024)))
    threadPoolQueue
    (Resolved "").

Definition green : outcome health_body := Resolved (mkHealth "green" 3).

Definition calm_nodes : list node :=
  [mkNode "node-1" 40 2 10; mkNode "node-2" 45 3 12; mkNode "node-3" 41 1 9].

(** A row of the cat API for a pool with the given queue depth and size. *)
Definition pool_row (name queue queue_size : string) : pool :=
  mkPool "node-1" name queue "0" queue_size.

Definition is_pool_queue_warning (w : warning) : bool :=
  match w with PoolQueueFull _ _ => true | _ => false end.

Definition is_queue_saturation_warning (w : warning) : bool :=
  match w with QueueSaturationHigh _ => true | _ => false end.

Definition is_queue_saturation_issue (i : issue) : bool :=
  match i with QueueSaturationCritical _ => true | _ => false end.

Definition is_cache_warning (w : warning) : bool :=
  match w with
  | QueryCacheEvictions _ | FieldDataEvictions _ => true
  | _ => false
  end.

(** The queue of the row is filled beyond [num/den] of its positive size:
    [depth * den > size * num].  A depth that reads as [Infinity] is beyond
    any part of a finite size. *)
Definition fill_exceeds (num den : Z) (p : pool) : bool :=
  match JS.parseInt (pool_queue_size p), JS.parseInt (pool_queue p) with
  | JS.Fin size, JS.Fin depth =>
      negb (Qle_bool size 0)
      && negb (Qle_bool (depth * inject_Z den) (size * inject_Z num))
  | JS.Fin size, JS.PInf => negb (Qle_bool size 0)
  | _, _ => false
  end.

(** The rows that [checkQueueMetrics] visits, in the order of its two nested
    [forEach]: pool by pool, the rows of that pool. *)
Definition visited_rows (stats : list pool) : list pool :=
  let pools := ["write"; "bulk"; "search"; "get"] in
  flat_map
    (fun poolName =>
       filter (fun p => String.eqb (pool_name p) poolName)
         (filter (fun p => array_includes pools (pool_name p)) stats))
    pools.

(** [x <= y] for two numbers, as the scripts can test it: neither is [NaN]
    and [x > y] is false. *)
Definition at_most (x y : JS.number) : Prop :=
  x <> JS.NaN /\ y <> JS.NaN /\ JS.gt x y = false.

Definition with_cacheMetrics (cm : option cache_metrics) (m : MetricsResult)
  : MetricsResult :=
  mkMetricsResult (timestamp m) (clusterHealth m) (threadPoolStats m)
    (nodeStats m) (indexStats m) (indexStatsUserRooms m) (clusterStats m)
    (pendingTasks m) (activeTasks m) (circuitBreakerStatus m) cm
    (segmentStats m) (segmentStatsUserRooms m) (hotThreads m) (queueMetrics m)
    (summary m).

(** The snapshot that a cycle returns, if it returns one. *)
Definition snapshot_of (r : world * result MetricsResult)
  : option MetricsResult :=
  match snd r with
  | Ok m => Some m
  | Throw _ => None
  end.

End MetricsSamples.

Module AnalysisSamples.

Import Metrics.

(** The analysis before any rule has run on a fresh snapshot. *)
Definition no_findings : analysis := mkAnalysis [] [] initial_summary.

(** The rules of [analyzeCriticalIssues] applied in order, once the four
    groups that it reads without a guard are known. *)
Definition rules_applied (metrics : MetricsResult) (health : health_body)
  (pools : list pool) (nodes : list node) (pending : list pending_task)
  : analysis :=
  check_caches (cacheMetrics metrics)
    (check_segments (segmentStats metrics) (segmentStatsUserRooms metrics)
       (check_queue (queueMetrics metrics)
          (check_breakers (circuitBreakerStatus metrics)
             (check_active (activeTasks metrics)
                (check_pending pending
                   (check_refresh (indexStats metrics)
                      (fold_left check_node nodes
                         (fold_left check_pool pools
                            (check_health health
                               (mkAnalysis [] [] (summary metrics))))))))))).

(** A rule only appends to the two lists, and what it appends does not
    depend on what they hold. *)
Definition appends (f : analysis -> analysis) : Prop :=
  forall a,
    issues (f a) = (issues a ++ issues (f no_findings))%list
    /\ warns (f a) = (warns a ++ warns (f no_findings))%list.

End AnalysisSamples.

Module Scenarios.

Import Metrics MetricsSamples.

(** A snapshot in which nothing crosses a threshold, except for what the
    arguments say: the thread-pool rows, the nodes, the queue-saturation
    group and the cache group. *)
Definition snapshot_with (pools : list pool) (nodes : list node)
  (qm : option queue_metrics) (cm : option cache_metrics) : MetricsResult :=
  mkMetricsResult "2025-01-01T00:00:00.000Z"
    (Some (mkHealth "green" 3)) (Some pools) (Some nodes)
    (Some (mkIndexTotal 1000 5000 10 200))
    (Some (mkIndexTotal 1000 5000 10 200))
    (Some (mkSettings [] [])) (Some [])
    (Some no_activeTasks) (Some no_breakerStatus) cm
    (Some (mkSegmentStats 40 1024 (mkSegments 40 1024)))
    (Some (mkSegmentStats 40 1024 (mkSegments 40 1024)))
    (Some (mkHotThreads "")) qm initial_summary.

(** The cluster-health call is rejected; every other call would resolve. *)
Definition health_down : environment :=
  cluster_with (Rejected "connect ETIMEDOUT")
    (Resolved [pool_row "search" "0" "1000"])
    (Resolved [pool_row "search" "0" "1000"]) [] calm_nodes.

(** Only the hot-threads call is rejected. *)
Definition hot_threads_down : environment :=
  mkEnvironment (Resolved (Some "https://search.example"))
    green (Resolved [pool_row "search" "0" "1000"]) (Resolved calm_nodes)
    (fun _ => Resolved (Some (mkIndexTotal 1000 5000 10 200)))
    (fun _ => Resolved (Some (mkIndexSettings "1" "1" None)))
    (Resolved (mkSettings [] []))
    (Resolved [])
    (Resolved (Some []))
    (Resolved [])
    (Resolved [])
    (fun _ => Resolved (Some (mkSegments 40 1024)))
    (Resolved [pool_row "search" "0" "1000"])
    (Rejected "socket hang up").

(** A search pool whose queue holds 600 of 1000 entries. *)
Definition search_60 : pool := pool_row "search" "600" "1000".

(** A refresh pool whose queue holds 60 of 100 entries. *)
Definition refresh_60 : pool := pool_row "refresh" "60" "100".

(** A write pool whose fill, 54.375 percent, lies halfway between two
    hundredths: the program's quotient and product are a last bit below it
    and the saturation printed is 54.37. *)
Definition write_87_of_160 : pool := pool_row "write" "87" "160".

(** Both thread-pool calls return the one row. *)
Definition cluster_with_pool (p : pool) : environment :=
  cluster_with green (Resolved [p]) (Resolved [p]) [] calm_nodes.

(** The first thread-pool call returns the row; the one of the
    queue-saturation group is rejected. *)
Definition cluster_with_pool_queue_down (p : pool) : environment :=
  cluster_with green (Resolved [p]) (Rejected "socket hang up") []
    calm_nodes.

(** One node reports 6000 query-cache evictions and no field-data ones. *)
Definition evictions_6000 : list cache_node :=
  [mkCacheNode "node-1" (Some (mkCacheStats 6000)) (Some (mkCacheStats 0))
     None].

End Scenarios.


Module CoverageSamples.

Import ChatLoadTest.

(** The place of a phase tag in the order of the phases. *)
Definition phase_rank (phase : string) : Z :=
  if String.eqb phase "warmup" then 0
  else if String.eqb phase "rampup" then 1
  else if String.eqb phase "steady" then 2
  else 3.

(** The guard of the storage-error branch that is reached: a storage marker
    without the rate-limit marker. *)
Definition isStorageErrorOnly (r : response) : bool :=
  negb (isS3SlowDown r) && isS3Error r.

(** The iteration index of the first response of a run with a property. *)
Definition first_index (cond : response -> bool) (evs : list (Z * response))
  : option Z :=
  option_map fst (find (fun e => cond (snd e)) evs).


End CoverageSamples.

Module MetricsCoverage.

Import Metrics.

Definition sum_Z (zs : list Z) : Z := fold_right Z.add 0 zs.

(** The breakers whose trips are counted. *)
Definition is_tracked_breaker (entry : string * breaker) : bool :=
  let name := fst entry in
  String.eqb name "parent" || String.eqb name "request"
  || String.eqb name "fielddata".

(** The trips of the counted breakers of one node. *)
Definition tracked_trips (node : breaker_node) : Z :=
  sum_Z (map (fun entry => tripped (snd entry))
           (filter is_tracked_breaker (breakers node))).

(** The evictions that a node reports for a cache, 0 when it reports none. *)
Definition evictions_or_0 (stats : option cache_stats) : Z :=
  match stats with
  | Some c => evictions c
  | None => 0
  end.

Definition is_jvm_issue (i : issue) : bool :=
  match i with JvmCritical _ _ => true | _ => false end.

Definition is_jvm_warning (w : warning) : bool :=
  match w with JvmHigh _ _ => true | _ => false end.

Definition is_cpu_issue (i : issue) : bool :=
  match i with CpuCritical _ _ => true | _ => false end.

Definition is_cpu_warning (w : warning) : bool :=
  match w with CpuHigh _ _ => true | _ => false end.

Definition is_refresh_issue (i : issue) : bool :=
  match i with RefreshCritical _ => true | _ => false end.

Definition is_refresh_warning (w : warning) : bool :=
  match w with RefreshHigh _ => true | _ => false end.

Definition is_cluster_issue (i : issue) : bool :=
  match i with ClusterRed => true | _ => false end.

Definition is_cluster_warning (w : warning) : bool :=
  match w with ClusterYellow => true | _ => false end.

(** The ordering of the counts that [checkActiveTasks] returns. *)
Definition counts_nested (t : active_tasks) : Prop :=
  0 <= longRunning30s t
  /\ longRunning30s t <= longRunning10s t
  /\ longRunning10s t <= longRunning5s t
  /\ longRunning5s t <= searchTasks t
  /\ searchTasks t <= total t
  /\ (List.length (tasks t) <= 20)%nat.

(** A CSV file that starts with the header line and whose other lines have
    as many cells as the header. *)
Definition csv_well_formed (file : list (list cell)) : Prop :=
  exists rows : list (list cell),
    file = map CString headers :: rows
    /\ Forall (fun row => List.length row = List.length headers) rows.

(** The data lines of the CSV file; none while it does not exist. *)
Definition csv_rows (w : world) : list (list cell) :=
  match csv_file w with
  | Some (_ :: rows) => rows
  | _ => []
  end.

(** The cycle returned a snapshot. *)
Definition returned {A : Type} (r : world * result A) : bool :=
  match snd r with
  | Ok _ => true
  | Throw _ => false
  end.

(** The cycles of a continuous run that return a snapshot, run one after
    the other from a world. *)
Fixpoint returning_cycles (cycles : list (string * environment)) (w : world)
  : nat :=
  match cycles with
  | [] => 0
  | (ts, env) :: rest =>
      let r := runFullCheck true ts env w in
      ((if returned r then 1 else 0)
       + returning_cycles rest (fst (continuous_cycle ts env w)))%nat
  end.

(** The decimal digit characters of a list of digits. *)
Fixpoint decimal_string (digits : list Z) : string :=
  match digits with
  | [] => ""
  | d :: rest =>
      String (ascii_of_nat (48 + Z.to_nat d)) (decimal_string rest)
  end.

(** The number that a list of decimal digits denotes. *)
Definition decimal_value (digits : list Z) : Z :=
  fold_left (fun acc d => acc * 10 + d) digits 0.

End MetricsCoverage.

Module RuleVocabulary.

Import Metrics.

(** The average refresh time exceeds [k] milliseconds: there were refreshes
    and their total time is more than [k] times their number. *)
Definition refresh_exceeds (k : Z) (stats : option index_total) : bool :=
  match stats with
  | Some s =>
      (0 <? refresh_total s)
      && (k * refresh_total s <? refresh_total_time_in_millis s)
  | None => false
  end.

End RuleVocabulary.

Module CycleVocabulary.

Import Metrics.

Definition is_ssm_send (r : request) : bool :=
  match r with ssm_send => true | _ => false end.

(** How many times a world has looked up the endpoint. *)
Definition initializations (w : world) : nat :=
  List.length (filter is_ssm_send (requests w)).

(** The CSV file after one more line, the header first if there was none. *)
Definition csv_after (m : MetricsResult) (file : option (list (list cell)))
  : list (list cell) :=
  (match file with
   | None => [map CString headers]
   | Some lines => lines
   end ++ [summary_row m])%list.

End CycleVocabulary.

Module CommandLineVocabulary.

Definition is_digit (d : Z) : Prop := 0 <= d <= 9.

(** The argument that sets the interval to the number with these digits. *)
Definition interval_flag (digits : list Z) : string :=
  "--interval=" ++ MetricsCoverage.decimal_string digits.

End CommandLineVocabulary.

(* ================================================================== *)
(** ** Properties of the load driver *)
(* ================================================================== *)

Section LoadDriver.

Import ChatLoadTest LoadSamples.

Example run_scenario_B :
  let st := run [(41, ok_response); (42, timeout_response); (43, ok_response)]
                initial in
  firstTimeoutIteration st = Some 42 /\ totalErrors st = 1
  /\ timeoutErrors st = 1 /\ totalRequests st = 3
  /\ firstErrorIteration st = None.
Proof. vm_compute. repeat split. Qed.

Example slowdown_is_seen :
  isS3SlowDown slowdown_response = true /\ isS3Error ok_response = false.
Proof. vm_compute. split; reflexivity. Qed.

(** *** One iteration, field by field *)

Ltac step_cases r :=
  unfold default, isGenericError, isS3SlowDown, isS3Error, rate_add;
  change ((status r =? 200) || (status r =? 201)) with (isSuccess r);
  destruct (isTimeout r), (isSuccess r),
    (body_includes r "SlowDown"), (body_includes r "S3"),
    (body_includes r "ServiceUnavailable"), (body_includes r "InternalError");
  cbn.

Lemma default_firstTimeoutIteration i r st :
  firstTimeoutIteration (default i r st) =
  match firstTimeoutIteration st with
  | Some v => Some v
  | None => if isTimeout r then Some i else None
  end.
Proof.
  step_cases r; destruct (chatApiSuccess st);
    destruct (firstTimeoutIteration st), (firstErrorIteration st),
      (firstS3SlowDownIteration st); reflexivity.
Qed.

Lemma default_firstErrorIteration i r st :
  firstErrorIteration (default i r st) =
  match firstErrorIteration st with
  | Some v => Some v
  | None => if isGenericError r then Some i else None
  end.
Proof.
  step_cases r; destruct (chatApiSuccess st);
    destruct (firstTimeoutIteration st), (firstErrorIteration st),
      (firstS3SlowDownIteration st); reflexivity.
Qed.

Lemma default_firstS3SlowDownIteration i r st :
  firstS3SlowDownIteration (default i r st) =
  match firstS3SlowDownIteration st with
  | Some v => Some v
  | None => if isS3SlowDown r then Some i else None
  end.
Proof.
  step_cases r; destruct (chatApiSuccess st);
    destruct (firstTimeoutIteration st), (firstErrorIteration st),
      (firstS3SlowDownIteration st); reflexivity.
Qed.

Lemma default_totalRequests i r st :
  totalRequests (default i r st) = totalRequests st + 1.
Proof.
  step_cases r; destruct (chatApiSuccess st);
    destruct (firstTimeoutIteration st), (firstErrorIteration st),
      (firstS3SlowDownIteration st); reflexivity.
Qed.

Lemma default_timeoutErrors i r st :
  timeoutErrors (default i r st) =
  timeoutErrors st + (if isTimeout r then 1 else 0).
Proof.
  step_cases r; destruct (chatApiSuccess st);
    destruct (firstTimeoutIteration st), (firstErrorIteration st),
      (firstS3SlowDownIteration st); cbn; lia.
Qed.

Lemma default_totalErrors i r st :
  totalErrors (default i r st) =
  totalErrors st + (if isTimeout r then 1 else 0)
                 + (if isGenericError r then 1 else 0).
Proof.
  step_cases r; destruct (chatApiSuccess st);
    destruct (firstTimeoutIteration st), (firstErrorIteration st),
      (firstS3SlowDownIteration st); cbn; lia.
Qed.

Lemma default_s3SlowDownErrors i r st :
  s3SlowDownErrors (default i r st) =
  s3SlowDownErrors st + (if isS3SlowDown r then 1 else 0).
Proof.
  step_cases r; destruct (chatApiSuccess st);
    destruct (firstTimeoutIteration st), (firstErrorIteration st),
      (firstS3SlowDownIteration st); cbn; lia.
Qed.

Lemma default_s3Errors i r st :
  s3Errors (default i r st) =
  s3Errors st + (if isS3SlowDown r || isS3Error r then 1 else 0).
Proof.
  step_cases r; destruct (chatApiSuccess st);
    destruct (firstTimeoutIteration st), (firstErrorIteration st),
      (firstS3SlowDownIteration st); cbn; lia.
Qed.

Lemma default_greendotUpdates i r st :
  greendotUpdates (default i r st) =
  greendotUpdates st + (if isSuccess r then 1 else 0).
Proof.
  step_cases r; destruct (chatApiSuccess st);
    destruct (firstTimeoutIteration st), (firstErrorIteration st),
      (firstS3SlowDownIteration st); cbn; lia.
Qed.

(** The single-room script runs the same iterations. *)
Lemma single_room_run evs : forall st,
  SingleRoomLoadTest.run evs st = run evs st.
Proof.
  induction evs as [|[i r] evs IH]; intros st; cbn [SingleRoomLoadTest.run run].
  - reflexivity.
  - rewrite IH. reflexivity.
Qed.

(** *** Latches over a run *)

Section Latch.

Variable latch : state -> option Z.
Variable cond : response -> bool.
Hypothesis latch_step : forall i r st,
  latch (default i r st) =
  match latch st with
  | Some v => Some v
  | None => if cond r then Some i else None
  end.

Lemma run_latch evs : forall st,
  latch (run evs st) =
  match latch st with
  | Some v => Some v
  | None => option_map fst (find (fun e => cond (snd e)) evs)
  end.
Proof.
  induction evs as [|[i r] evs IH]; intros st; cbn [run find snd].
  - destruct (latch st); reflexivity.
  - rewrite IH, latch_step.
    destruct (latch st); [reflexivity|].
    destruct (cond r); reflexivity.
Qed.

Lemma run_latch_set evs st v :
  latch st = Some v -> latch (run evs st) = Some v.
Proof. intros H. rewrite run_latch, H. reflexivity. Qed.

Lemma run_latch_first evs st :
  latch st = None ->
  Forall (fun e => cond (snd e) = true) evs ->
  latch (run evs st) = option_map fst (hd_error evs).
Proof.
  intros H Hall. rewrite run_latch, H.
  destruct Hall as [|[i r] evs Hc _]; cbn in *; [reflexivity|].
  rewrite Hc. reflexivity.
Qed.

End Latch.

(** *** Counters over a run *)

Lemma occurrences_cons cond i r evs :
  occurrences cond ((i, r) :: evs) =
  (if cond r then 1 else 0) + occurrences cond evs.
Proof.
  unfold occurrences. cbn [filter snd].
  destruct (cond r); cbn [List.length]; lia.
Qed.

Lemma occurrences_nonneg cond evs : 0 <= occurrences cond evs.
Proof. unfold occurrences. lia. Qed.

Lemma run_counters evs : forall st,
  totalRequests (run evs st) = totalRequests st + Z.of_nat (List.length evs)
  /\ timeoutErrors (run evs st) = timeoutErrors st + occurrences isTimeout evs
  /\ totalErrors (run evs st) =
     totalErrors st + occurrences isTimeout evs
     + occurrences isGenericError evs.
Proof.
  induction evs as [|[i r] evs IH]; intros st.
  - cbn. unfold occurrences. cbn. lia.
  - cbn [run]. destruct (IH (default i r st)) as (H1 & H2 & H3).
    rewrite H1, H2, H3, !occurrences_cons.
    rewrite default_totalRequests, default_timeoutErrors, default_totalErrors.
    cbn [List.length]. lia.
Qed.

Lemma timeout_generic_disjoint evs :
  occurrences isTimeout evs + occurrences isGenericError evs
  <= Z.of_nat (List.length evs).
Proof.
  induction evs as [|[i r] evs IH].
  - unfold occurrences. cbn. lia.
  - rewrite !occurrences_cons. cbn [List.length].
    assert ((if isTimeout r then 1 else 0)
            + (if isGenericError r then 1 else 0) <= 1) as Hr
      by (unfold isGenericError;
          destruct (isTimeout r), (isSuccess r); cbn; lia).
    lia.
Qed.

End LoadDriver.

(* ================================================================== *)
(** ** Breakpoint latches, classification and counters *)
(* ================================================================== *)

Import ChatLoadTest LoadSamples.

(** C1.  Each of the three breakpoint latches is write-once.  Started unset
    and fed any number N of consecutive occurrences of its condition, it ends
    holding the iteration index of the first of them (and stays unset for
    N = 0); once it holds a value, no further iteration, whatever its
    response, changes it.  The single-room script runs the same
    iterations. *)
Theorem latch_first_writer_wins :
  forall (evs : list (Z * response)) (st : state),
    (firstTimeoutIteration st = None ->
     Forall (fun e => isTimeout (snd e) = true) evs ->
     firstTimeoutIteration (run evs st) = option_map fst (hd_error evs))
    /\ (firstErrorIteration st = None ->
        Forall (fun e => isGenericError (snd e) = true) evs ->
        firstErrorIteration (run evs st) = option_map fst (hd_error evs))
    /\ (firstS3SlowDownIteration st = None ->
        Forall (fun e => isS3SlowDown (snd e) = true) evs ->
        firstS3SlowDownIteration (run evs st) = option_map fst (hd_error evs))
    /\ (forall v, firstTimeoutIteration st = Some v ->
                  firstTimeoutIteration (run evs st) = Some v)
    /\ (forall v, firstErrorIteration st = Some v ->
                  firstErrorIteration (run evs st) = Some v)
    /\ (forall v, firstS3SlowDownIteration st = Some v ->
                  firstS3SlowDownIteration (run evs st) = Some v)
    /\ SingleRoomLoadTest.run evs st = run evs st.
Proof.
  intros evs st. split; [|split; [|split; [|split; [|split; [|split]]]]].
  - apply run_latch_first, default_firstTimeoutIteration.
  - apply run_latch_first, default_firstErrorIteration.
  - apply run_latch_first, default_firstS3SlowDownIteration.
  - intros v. apply run_latch_set with (cond := isTimeout).
    apply default_firstTimeoutIteration.
  - intros v. apply run_latch_set with (cond := isGenericError).
    apply default_firstErrorIteration.
  - intros v. apply run_latch_set with (cond := isS3SlowDown).
    apply default_firstS3SlowDownIteration.
  - apply single_room_run.
Qed.

Lemma latch_first_writer_wins_witness :
  firstTimeoutIteration
    (run [(7, timeout_response); (9, timeout_response); (12, timeout_response)]
         initial) = Some 7
  /\ firstErrorIteration
       (run [(4, error_response); (5, error_response)] initial) = Some 4
  /\ firstS3SlowDownIteration
       (run [(2, slowdown_response); (3, slowdown_response)] initial) = Some 2
  /\ firstTimeoutIteration
       (run [(8, timeout_response)] (default 1 timeout_response initial))
     = Some 1.
Proof.
  split; [|split; [|split]].
  - apply (proj1 (latch_first_writer_wins
        [(7, timeout_response); (9, timeout_response); (12, timeout_response)]
        initial)); [reflexivity | repeat constructor].
  - apply (proj1 (proj2 (latch_first_writer_wins
        [(4, error_response); (5, error_response)] initial)));
      [reflexivity | repeat constructor].
  - apply (proj1 (proj2 (proj2 (latch_first_writer_wins
        [(2, slowdown_response); (3, slowdown_response)] initial))));
      [reflexivity | repeat constructor].
  - apply (proj1 (proj2 (proj2 (proj2 (latch_first_writer_wins
        [(8, timeout_response)] (default 1 timeout_response initial)))))).
    reflexivity.
Defined.

(** C3, as stated, fails: a response with status 200 and error code 1050 is
    both a success and a timeout, and one iteration on it counts it as a
    green-dot update and as a timeout error. *)
Lemma success_and_timeout_overlap :
  isSuccess late_success_response = true
  /\ isTimeout late_success_response = true
  /\ exactly_one (isSuccess late_success_response)
       (isTimeout late_success_response)
       (isGenericError late_success_response) = false
  /\ greendotUpdates (default 0 late_success_response initial) = 1
  /\ timeoutErrors (default 0 late_success_response initial) = 1.
Proof. vm_compute. repeat split. Qed.

(** C3, amended.  Every response falls in at least one of success, timeout
    and generic error; generic error excludes the other two; success and
    timeout overlap only for status 200 or 201 together with error code 1050,
    so exactly one category holds whenever the error code is not 1050.  One
    iteration raises every counter by at most one, whatever the rate-limit
    and storage-error markers in the body. *)
Theorem classification_categories :
  forall r : response,
    isSuccess r || isTimeout r || isGenericError r = true
    /\ (isGenericError r = true -> isSuccess r = false /\ isTimeout r = false)
    /\ (error_code r <> 1050 ->
        exactly_one (isSuccess r) (isTimeout r) (isGenericError r) = true)
    /\ (isSuccess r = true -> isTimeout r = true ->
        error_code r = 1050 /\ (status r = 200 \/ status r = 201))
    /\ forall (i : Z) (st : state),
         totalRequests (default i r st) = totalRequests st + 1
         /\ totalErrors st <= totalErrors (default i r st)
            <= totalErrors st + 1
         /\ timeoutErrors st <= timeoutErrors (default i r st)
            <= timeoutErrors st + 1
         /\ s3SlowDownErrors st <= s3SlowDownErrors (default i r st)
            <= s3SlowDownErrors st + 1
         /\ s3Errors st <= s3Errors (default i r st) <= s3Errors st + 1
         /\ greendotUpdates st <= greendotUpdates (default i r st)
            <= greendotUpdates st + 1.
Proof.
  intros r. split; [|split; [|split; [|split]]].
  - unfold isGenericError. destruct (isSuccess r), (isTimeout r); reflexivity.
  - unfold isGenericError. destruct (isSuccess r), (isTimeout r);
      cbn; intros H; (discriminate H || (split; reflexivity)).
  - intros Hc. unfold exactly_one, isGenericError, isSuccess, isTimeout.
    destruct (Z.eqb_spec (error_code r) 1050) as [E|_]; [contradiction|].
    destruct (Z.eqb_spec (status r) 200), (Z.eqb_spec (status r) 201),
      (Z.eqb_spec (status r) 0); cbn; try reflexivity; lia.
  - unfold isSuccess, isTimeout. intros Hs Ht.
    apply orb_true_iff in Hs. apply orb_true_iff in Ht.
    rewrite !Z.eqb_eq in Hs, Ht. lia.
  - intros i st.
    rewrite default_totalRequests, default_totalErrors, default_timeoutErrors,
      default_s3SlowDownErrors, default_s3Errors, default_greendotUpdates.
    unfold isGenericError.
    destruct (isSuccess r), (isTimeout r), (isS3SlowDown r), (isS3Error r);
      cbn; lia.
Qed.

Lemma classification_categories_witness :
  exactly_one (isSuccess error_response) (isTimeout error_response)
    (isGenericError error_response) = true.
Proof.
  apply (proj1 (proj2 (proj2 (classification_categories error_response)))).
  cbn. lia.
Defined.

(** C8.  After any sequence of iterations from the fresh state,
    [total_errors] is [timeout_errors] plus the number of responses that were
    generic errors, one iteration raises [total_errors] by at most one, and
    [timeout_errors <= total_errors <= total_requests]; the single-room
    script runs the same iterations. *)
Theorem total_errors_accounting :
  forall evs : list (Z * response),
    totalErrors (run evs initial) =
      timeoutErrors (run evs initial) + occurrences isGenericError evs
    /\ (forall i r st, totalErrors st <= totalErrors (default i r st)
                       <= totalErrors st + 1)
    /\ timeoutErrors (run evs initial) <= totalErrors (run evs initial)
    /\ totalErrors (run evs initial) <= totalRequests (run evs initial)
    /\ SingleRoomLoadTest.run evs initial = run evs initial.
Proof.
  intros evs.
  destruct (run_counters evs initial) as (Hreq & Hto & Herr).
  pose proof (occurrences_nonneg isGenericError evs).
  pose proof (occurrences_nonneg isTimeout evs).
  pose proof (timeout_generic_disjoint evs).
  cbn [initial totalRequests totalErrors timeoutErrors] in *.
  split; [lia|]. split; [|split; [lia|split; [lia|]]].
  - intros i r st. rewrite default_totalErrors. unfold isGenericError.
    destruct (isSuccess r), (isTimeout r); cbn; lia.
  - apply single_room_run.
Qed.

(* ================================================================== *)
(** ** Rates of the breakpoint report *)
(* ================================================================== *)

Lemma Qeq_bool_inject_Z_0 (z : Z) :
  Qeq_bool (inject_Z z) 0 = (z =? 0).
Proof.
  unfold Qeq_bool, inject_Z. cbn. rewrite Z.mul_1_r.
  destruct z; reflexivity.
Qed.









(* ================================================================== *)
(** ** Properties of the metrics fetch pipeline *)
(* ================================================================== *)

Section FetchPipeline.

Import Metrics MetricsSamples.

Lemma bind_Ok {A B : Type} (m : M A) (k : A -> M B) w w' a :
  m w = (w', Ok a) -> bind m k w = k a w'.
Proof. intros H. unfold bind. rewrite H. reflexivity. Qed.

Lemma bind_Throw {A B : Type} (m : M A) (k : A -> M B) w w' e :
  m w = (w', Throw e) -> bind m k w = (w', Throw e).
Proof. intros H. unfold bind. rewrite H. reflexivity. Qed.

(** *** The methods without a [try]: the outcome of the call is theirs *)

Lemma initializeOpenSearchClient_resolved env w host :
  env_parameter env = Resolved (Some host) -> host <> "" ->
  initializeOpenSearchClient env w = (logged ssm_send w, Ok host).
Proof.
  intros H Hne.
  unfold initializeOpenSearchClient, try_catch, bind, await. rewrite H.
  destruct (String.eqb_spec host ""); [contradiction | reflexivity].
Qed.

Lemma checkClusterHealth_run env w :
  checkClusterHealth env w =
  (logged cluster_health w,
   match env_health env with
   | Resolved h => Ok h
   | Rejected e => Throw e
   end).
Proof.
  unfold checkClusterHealth, bind, await.
  destruct (env_health env); reflexivity.
Qed.

Lemma checkThreadPools_run env w :
  checkThreadPools env w =
  (logged cat_threadPool w,
   match env_threadPool env with
   | Resolved stats =>
       Ok (filter
             (fun p =>
                array_includes
                  ["write"; "bulk"; "search"; "get"; "index"; "refresh"]
                  (pool_name p)) stats)
   | Rejected e => Throw e
   end).
Proof.
  unfold checkThreadPools, bind, await.
  destruct (env_threadPool env); reflexivity.
Qed.

Lemma checkNodeStats_run env w :
  checkNodeStats env w =
  (logged (nodes_stats ["jvm"; "os"; "indices"; "thread_pool"]) w,
   match env_nodes env with
   | Resolved nodes => Ok nodes
   | Rejected e => Throw e
   end).
Proof.
  unfold checkNodeStats, bind, await.
  destruct (env_nodes env); reflexivity.
Qed.

Lemma checkClusterSettings_run env w :
  checkClusterSettings env w =
  (logged cluster_getSettings w,
   match env_clusterSettings env with
   | Resolved settings => Ok settings
   | Rejected e => Throw e
   end).
Proof.
  unfold checkClusterSettings, bind, await.
  destruct (env_clusterSettings env); reflexivity.
Qed.

Lemma checkPendingTasks_run env w :
  checkPendingTasks env w =
  (logged cluster_pendingTasks w,
   match env_pendingTasks env with
   | Resolved tasks => Ok tasks
   | Rejected e => Throw e
   end).
Proof.
  unfold checkPendingTasks, bind, await.
  destruct (env_pendingTasks env); reflexivity.
Qed.

(** *** The methods with a [try]: they always return *)

Lemma checkIndexStats_run env indexName w :
  checkIndexStats env indexName w =
  (logged (indices_stats indexName
             ["indexing"; "search"; "refresh"; "flush"; "merge"]) w,
   Ok (settle (env_indexStats env indexName) (fun total => total) None)).
Proof.
  unfold checkIndexStats, try_catch, bind, await, settle.
  destruct (env_indexStats env indexName) as [[total|]|e]; reflexivity.
Qed.

Lemma checkIndexSettings_run env indexName w :
  checkIndexSettings env indexName w =
  (logged (indices_getSettings indexName) w,
   Ok (settle (env_indexSettings env indexName) (fun s => s) None)).
Proof.
  unfold checkIndexSettings, try_catch, bind, await, settle.
  destruct (env_indexSettings env indexName); reflexivity.
Qed.

Lemma checkActiveTasks_run env w :
  checkActiveTasks env w =
  (logged tasks_list w,
   Ok (settle (env_tasks env) activeTasks_of no_activeTasks)).
Proof.
  unfold checkActiveTasks, try_catch, bind, await, settle.
  destruct (env_tasks env); reflexivity.
Qed.

Lemma checkCircuitBreakerStatus_run env w :
  checkCircuitBreakerStatus env w =
  (logged (nodes_stats ["breaker"]) w,
   Ok (settle (env_breakers env) breakerStatus_of no_breakerStatus)).
Proof.
  unfold checkCircuitBreakerStatus, try_catch, bind, await, settle.
  destruct (env_breakers env); reflexivity.
Qed.

Lemma checkCacheMetrics_run env w :
  checkCacheMetrics env w =
  (logged (nodes_stats ["indices"]) w,
   Ok (settle (env_caches env) cacheMetrics_of no_cacheMetrics)).
Proof.
  unfold checkCacheMetrics, try_catch, bind, await, settle.
  destruct (env_caches env); reflexivity.
Qed.

Lemma checkSegmentStats_run env indexName w :
  checkSegmentStats env indexName w =
  (logged (indices_stats indexName ["segments"]) w,
   Ok (settle (env_segments env indexName) segmentStats_of None)).
Proof.
  unfold checkSegmentStats, try_catch, bind, await, settle.
  destruct (env_segments env indexName); reflexivity.
Qed.

Lemma checkQueueMetrics_run env w :
  checkQueueMetrics env w =
  (logged cat_threadPool w,
   Ok (settle (env_threadPoolQueue env) queueMetrics_of no_queueMetrics)).
Proof.
  unfold checkQueueMetrics, try_catch, bind, await, settle.
  destruct (env_threadPoolQueue env); reflexivity.
Qed.

Lemma checkHotThreads_run env w :
  checkHotThreads env w =
  (logged nodes_hotThreads w,
   Ok (settle (env_hotThreads env) hotThreads_of no_hotThreads)).
Proof.
  unfold checkHotThreads, try_catch, bind, await, settle.
  destruct (env_hotThreads env); reflexivity.
Qed.

End FetchPipeline.

(* ================================================================== *)
(** ** Properties of the issue classifier *)
(* ================================================================== *)

(** Case analysis on every test of a rule. *)
Ltac split_rules :=
  repeat match goal with
    | |- context [if ?c then _ else _] => destruct c
    | |- context [match ?x with Some _ => _ | None => _ end] => destruct x
    end.

Section Classifier.

Import Metrics MetricsSamples AnalysisSamples.

Ltac rule_lists f :=
  intros; unfold f, push_issue, push_warning, set_active,
    set_circuit_breaker_trips, set_search_queue_saturation_pct;
  split_rules; cbn; rewrite <- ?app_assoc, ?app_nil_r; auto.

Lemma analyze_ok m h pools nodes pending :
  clusterHealth m = Some h -> threadPoolStats m = Some pools ->
  nodeStats m = Some nodes -> pendingTasks m = Some pending ->
  analyzeCriticalIssues m =
  Ok (set_summary
        (let a := rules_applied m h pools nodes pending in
         mkSummary (issues a) (warns a) (status h)
           (active_searches (current a))
           (long_running_queries_5s (current a))
           (long_running_queries_10s (current a))
           (long_running_queries_30s (current a))
           (circuit_breaker_trips (current a))
           (search_queue_saturation_pct (current a))) m).
Proof.
  intros H1 H2 H3 H4. unfold analyzeCriticalIssues.
  rewrite H1, H2, H3, H4. reflexivity.
Qed.

(** *** Every rule only appends to the two lists *)

Lemma check_health_appends h : appends (check_health h).
Proof. unfold appends. rule_lists check_health. Qed.

Lemma check_pool_appends p : appends (fun a => check_pool a p).
Proof. unfold appends. rule_lists check_pool. Qed.

Lemma check_node_appends n : appends (fun a => check_node a n).
Proof. unfold appends. rule_lists check_node. Qed.

Lemma check_refresh_appends s : appends (check_refresh s).
Proof. unfold appends. rule_lists check_refresh. Qed.

Lemma check_pending_appends p : appends (check_pending p).
Proof. unfold appends. rule_lists check_pending. Qed.

Lemma check_active_appends t : appends (check_active t).
Proof. unfold appends. rule_lists check_active. Qed.

Lemma check_breakers_appends cb : appends (check_breakers cb).
Proof. unfold appends. rule_lists check_breakers. Qed.

Lemma check_queue_appends qm : appends (check_queue qm).
Proof. unfold appends. rule_lists check_queue. Qed.

Lemma check_segments_appends s1 s2 : appends (check_segments s1 s2).
Proof. unfold appends. rule_lists check_segments. Qed.

Lemma check_caches_appends cm : appends (check_caches cm).
Proof. unfold appends. rule_lists check_caches. Qed.

Lemma fold_appends {X : Type} (f : analysis -> X -> analysis) :
  (forall x, appends (fun a => f a x)) ->
  forall xs a,
    issues (fold_left f xs a) =
      (issues a ++ flat_map (fun x => issues (f no_findings x)) xs)%list
    /\ warns (fold_left f xs a) =
      (warns a ++ flat_map (fun x => warns (f no_findings x)) xs)%list.
Proof.
  intros Hf xs. induction xs as [|x xs IH]; intros a; cbn [fold_left flat_map].
  - rewrite !app_nil_r. split; reflexivity.
  - destruct (IH (f a x)) as [Hi Hw]. destruct (Hf x a) as [Fi Fw].
    rewrite Hi, Hw, Fi, Fw, <- !app_assoc. split; reflexivity.
Qed.

(** *** The fields of the summary that the rules touch *)

Lemma check_pool_current a p : current (check_pool a p) = current a.
Proof. rule_lists check_pool. Qed.

Lemma check_node_current a n : current (check_node a n) = current a.
Proof. rule_lists check_node. Qed.

Lemma fold_current {X : Type} (f : analysis -> X -> analysis) :
  (forall a x, current (f a x) = current a) ->
  forall xs a, current (fold_left f xs a) = current a.
Proof.
  intros Hf xs. induction xs as [|x xs IH]; intros a; cbn [fold_left].
  - reflexivity.
  - rewrite IH. apply Hf.
Qed.

Lemma check_health_current h a : current (check_health h a) = current a.
Proof. rule_lists check_health. Qed.

Lemma check_refresh_current s a : current (check_refresh s a) = current a.
Proof. rule_lists check_refresh. Qed.

Lemma check_pending_current p a : current (check_pending p a) = current a.
Proof. rule_lists check_pending. Qed.

Lemma check_segments_current s1 s2 a :
  current (check_segments s1 s2 a) = current a.
Proof. rule_lists check_segments. Qed.

Lemma check_caches_current cm a : current (check_caches cm a) = current a.
Proof. rule_lists check_caches. Qed.

End Classifier.

Section Cycle.

Import Metrics MetricsSamples AnalysisSamples.

Ltac with_outcomes lem :=
  rewrite lem;
  repeat match goal with
    | H : _ = Resolved _ |- _ => rewrite H
    | H : _ = Rejected _ |- _ => rewrite H
    end;
  reflexivity.

Ltac fetch lem :=
  first [ erewrite bind_Ok by (with_outcomes lem)
        | erewrite bind_Throw by (with_outcomes lem) ].

Ltac fetch_any :=
  first [ fetch checkClusterHealth_run
        | fetch checkThreadPools_run
        | fetch checkNodeStats_run
        | fetch checkIndexStats_run
        | fetch checkIndexSettings_run
        | fetch checkClusterSettings_run
        | fetch checkPendingTasks_run
        | fetch checkActiveTasks_run
        | fetch checkCircuitBreakerStatus_run
        | fetch checkCacheMetrics_run
        | fetch checkSegmentStats_run
        | fetch checkQueueMetrics_run
        | fetch checkHotThreads_run ].

Lemma requests_logged req w :
  requests (logged req w) = (requests w ++ [req])%list.
Proof. reflexivity. Qed.

(** A cycle whose five unguarded calls resolve returns a snapshot, whatever
    the other calls do. *)
Lemma runFullCheck_returns saveToFile ts env w host h stats nodes settings
      pending :
  env_parameter env = Resolved (Some host) -> host <> "" ->
  env_health env = Resolved h ->
  env_threadPool env = Resolved stats ->
  env_nodes env = Resolved nodes ->
  env_clusterSettings env = Resolved settings ->
  env_pendingTasks env = Resolved pending ->
  exists (s : Summary) (w' : world),
    runFullCheck saveToFile ts env w =
    (w',
     Ok (mkMetricsResult ts (Some h)
           (Some (filter
                    (fun p =>
                       array_includes
                         ["write"; "bulk"; "search"; "get"; "index"; "refresh"]
                         (pool_name p)) stats))
           (Some nodes)
           (settle (env_indexStats env "pms_green_dot") (fun t => t) None)
           (settle (env_indexStats env "pms-user-rooms") (fun t => t) None)
           (Some settings) (Some pending)
           (Some (settle (env_tasks env) activeTasks_of no_activeTasks))
           (Some (settle (env_breakers env) breakerStatus_of no_breakerStatus))
           (Some (settle (env_caches env) cacheMetrics_of no_cacheMetrics))
           (settle (env_segments env "pms_green_dot") segmentStats_of None)
           (settle (env_segments env "pms-user-rooms") segmentStats_of None)
           (Some (settle (env_hotThreads env) hotThreads_of no_hotThreads))
           (Some (settle (env_threadPoolQueue env) queueMetrics_of
                    no_queueMetrics))
           s))
    /\ requests w' = (requests w ++ all_requests)%list.
Proof.
  intros Hp Hne Hh Ht Hn Hs Hq.
  unfold runFullCheck, try_catch.
  erewrite bind_Ok
    by (apply initializeOpenSearchClient_resolved; eassumption).
  do 16 fetch_any.
  cbv zeta.
  erewrite bind_Ok
    by (unfold lift; erewrite analyze_ok by reflexivity; reflexivity).
  destruct saveToFile; cbn [bind write_json saveSummaryCSV ret set_summary];
    cbv beta iota; cbn [timestamp clusterHealth threadPoolStats nodeStats
      indexStats indexStatsUserRooms clusterStats pendingTasks activeTasks
      circuitBreakerStatus cacheMetrics segmentStats segmentStatsUserRooms
      hotThreads queueMetrics];
    eexists; eexists; (split; [reflexivity|]);
    cbn [requests]; rewrite !requests_logged, <- !app_assoc; reflexivity.
Qed.

(** A cycle in which one of the five unguarded calls is rejected throws. *)
Lemma runFullCheck_throws saveToFile ts env w host :
  env_parameter env = Resolved (Some host) -> host <> "" ->
  (exists e, env_health env = Rejected e)
  \/ (exists e, env_threadPool env = Rejected e)
  \/ (exists e, env_nodes env = Rejected e)
  \/ (exists e, env_clusterSettings env = Rejected e)
  \/ (exists e, env_pendingTasks env = Rejected e) ->
  exists w' e, runFullCheck saveToFile ts env w = (w', Throw e).
Proof.
  intros Hp Hne Hfail.
  unfold runFullCheck, try_catch.
  erewrite bind_Ok
    by (apply initializeOpenSearchClient_resolved; eassumption).
  destruct (env_health env) as [h|e1] eqn:Hh;
    [|fetch_any; unfold throw; eauto].
  destruct (env_threadPool env) as [stats|e2] eqn:Ht;
    [|do 2 fetch_any; unfold throw; eauto].
  destruct (env_nodes env) as [nodes|e3] eqn:Hn;
    [|do 3 fetch_any; unfold throw; eauto].
  destruct (env_clusterSettings env) as [settings|e4] eqn:Hs;
    [|do 8 fetch_any; unfold throw; eauto].
  destruct (env_pendingTasks env) as [pending|e5] eqn:Hq;
    [|do 9 fetch_any; unfold throw; eauto].
  destruct Hfail as [[e H]|[[e H]|[[e H]|[[e H]|[e H]]]]]; discriminate H.
Qed.

Lemma calls_made_logged (w : world) (reqs : list request) (k : nat) :
  firstn k all_requests = reqs ->
  fold_left (fun w req => logged req w) reqs w = calls_made k w.
Proof.
  intros <-. unfold calls_made.
  generalize (firstn k all_requests). intros reqs. revert w.
  induction reqs as [|r reqs IH]; intros w; cbn [fold_left].
  - rewrite app_nil_r. destruct w; reflexivity.
  - rewrite IH. unfold logged. cbn [requests output_dir json_files csv_file].
    rewrite <- app_assoc. reflexivity.
Qed.

(** A cycle in which one of the five unguarded calls is rejected throws the
    error of that call as soon as it is made. *)
Lemma runFullCheck_aborts saveToFile ts env w host :
  env_parameter env = Resolved (Some host) -> host <> "" ->
  (forall e, env_health env = Rejected e ->
     runFullCheck saveToFile ts env w = (calls_made 2 w, Throw e))
  /\ (forall h e,
        env_health env = Resolved h -> env_threadPool env = Rejected e ->
        runFullCheck saveToFile ts env w = (calls_made 3 w, Throw e))
  /\ (forall h stats e,
        env_health env = Resolved h -> env_threadPool env = Resolved stats ->
        env_nodes env = Rejected e ->
        runFullCheck saveToFile ts env w = (calls_made 4 w, Throw e))
  /\ (forall h stats nodes e,
        env_health env = Resolved h -> env_threadPool env = Resolved stats ->
        env_nodes env = Resolved nodes ->
        env_clusterSettings env = Rejected e ->
        runFullCheck saveToFile ts env w = (calls_made 9 w, Throw e))
  /\ (forall h stats nodes settings e,
        env_health env = Resolved h -> env_threadPool env = Resolved stats ->
        env_nodes env = Resolved nodes ->
        env_clusterSettings env = Resolved settings ->
        env_pendingTasks env = Rejected e ->
        runFullCheck saveToFile ts env w = (calls_made 10 w, Throw e)).
Proof.
  intros Hp Hne.
  assert (forall k reqs,
            firstn k all_requests = reqs ->
            calls_made k w = fold_left (fun w req => logged req w) reqs w)
    as Hcalls by (intros k reqs E; symmetry; apply calls_made_logged, E).
  split; [|split; [|split; [|split]]]; intros;
    unfold runFullCheck, try_catch;
    (erewrite bind_Ok
       by (apply initializeOpenSearchClient_resolved; eassumption)).
  - fetch_any. unfold throw. rewrite (Hcalls 2%nat _ eq_refl). reflexivity.
  - do 2 fetch_any. unfold throw. rewrite (Hcalls 3%nat _ eq_refl).
    reflexivity.
  - do 3 fetch_any. unfold throw. rewrite (Hcalls 4%nat _ eq_refl).
    reflexivity.
  - do 8 fetch_any. unfold throw. rewrite (Hcalls 9%nat _ eq_refl).
    reflexivity.
  - do 9 fetch_any. unfold throw. rewrite (Hcalls 10%nat _ eq_refl).
    reflexivity.
Qed.

End Cycle.

(* ================================================================== *)
(** ** The metrics fetch pipeline: isolation of failures *)
(* ================================================================== *)

Import Metrics MetricsSamples AnalysisSamples Scenarios.

(** C2, as stated, fails: when the cluster-health call is the only one that
    is rejected, the cycle throws that error, returns no snapshot, and none
    of the later calls is made. *)
Lemma health_failure_aborts_cycle :
  runFullCheck true "2025-01-01T00:00:00.000Z" health_down empty_world =
    (mkWorld [ssm_send; cluster_health] false [] None,
     Throw "connect ETIMEDOUT")
  /\ snapshot_of
       (runFullCheck true "2025-01-01T00:00:00.000Z" health_down empty_world)
     = None.
Proof. split; vm_compute; reflexivity. Qed.

(** C2, amended.  Once the endpoint is resolved, a cycle returns a snapshot
    exactly when the calls for cluster health, thread pools, node stats,
    cluster settings and pending tasks resolve: these five are not caught at
    their group boundary and a rejected one aborts the cycle.  When they
    resolve, all seventeen calls are made in order, and each of the other
    groups of the snapshot (index stats, active tasks, circuit breakers,
    caches, segments, queue saturation, hot threads) holds the value
    computed from its own call, or its fallback when that call is rejected,
    whatever happens to the other calls; the two index-settings calls are
    among the seventeen, and the snapshot has no field for their result.
    When one of the five is rejected, the cycle throws the error of the first
    of them that is rejected, right after that call: of the seventeen calls
    only the first 2 (health), 3 (thread pools), 4 (node stats), 9 (cluster
    settings) or 10 (pending tasks) are made, and nothing is written. *)
Theorem guarded_fetches_are_isolated :
  forall (saveToFile : bool) (ts : string) (env : environment) (w : world)
         (host : string),
    env_parameter env = Resolved (Some host) -> host <> "" ->
    (forall h stats nodes settings pending,
        env_health env = Resolved h ->
        env_threadPool env = Resolved stats ->
        env_nodes env = Resolved nodes ->
        env_clusterSettings env = Resolved settings ->
        env_pendingTasks env = Resolved pending ->
        exists (m : MetricsResult) (w' : world),
          runFullCheck saveToFile ts env w = (w', Ok m)
          /\ requests w' = (requests w ++ all_requests)%list
          /\ clusterHealth m = Some h
          /\ threadPoolStats m =
             Some (filter
                     (fun p =>
                        array_includes
                          ["write"; "bulk"; "search"; "get"; "index";
                           "refresh"] (pool_name p)) stats)
          /\ nodeStats m = Some nodes
          /\ clusterStats m = Some settings
          /\ pendingTasks m = Some pending
          /\ indexStats m =
             settle (env_indexStats env "pms_green_dot") (fun t => t) None
          /\ indexStatsUserRooms m =
             settle (env_indexStats env "pms-user-rooms") (fun t => t) None
          /\ activeTasks m =
             Some (settle (env_tasks env) activeTasks_of no_activeTasks)
          /\ circuitBreakerStatus m =
             Some (settle (env_breakers env) breakerStatus_of
                     no_breakerStatus)
          /\ cacheMetrics m =
             Some (settle (env_caches env) cacheMetrics_of no_cacheMetrics)
          /\ segmentStats m =
             settle (env_segments env "pms_green_dot") segmentStats_of None
          /\ segmentStatsUserRooms m =
             settle (env_segments env "pms-user-rooms") segmentStats_of None
          /\ queueMetrics m =
             Some (settle (env_threadPoolQueue env) queueMetrics_of
                     no_queueMetrics)
          /\ hotThreads m =
             Some (settle (env_hotThreads env) hotThreads_of no_hotThreads))
    /\ ((exists e, env_health env = Rejected e)
        \/ (exists e, env_threadPool env = Rejected e)
        \/ (exists e, env_nodes env = Rejected e)
        \/ (exists e, env_clusterSettings env = Rejected e)
        \/ (exists e, env_pendingTasks env = Rejected e) ->
        snapshot_of (runFullCheck saveToFile ts env w) = None)
    /\ (forall e, env_health env = Rejected e ->
        runFullCheck saveToFile ts env w = (calls_made 2 w, Throw e))
    /\ (forall h e,
          env_health env = Resolved h -> env_threadPool env = Rejected e ->
          runFullCheck saveToFile ts env w = (calls_made 3 w, Throw e))
    /\ (forall h stats e,
          env_health env = Resolved h ->
          env_threadPool env = Resolved stats ->
          env_nodes env = Rejected e ->
          runFullCheck saveToFile ts env w = (calls_made 4 w, Throw e))
    /\ (forall h stats nodes e,
          env_health env = Resolved h ->
          env_threadPool env = Resolved stats ->
          env_nodes env = Resolved nodes ->
          env_clusterSettings env = Rejected e ->
          runFullCheck saveToFile ts env w = (calls_made 9 w, Throw e))
    /\ (forall h stats nodes settings e,
          env_health env = Resolved h ->
          env_threadPool env = Resolved stats ->
          env_nodes env = Resolved nodes ->
          env_clusterSettings env = Resolved settings ->
          env_pendingTasks env = Rejected e ->
          runFullCheck saveToFile ts env w = (calls_made 10 w, Throw e)).
Proof.
  intros saveToFile ts env w host Hp Hne.
  split; [|split; [|exact (runFullCheck_aborts saveToFile ts env w host
                             Hp Hne)]].
  - intros h stats nodes settings pending Hh Ht Hn Hs Hq.
    destruct (runFullCheck_returns saveToFile ts env w host h stats nodes
                settings pending Hp Hne Hh Ht Hn Hs Hq) as (s & w' & Hr & Hw).
    eexists. exists w'. split; [exact Hr|]. split; [exact Hw|].
    cbn. repeat split.
  - intros Hfail.
    destruct (runFullCheck_throws saveToFile ts env w host Hp Hne Hfail)
      as (w' & e & Hr).
    unfold snapshot_of. rewrite Hr. reflexivity.
Qed.

Lemma guarded_fetches_are_isolated_witness :
  exists (m : MetricsResult) (w' : world),
    runFullCheck false "2025-01-01T00:00:00.000Z" hot_threads_down empty_world
      = (w', Ok m)
    /\ requests w' = all_requests
    /\ hotThreads m = Some no_hotThreads
    /\ queueMetrics m =
       Some (queueMetrics_of [pool_row "search" "0" "1000"]).
Proof.
  destruct (proj1 (guarded_fetches_are_isolated false
                     "2025-01-01T00:00:00.000Z" hot_threads_down empty_world
                     "https://search.example" eq_refl
                     ltac:(discriminate))
              (mkHealth "green" 3) [pool_row "search" "0" "1000"] calm_nodes
              (mkSettings [] []) [] eq_refl eq_refl eq_refl eq_refl eq_refl)
    as (m & w' & Hr & Hw & _ & _ & _ & _ & _ & _ & _ & _ & _ & _ & _ & _
        & Hq & Hh).
  exists m, w'. split; [exact Hr|]. split; [exact Hw|].
  split; [exact Hh | exact Hq].
Defined.

(* ================================================================== *)
(** ** The issue classifier: what the summary holds *)
(* ================================================================== *)

Section Summary.

Import Metrics MetricsSamples AnalysisSamples Scenarios.

(** The lists of the summary, rule by rule. *)
Lemma rules_applied_lists m h pools nodes pending :
  issues (rules_applied m h pools nodes pending) =
    (issues (check_health h no_findings)
     ++ flat_map (fun p => issues (check_pool no_findings p)) pools
     ++ flat_map (fun n => issues (check_node no_findings n)) nodes
     ++ issues (check_refresh (indexStats m) no_findings)
     ++ issues (check_pending pending no_findings)
     ++ issues (check_active (activeTasks m) no_findings)
     ++ issues (check_breakers (circuitBreakerStatus m) no_findings)
     ++ issues (check_queue (queueMetrics m) no_findings)
     ++ issues (check_segments (segmentStats m) (segmentStatsUserRooms m)
                  no_findings)
     ++ issues (check_caches (cacheMetrics m) no_findings))%list
  /\ warns (rules_applied m h pools nodes pending) =
    (warns (check_health h no_findings)
     ++ flat_map (fun p => warns (check_pool no_findings p)) pools
     ++ flat_map (fun n => warns (check_node no_findings n)) nodes
     ++ warns (check_refresh (indexStats m) no_findings)
     ++ warns (check_pending pending no_findings)
     ++ warns (check_active (activeTasks m) no_findings)
     ++ warns (check_breakers (circuitBreakerStatus m) no_findings)
     ++ warns (check_queue (queueMetrics m) no_findings)
     ++ warns (check_segments (segmentStats m) (segmentStatsUserRooms m)
                 no_findings)
     ++ warns (check_caches (cacheMetrics m) no_findings))%list.
Proof.
  unfold rules_applied.
  split.
  - rewrite (proj1 (check_caches_appends _ _)),
      (proj1 (check_segments_appends _ _ _)),
      (proj1 (check_queue_appends _ _)),
      (proj1 (check_breakers_appends _ _)),
      (proj1 (check_active_appends _ _)),
      (proj1 (check_pending_appends _ _)),
      (proj1 (check_refresh_appends _ _)),
      (proj1 (fold_appends check_node check_node_appends _ _)),
      (proj1 (fold_appends check_pool check_pool_appends _ _)),
      (proj1 (check_health_appends _ _)).
    cbn [issues app]. rewrite <- !app_assoc. reflexivity.
  - rewrite (proj2 (check_caches_appends _ _)),
      (proj2 (check_segments_appends _ _ _)),
      (proj2 (check_queue_appends _ _)),
      (proj2 (check_breakers_appends _ _)),
      (proj2 (check_active_appends _ _)),
      (proj2 (check_pending_appends _ _)),
      (proj2 (check_refresh_appends _ _)),
      (proj2 (fold_appends check_node check_node_appends _ _)),
      (proj2 (fold_appends check_pool check_pool_appends _ _)),
      (proj2 (check_health_appends _ _)).
    cbn [warns app]. rewrite <- !app_assoc. reflexivity.
Qed.

Lemma filter_flat_map {X Y : Type} (P : Y -> bool) (f : X -> list Y) xs :
  filter P (flat_map f xs) = flat_map (fun x => filter P (f x)) xs.
Proof.
  induction xs as [|x xs IH]; cbn; [reflexivity|].
  rewrite filter_app, IH. reflexivity.
Qed.

Lemma flat_map_nil {X Y : Type} (f : X -> list Y) xs :
  (forall x, f x = []) -> flat_map f xs = [].
Proof.
  intros Hf. induction xs as [|x xs IH]; cbn; [reflexivity|].
  rewrite Hf, IH. reflexivity.
Qed.

(** The fields of the summary: only three rules write them. *)
Lemma check_active_summary t a :
  current (check_active t a) =
  match t with
  | Some t =>
      mkSummary (critical_issues (current a)) (warnings (current a))
        (health_status (current a)) (searchTasks t) (longRunning5s t)
        (longRunning10s t) (longRunning30s t)
        (circuit_breaker_trips (current a))
        (search_queue_saturation_pct (current a))
  | None => current a
  end.
Proof.
  unfold check_active, set_active, push_issue, push_warning.
  split_rules; reflexivity.
Qed.

Lemma check_breakers_summary cb a :
  current (check_breakers cb a) =
  match cb with
  | Some cb =>
      if 0 <? totalTrips cb
      then mkSummary (critical_issues (current a)) (warnings (current a))
             (health_status (current a)) (active_searches (current a))
             (long_running_queries_5s (current a))
             (long_running_queries_10s (current a))
             (long_running_queries_30s (current a))
             (totalTrips cb)
             (search_queue_saturation_pct (current a))
      else current a
  | None => current a
  end.
Proof.
  unfold check_breakers, set_circuit_breaker_trips, push_issue.
  split_rules; reflexivity.
Qed.

Lemma gt_80_gt_50 (x : JS.number) :
  JS.gt x (JS.of_Z 80) = true -> JS.gt x (JS.of_Z 50) = true.
Proof.
  destruct x as [| | |q]; cbn; try (intros H; exact H).
  intros H. apply negb_true_iff in H. apply negb_true_iff.
  destruct (Qle_bool q (inject_Z 50)) eqn:E; [|reflexivity].
  apply Qle_bool_iff in E.
  assert (Qle_bool q (inject_Z 80) = true) as C.
  { apply Qle_bool_iff. eapply Qle_trans; [exact E|].
    rewrite <- Zle_Qle. lia. }
  congruence.
Qed.

Lemma check_queue_summary qm a :
  current (check_queue qm a) =
  match qm with
  | Some qm =>
      if JS.gt (maxSaturation qm) (JS.of_Z 50)
      then mkSummary (critical_issues (current a)) (warnings (current a))
             (health_status (current a)) (active_searches (current a))
             (long_running_queries_5s (current a))
             (long_running_queries_10s (current a))
             (long_running_queries_30s (current a))
             (circuit_breaker_trips (current a))
             (maxSaturation qm)
      else current a
  | None => current a
  end.
Proof.
  unfold check_queue, set_search_queue_saturation_pct, push_issue,
    push_warning.
  destruct qm as [qm|]; [|reflexivity].
  destruct (JS.gt (maxSaturation qm) (JS.of_Z 80)) eqn:E80.
  - rewrite (gt_80_gt_50 _ E80). reflexivity.
  - destruct (JS.gt (maxSaturation qm) (JS.of_Z 50)); reflexivity.
Qed.

Lemma rules_applied_current m h pools nodes pending :
  current (rules_applied m h pools nodes pending) =
  current
    (check_queue (queueMetrics m)
       (check_breakers (circuitBreakerStatus m)
          (check_active (activeTasks m)
             (mkAnalysis [] [] (summary m))))).
Proof.
  unfold rules_applied.
  rewrite check_caches_current, check_segments_current.
  rewrite !check_queue_summary, !check_breakers_summary,
    !check_active_summary.
  rewrite check_pending_current, check_refresh_current,
    (fold_current check_node check_node_current),
    (fold_current check_pool check_pool_current), check_health_current.
  reflexivity.
Qed.

End Summary.

Import Metrics MetricsSamples AnalysisSamples Scenarios.

(** C5, as stated, fails: on a snapshot whose queue saturation is 30, below
    both thresholds, the summary keeps the 0 of the fresh snapshot instead of
    the metric. *)
Lemma saturation_below_threshold_not_projected :
  exists m' : MetricsResult,
    analyzeCriticalIssues
      (snapshot_with [pool_row "search" "300" "1000"] calm_nodes
         (Some (mkQueueMetrics (JS.Fin 30) [pool_row "search" "300" "1000"]))
         (Some no_cacheMetrics)) = Ok m'
    /\ option_map maxSaturation (queueMetrics m') = Some (JS.Fin 30)
    /\ search_queue_saturation_pct (summary m') = JS.Fin 0
    /\ JS.Fin 0 <> JS.Fin 30.
Proof.
  eexists. split; [vm_compute; reflexivity|].
  split; [reflexivity|]. split; [reflexivity|]. discriminate.
Qed.

(** C5, amended.  On a snapshot whose four unguarded groups are present the
    classifier returns, and in its summary: the active-search count and the
    three long-running-query counts are those of the active-tasks group
    whenever that group is present (and are left as they were otherwise);
    the circuit-breaker trip count is copied only when it is positive, and
    the queue saturation only when it exceeds 50; otherwise the field keeps
    the value it had before the analysis (0 in a fresh snapshot). *)
Theorem summary_fields_extraction :
  forall (m : MetricsResult) h pools nodes pending,
    clusterHealth m = Some h -> threadPoolStats m = Some pools ->
    nodeStats m = Some nodes -> pendingTasks m = Some pending ->
    exists m' : MetricsResult,
      analyzeCriticalIssues m = Ok m'
      /\ (forall t, activeTasks m = Some t ->
            active_searches (summary m') = searchTasks t
            /\ long_running_queries_5s (summary m') = longRunning5s t
            /\ long_running_queries_10s (summary m') = longRunning10s t
            /\ long_running_queries_30s (summary m') = longRunning30s t)
      /\ (activeTasks m = None ->
            active_searches (summary m') = active_searches (summary m)
            /\ long_running_queries_5s (summary m') =
               long_running_queries_5s (summary m)
            /\ long_running_queries_10s (summary m') =
               long_running_queries_10s (summary m)
            /\ long_running_queries_30s (summary m') =
               long_running_queries_30s (summary m))
      /\ circuit_breaker_trips (summary m') =
         match circuitBreakerStatus m with
         | Some cb => if 0 <? totalTrips cb then totalTrips cb
                      else circuit_breaker_trips (summary m)
         | None => circuit_breaker_trips (summary m)
         end
      /\ search_queue_saturation_pct (summary m') =
         match queueMetrics m with
         | Some qm => if JS.gt (maxSaturation qm) (JS.of_Z 50)
                      then maxSaturation qm
                      else search_queue_saturation_pct (summary m)
         | None => search_queue_saturation_pct (summary m)
         end.
Proof.
  intros m h pools nodes pending H1 H2 H3 H4.
  eexists. split; [apply (analyze_ok m h pools nodes pending H1 H2 H3 H4)|].
  cbn [summary set_summary active_searches long_running_queries_5s
         long_running_queries_10s long_running_queries_30s
         circuit_breaker_trips search_queue_saturation_pct].
  rewrite rules_applied_current, check_queue_summary, check_breakers_summary,
    check_active_summary.
  cbn [current].
  destruct (activeTasks m) as [t|], (circuitBreakerStatus m) as [cb|],
    (queueMetrics m) as [qm|];
    repeat match goal with
      | |- context [if ?c then _ else _] => destruct c
      end;
    cbn [active_searches long_running_queries_5s long_running_queries_10s
           long_running_queries_30s circuit_breaker_trips
           search_queue_saturation_pct];
    (split; [intros t' Ht'; inversion Ht'; subst; repeat split|]);
    (split; [intros Ht'; inversion Ht'; repeat split|]);
    split; reflexivity.
Qed.

Lemma summary_fields_extraction_witness :
  exists m' : MetricsResult,
    analyzeCriticalIssues
      (snapshot_with [search_60] calm_nodes
         (Some (mkQueueMetrics (JS.Fin 60) [search_60]))
         (Some no_cacheMetrics)) = Ok m'
    /\ search_queue_saturation_pct (summary m') = JS.Fin 60
    /\ circuit_breaker_trips (summary m') = 0
    /\ active_searches (summary m') = 0.
Proof.
  destruct (summary_fields_extraction
              (snapshot_with [search_60] calm_nodes
                 (Some (mkQueueMetrics (JS.Fin 60) [search_60]))
                 (Some no_cacheMetrics))
              (mkHealth "green" 3) [search_60] calm_nodes []
              eq_refl eq_refl eq_refl eq_refl)
    as (m' & Hr & Ha & _ & Hc & Hq).
  exists m'. split; [exact Hr|]. split; [exact Hq|]. split; [exact Hc|].
  exact (proj1 (Ha no_activeTasks eq_refl)).
Defined.

(* ================================================================== *)
(** ** Numbers *)
(* ================================================================== *)

Section Numbers.

Lemma Qred_inject_Z (z : Z) : Qred (inject_Z z) = inject_Z z.
Proof.
  unfold Qred, inject_Z.
  generalize (Z.ggcd_gcd z 1), (Z.ggcd_correct_divisors z 1).
  destruct (Z.ggcd z 1) as [g [a b]]. cbn [fst snd].
  rewrite Z.gcd_1_r. intros -> [Ha Hb].
  assert (a = z) as -> by lia. assert (b = 1) as -> by lia. reflexivity.
Qed.

Lemma Qred_Qred (q : Q) : Qred (Qred q) = Qred q.
Proof. apply Qred_complete, Qred_correct. Qed.

(** A Number is an infinity or a rational in lowest terms, never [NaN]. *)
Lemma binary64_cases (q : Q) :
  JS.binary64 q = JS.PInf \/ JS.binary64 q = JS.NInf
  \/ exists r : Q, JS.binary64 q = JS.Fin r /\ Qred r = r.
Proof.
  unfold JS.binary64. cbv zeta.
  destruct (Z.abs (Qnum q) =? 0).
  { right. right. exists 0%Q. split; reflexivity. }
  match goal with
  | |- context [if ?b then (if ?s then _ else _) else _] =>
      destruct b; [destruct s; auto|]
  end.
  right. right.
  match goal with
  | |- context [if ?b then _ else _] => destruct b
  end; eexists; (split; [reflexivity|]);
    [apply Qred_Qred | apply Qred_inject_Z].
Qed.

(** An integer of at most 53 bits is a Number. *)
Lemma binary64_integer (v : Z) :
  Z.abs v <= 2 ^ 53 -> JS.binary64 (inject_Z v) = JS.of_Z v.
Proof.
  intros Hv.
  destruct (Z.eq_dec (Z.abs v) (2 ^ 53)) as [E|NE].
  { assert (v = 2 ^ 53 \/ v = - 2 ^ 53) as [-> | ->] by lia;
      vm_compute; reflexivity. }
  assert (Z.abs v < 2 ^ 53) as Hlt by lia. clear Hv NE.
  unfold JS.binary64, JS.of_Z. cbv zeta. cbn [Qnum Qden inject_Z].
  destruct (Z.eqb_spec (Z.abs v) 0) as [E0|N0].
  { assert (v = 0) as -> by lia. reflexivity. }
  set (n := Z.abs v) in *.
  assert (0 < n) as Hn by lia.
  assert (0 <= Z.log2 n < 53) as He.
  { split; [apply Z.log2_nonneg|]. apply Z.log2_lt_pow2; assumption. }
  assert (JS.floor_log2 n 1 = Z.log2 n) as ->.
  { unfold JS.floor_log2. change (Z.log2 1) with 0. rewrite Z.sub_0_r.
    destruct (Z.leb_spec 0 (Z.log2 n)) as [_|C]; [|lia].
    rewrite Z.mul_1_l.
    destruct (Z.leb_spec (2 ^ Z.log2 n) n) as [_|C]; [reflexivity|].
    pose proof (Z.log2_spec n Hn). lia. }
  set (e := Z.log2 n) in *.
  rewrite Z.max_l by lia.
  assert (Z.sgn v * n = v) as Hsgn by (unfold n; lia).
  destruct (Z.ltb_spec (e - 52) 0) as [Hc|Hc].
  - rewrite Z.div_1_r, Z.mod_1_r.
    cbn [Z.mul Z.ltb Z.eqb Z.compare orb andb].
    destruct (Z.leb_spec 0 (e - 52)) as [C|_]; [lia|]. cbn [andb].
    f_equal. rewrite <- (Qred_inject_Z v). apply Qred_complete.
    unfold Qeq, inject_Z. cbn [Qnum Qden].
    assert (0 < 2 ^ (- (e - 52))) as Hp by (apply Z.pow_pos_nonneg; lia).
    rewrite Z2Pos.id by exact Hp. nia.
  - assert (e = 52) as E52 by lia. rewrite E52.
    change (2 ^ (52 - 52)) with 1. rewrite !Z.mul_1_r.
    rewrite Z.div_1_r, Z.mod_1_r.
    cbn [Z.mul Z.ltb Z.eqb Z.compare orb andb Z.leb].
    destruct (Z.leb_spec (2 ^ 1024) n) as [C|_].
    { assert (2 ^ 53 < 2 ^ 1024) by (apply Z.pow_lt_mono_r; lia). lia. }
    rewrite Hsgn. reflexivity.
Qed.

Lemma parseInt_cases (s : string) :
  JS.parseInt s = JS.NaN \/ JS.parseInt s = JS.PInf
  \/ JS.parseInt s = JS.NInf
  \/ exists r : Q, JS.parseInt s = JS.Fin r /\ Qred r = r.
Proof.
  unfold JS.parseInt.
  destruct (match JS.skip_white_space s with
            | String "-"%char rest => (true, rest)
            | String "+"%char rest => (false, rest)
            | _ => (false, JS.skip_white_space s)
            end) as [negative s1].
  destruct (match s1 with
            | String "0"%char (String "x"%char rest) => (16, rest)
            | String "0"%char (String "X"%char rest) => (16, rest)
            | _ => (10, s1)
            end) as [radix s2].
  destruct (JS.parse_digits radix s2 None) as [v|]; [|auto].
  right. apply binary64_cases.
Qed.

End Numbers.

(* ================================================================== *)
(** ** The issue classifier: queue fill *)
(* ================================================================== *)

Section QueueFill.

Import Metrics MetricsSamples AnalysisSamples Scenarios.

Lemma Qle_bool_ext (a b c d : Q) :
  (a <= b <-> c <= d)%Q -> Qle_bool a b = Qle_bool c d.
Proof.
  intros H. destruct (Qle_bool a b) eqn:E1, (Qle_bool c d) eqn:E2;
    try reflexivity.
  - apply Qle_bool_iff, H, Qle_bool_iff in E1. congruence.
  - apply Qle_bool_iff, H, Qle_bool_iff in E2. congruence.
Qed.

(** [depth > size * 0.8], multiplied out. *)
Lemma gt_four_fifths (size depth : Q) :
  JS.gt (JS.Fin depth) (JS.mul (JS.Fin size) (JS.Fin (8 # 10))) =
  negb (Qle_bool (depth * inject_Z 10) (size * inject_Z 8)).
Proof.
  cbn [JS.gt JS.mul]. f_equal. apply Qle_bool_ext.
  rewrite Qred_correct.
  destruct size as [sn sd], depth as [dn dd].
  unfold Qle, Qmult, inject_Z. cbn [Qnum Qden].
  rewrite !Pos2Z.inj_mul. lia.
Qed.

(** The warning of the per-pool rule, for one row. *)
Lemma pool_rule_warning (p : pool) :
  filter is_pool_queue_warning (warns (check_pool no_findings p)) =
  if fill_exceeds 8 10 p
  then [PoolQueueFull (pool_name p)
          (JS.mul (JS.div (JS.parseInt (pool_queue p))
                          (JS.parseInt (pool_queue_size p))) (JS.of_Z 100))]
  else [].
Proof.
  unfold check_pool, fill_exceeds.
  destruct (JS.gt (JS.parseInt (pool_rejected p)) (JS.of_Z 0));
    unfold push_issue, push_warning; cbn [warns issues current].
  all: destruct (parseInt_cases (pool_queue_size p))
         as [Hs|[Hs|[Hs|(s & Hs & _)]]];
    destruct (parseInt_cases (pool_queue p))
      as [Hd|[Hd|[Hd|(d & Hd & _)]]];
    rewrite Hs, Hd; try reflexivity.
  all: try (cbn [JS.gt]; rewrite andb_false_r; reflexivity).
  all: try (change (JS.gt (JS.Fin s) (JS.of_Z 0)) with (negb (Qle_bool s 0));
            cbn [JS.gt JS.mul]; rewrite andb_true_r;
            destruct (negb (Qle_bool s 0)); reflexivity).
  all: rewrite gt_four_fifths.
  all: change (JS.gt (JS.Fin s) (JS.of_Z 0)) with (negb (Qle_bool s 0)).
  all: destruct (negb (Qle_bool s 0)
                 && negb (Qle_bool (d * inject_Z 10) (s * inject_Z 8)));
    reflexivity.
Qed.

Lemma pool_rule_count (pools : list pool) :
  List.length
    (filter is_pool_queue_warning
       (flat_map (fun p => warns (check_pool no_findings p)) pools)) =
  List.length (filter (fill_exceeds 8 10) pools).
Proof.
  induction pools as [|p pools IH]; cbn [flat_map filter]; [reflexivity|].
  rewrite filter_app, length_app, IH, pool_rule_warning.
  destruct (fill_exceeds 8 10 p); reflexivity.
Qed.

(** A row at 60 percent: below the per-pool rule, saturation 60. *)
Lemma row_at_60_percent (p : pool) (size depth : Z) :
  JS.parseInt (pool_queue_size p) = JS.of_Z size ->
  JS.parseInt (pool_queue p) = JS.of_Z depth ->
  0 < size -> 10 * depth = 6 * size ->
  fill_exceeds 8 10 p = false /\ saturation p = JS.Fin 60.
Proof.
  intros Hs Hd Hpos H60. split.
  - unfold fill_exceeds. rewrite Hs, Hd. cbn [JS.of_Z].
    apply andb_false_iff. right. apply negb_false_iff, Qle_bool_iff.
    rewrite <- !inject_Z_mult, <- Zle_Qle. lia.
  - unfold saturation. rewrite Hs, Hd.
    assert (JS.gt (JS.of_Z size) (JS.of_Z 0) = true) as ->.
    { cbn. apply negb_true_iff.
      destruct (Qle_bool (inject_Z size) (inject_Z 0)) eqn:E;
        [|reflexivity].
      apply Qle_bool_iff in E. rewrite <- Zle_Qle in E. lia. }
    assert (JS.div (JS.of_Z depth) (JS.of_Z size) = JS.Fin (3 # 5)) as ->.
    { unfold JS.div, JS.of_Z. rewrite Qeq_bool_inject_Z_0.
      destruct (Z.eqb_spec size 0) as [E|_]; [lia|].
      f_equal. change (3 # 5) with (Qred (3 # 5)). apply Qred_complete.
      unfold Qeq, Qdiv, Qmult, Qinv, inject_Z. cbn [Qnum Qden].
      destruct size as [|sz|sz]; try lia. cbn [Qnum Qden]. lia. }
    vm_compute. reflexivity.
Qed.

(** The maximum saturation is the maximum of the visited rows. *)
Lemma maxSaturation_fold (stats : list pool) :
  maxSaturation (queueMetrics_of stats)
  = fold_left JS.max (map saturation (visited_rows stats)) (JS.of_Z 0).
Proof.
  unfold queueMetrics_of, visited_rows. cbn [maxSaturation].
  generalize (JS.of_Z 0).
  generalize (filter
                (fun p => array_includes ["write"; "bulk"; "search"; "get"]
                            (pool_name p)) stats).
  intros poolData.
  induction ["write"; "bulk"; "search"; "get"] as [|n names IH];
    intros a; cbn [fold_left flat_map]; [reflexivity|].
  rewrite map_app, fold_left_app, IH. f_equal.
  generalize a.
  induction (filter (fun p => String.eqb (pool_name p) n) poolData)
    as [|p ps IHp]; intros b; cbn [fold_left map]; [reflexivity|apply IHp].
Qed.

Lemma visited_rows_In (stats : list pool) (p : pool) :
  In p (visited_rows stats) <->
  In p stats
  /\ array_includes ["write"; "bulk"; "search"; "get"] (pool_name p) = true.
Proof.
  unfold visited_rows. cbv zeta. rewrite in_flat_map. split.
  - intros (n & Hn & Hp). apply filter_In in Hp. destruct Hp as [Hp _].
    apply filter_In in Hp. exact Hp.
  - intros [Hp Hinc]. exists (pool_name p). split.
    + unfold array_includes in Hinc. apply existsb_exists in Hinc.
      destruct Hinc as (n & Hn & He). apply String.eqb_eq in He.
      rewrite He. exact Hn.
    + apply filter_In. split; [|apply String.eqb_refl].
      apply filter_In. split; assumption.
Qed.

(** *** The order of numbers under [>] and [Math.max] *)

Lemma at_most_refl (x : JS.number) : x <> JS.NaN -> at_most x x.
Proof.
  intros Hx. split; [exact Hx|]. split; [exact Hx|].
  destruct x as [| | |q]; try reflexivity.
  cbn. apply negb_false_iff, Qle_bool_iff, Qle_refl.
Qed.

Lemma at_most_trans (x y z : JS.number) :
  at_most x y -> at_most y z -> at_most x z.
Proof.
  intros (Hx & Hy & Hxy) (_ & Hz & Hyz).
  split; [exact Hx|]. split; [exact Hz|].
  destruct x as [| | |a], y as [| | |b], z as [| | |c];
    try contradiction; try reflexivity; try discriminate.
  cbn in *. apply negb_false_iff, Qle_bool_iff.
  apply negb_false_iff, Qle_bool_iff in Hxy.
  apply negb_false_iff, Qle_bool_iff in Hyz.
  eapply Qle_trans; eassumption.
Qed.

(** Two numbers in lowest terms that are at most each other are equal. *)
Lemma at_most_antisym (x y : JS.number) :
  (forall q, x = JS.Fin q -> Qred q = q) ->
  (forall q, y = JS.Fin q -> Qred q = q) ->
  at_most x y -> at_most y x -> x = y.
Proof.
  intros Cx Cy (Hx & Hy & Hxy) (_ & _ & Hyx).
  destruct x as [| | |a], y as [| | |b];
    try contradiction; try reflexivity; try discriminate.
  cbn in *.
  apply negb_false_iff, Qle_bool_iff in Hxy.
  apply negb_false_iff, Qle_bool_iff in Hyx.
  rewrite <- (Cx a eq_refl), <- (Cy b eq_refl). f_equal.
  apply Qred_complete, Qle_antisym; assumption.
Qed.

Lemma max_spec (x y : JS.number) :
  x <> JS.NaN -> y <> JS.NaN ->
  at_most x (JS.max x y) /\ at_most y (JS.max x y)
  /\ (JS.max x y = x \/ JS.max x y = y).
Proof.
  intros Hx Hy.
  assert (JS.max x y = if JS.gt y x then y else x) as ->
    by (destruct x, y; try contradiction; reflexivity).
  destruct (JS.gt y x) eqn:E.
  - split; [|split; [apply at_most_refl; exact Hy | right; reflexivity]].
    split; [exact Hx|]. split; [exact Hy|].
    destruct x as [| | |a], y as [| | |b];
      try contradiction; try reflexivity; try discriminate.
    cbn in *. apply negb_true_iff in E. apply negb_false_iff, Qle_bool_iff.
    destruct (Qlt_le_dec a b) as [L|L]; [apply Qlt_le_weak; exact L|].
    apply Qle_bool_iff in L. congruence.
  - split; [apply at_most_refl; exact Hx|].
    split; [|left; reflexivity].
    split; [exact Hy|]. split; [exact Hx | exact E].
Qed.

Lemma max_NaN_l (y : JS.number) : JS.max JS.NaN y = JS.NaN.
Proof. reflexivity. Qed.

Lemma max_NaN_r (x : JS.number) : JS.max x JS.NaN = JS.NaN.
Proof. destruct x; reflexivity. Qed.

Lemma fold_max_NaN (xs : list JS.number) :
  fold_left JS.max xs JS.NaN = JS.NaN.
Proof. induction xs as [|x xs IH]; cbn [fold_left]; [reflexivity|exact IH]. Qed.

Lemma fold_max_with_NaN (xs : list JS.number) : forall a,
  In JS.NaN xs -> fold_left JS.max xs a = JS.NaN.
Proof.
  induction xs as [|x xs IH]; intros a Hin; [contradiction|].
  cbn [fold_left]. destruct Hin as [->|Hin].
  - rewrite max_NaN_r. apply fold_max_NaN.
  - apply IH. exact Hin.
Qed.

(** The fold of [Math.max] over numbers none of which is [NaN]. *)
Lemma fold_max_spec (xs : list JS.number) :
  Forall (fun x => x <> JS.NaN) xs ->
  forall a, a <> JS.NaN ->
    at_most a (fold_left JS.max xs a)
    /\ Forall (fun x => at_most x (fold_left JS.max xs a)) xs
    /\ (fold_left JS.max xs a = a \/ In (fold_left JS.max xs a) xs).
Proof.
  induction 1 as [|x xs Hx _ IH]; intros a Ha; cbn [fold_left].
  - split; [apply at_most_refl; exact Ha|].
    split; [constructor | left; reflexivity].
  - destruct (max_spec a x Ha Hx) as (Hax & Hxx & Hc).
    assert (JS.max a x <> JS.NaN) as Hm by (destruct Hc as [->| ->]; assumption).
    destruct (IH (JS.max a x) Hm) as (H1 & H2 & H3).
    split; [eapply at_most_trans; eassumption|].
    split.
    + constructor; [eapply at_most_trans; eassumption | exact H2].
    + destruct H3 as [E|Hin]; [|right; right; exact Hin].
      rewrite E. destruct Hc as [->| ->]; [left; reflexivity|].
      right. left. reflexivity.
Qed.

(** A saturation is [NaN], an infinity or a rational in lowest terms. *)
Lemma saturation_lowest_terms (p : pool) (q : Q) :
  saturation p = JS.Fin q -> Qred q = q.
Proof.
  unfold saturation.
  destruct (JS.gt (JS.parseInt (pool_queue_size p)) (JS.of_Z 0)).
  - destruct (JS.to_binary64 _) as [| | |x]; cbn [JS.parseFloat_toFixed2];
      try discriminate.
    destruct (binary64_cases (JS.round2 x)) as [E|[E|(r & E & Hr)]];
      rewrite E; try discriminate.
    intros H. inversion H. subst. exact Hr.
  - intros H. inversion H. reflexivity.
Qed.

(** With a finite queue depth the saturation of a row is not [NaN]. *)
Lemma saturation_not_NaN (p : pool) :
  (exists d : Q, JS.parseInt (pool_queue p) = JS.Fin d) ->
  saturation p <> JS.NaN.
Proof.
  intros [d Hd]. unfold saturation. rewrite Hd.
  destruct (JS.gt (JS.parseInt (pool_queue_size p)) (JS.of_Z 0)) eqn:G;
    [|discriminate].
  assert (forall x, x <> JS.NaN -> JS.parseFloat_toFixed2 x <> JS.NaN) as Hfix.
  { intros [| | |x] Hx; cbn [JS.parseFloat_toFixed2]; try assumption.
    destruct (binary64_cases (JS.round2 x)) as [E|[E|(r & E & _)]];
      rewrite E; discriminate. }
  assert (forall x, x <> JS.NaN -> JS.to_binary64 x <> JS.NaN) as Hto.
  { intros [| | |x] Hx; cbn [JS.to_binary64]; try assumption.
    destruct (binary64_cases x) as [E|[E|(r & E & _)]];
      rewrite E; discriminate. }
  assert (forall x, x <> JS.NaN -> JS.mul x (JS.of_Z 100) <> JS.NaN) as Hmul.
  { intros [| | |x] Hx; cbn; try discriminate. contradiction. }
  apply Hfix, Hto, Hmul, Hto.
  destruct (parseInt_cases (pool_queue_size p))
    as [Hs|[Hs|[Hs|(s & Hs & _)]]]; rewrite Hs in *; try discriminate.
  cbn [JS.div]. cbn in G. apply negb_true_iff in G.
  destruct (Qeq_bool s 0) eqn:E; [|discriminate].
  apply Qeq_bool_iff in E.
  assert (Qle_bool s (inject_Z 0) = true) as C
    by (apply Qle_bool_iff; rewrite E; apply Qle_refl).
  congruence.
Qed.

(** The fullest visited row decides the maximum. *)
Lemma fullest_row_saturation (stats : list pool) (p : pool) :
  In p stats ->
  array_includes ["write"; "bulk"; "search"; "get"] (pool_name p) = true ->
  at_most (JS.of_Z 0) (saturation p) ->
  (forall r, In r stats ->
     array_includes ["write"; "bulk"; "search"; "get"] (pool_name r) = true ->
     at_most (saturation r) (saturation p)) ->
  maxSaturation (queueMetrics_of stats) = saturation p.
Proof.
  intros Hp Hg H0 Hall. rewrite maxSaturation_fold.
  assert (Forall (fun x => x <> JS.NaN) (map saturation (visited_rows stats)))
    as Hn.
  { apply Forall_map, Forall_forall. intros r Hr.
    apply visited_rows_In in Hr. destruct Hr as [Hr Hrg].
    apply (Hall r Hr Hrg). }
  destruct (fold_max_spec _ Hn (JS.of_Z 0) ltac:(discriminate))
    as (_ & Hle & Hc).
  set (c := fold_left JS.max (map saturation (visited_rows stats))
              (JS.of_Z 0)) in *.
  assert (at_most (saturation p) c) as Hpc.
  { rewrite Forall_forall in Hle. apply Hle, in_map, visited_rows_In.
    split; assumption. }
  assert (at_most c (saturation p)) as Hcp.
  { destruct Hc as [E|Hin]; [rewrite E; exact H0|].
    apply in_map_iff in Hin. destruct Hin as (r & <- & Hr).
    apply visited_rows_In in Hr. destruct Hr as [Hr Hrg].
    apply Hall; assumption. }
  apply at_most_antisym; try assumption.
  - intros q Hq. destruct Hc as [E|Hin].
    + rewrite E in Hq. inversion Hq. reflexivity.
    + apply in_map_iff in Hin. destruct Hin as (r & Er & _).
      rewrite <- Er in Hq. eapply saturation_lowest_terms; exact Hq.
  - apply saturation_lowest_terms.
Qed.

(** The only row of the queue-saturation fetch, at 60 percent, in one of the
    four pools that it keeps. *)
Lemma single_row_saturation (p : pool) :
  array_includes ["write"; "bulk"; "search"; "get"] (pool_name p) = true ->
  saturation p = JS.Fin 60 ->
  maxSaturation (queueMetrics_of [p]) = JS.Fin 60.
Proof.
  intros Hin Hsat. rewrite <- Hsat. apply fullest_row_saturation.
  - left. reflexivity.
  - exact Hin.
  - rewrite Hsat. split; [discriminate|]. split; [discriminate|reflexivity].
  - intros r [<-|[]] _. apply at_most_refl. rewrite Hsat. discriminate.
Qed.

End QueueFill.

Section Lists.

Import Metrics MetricsSamples AnalysisSamples Scenarios.

Ltac no_entry f :=
  intros; unfold f, push_issue, push_warning, set_active,
    set_circuit_breaker_trips, set_search_queue_saturation_pct;
  split_rules; reflexivity.

(** Which rules can push a per-pool queue warning. *)
Lemma pool_queue_warnings m h pools nodes pending :
  filter is_pool_queue_warning (warns (rules_applied m h pools nodes pending))
  = filter is_pool_queue_warning
      (flat_map (fun p => warns (check_pool no_findings p)) pools).
Proof.
  rewrite (proj2 (rules_applied_lists m h pools nodes pending)).
  rewrite !filter_app, (filter_flat_map _ _ nodes).
  assert (filter is_pool_queue_warning (warns (check_health h no_findings))
          = []) as -> by (no_entry check_health).
  rewrite (flat_map_nil _ nodes) by (no_entry check_node).
  assert (filter is_pool_queue_warning
            (warns (check_refresh (indexStats m) no_findings)) = [])
    as -> by (no_entry check_refresh).
  assert (filter is_pool_queue_warning
            (warns (check_pending pending no_findings)) = [])
    as -> by (no_entry check_pending).
  assert (filter is_pool_queue_warning
            (warns (check_active (activeTasks m) no_findings)) = [])
    as -> by (no_entry check_active).
  assert (filter is_pool_queue_warning
            (warns (check_breakers (circuitBreakerStatus m) no_findings))
          = []) as -> by (no_entry check_breakers).
  assert (filter is_pool_queue_warning
            (warns (check_queue (queueMetrics m) no_findings)) = [])
    as -> by (no_entry check_queue).
  assert (filter is_pool_queue_warning
            (warns (check_segments (segmentStats m)
                      (segmentStatsUserRooms m) no_findings)) = [])
    as -> by (no_entry check_segments).
  assert (filter is_pool_queue_warning
            (warns (check_caches (cacheMetrics m) no_findings)) = [])
    as -> by (no_entry check_caches).
  cbn [app]. rewrite app_nil_r. reflexivity.
Qed.

(** Which rule can push a queue-saturation warning. *)
Lemma queue_saturation_warnings m h pools nodes pending :
  filter is_queue_saturation_warning
    (warns (rules_applied m h pools nodes pending))
  = filter is_queue_saturation_warning
      (warns (check_queue (queueMetrics m) no_findings)).
Proof.
  rewrite (proj2 (rules_applied_lists m h pools nodes pending)).
  rewrite !filter_app, !filter_flat_map.
  assert (filter is_queue_saturation_warning
            (warns (check_health h no_findings)) = [])
    as -> by (no_entry check_health).
  rewrite (flat_map_nil _ pools) by (no_entry check_pool).
  rewrite (flat_map_nil _ nodes) by (no_entry check_node).
  assert (filter is_queue_saturation_warning
            (warns (check_refresh (indexStats m) no_findings)) = [])
    as -> by (no_entry check_refresh).
  assert (filter is_queue_saturation_warning
            (warns (check_pending pending no_findings)) = [])
    as -> by (no_entry check_pending).
  assert (filter is_queue_saturation_warning
            (warns (check_active (activeTasks m) no_findings)) = [])
    as -> by (no_entry check_active).
  assert (filter is_queue_saturation_warning
            (warns (check_breakers (circuitBreakerStatus m) no_findings))
          = []) as -> by (no_entry check_breakers).
  assert (filter is_queue_saturation_warning
            (warns (check_segments (segmentStats m)
                      (segmentStatsUserRooms m) no_findings)) = [])
    as -> by (no_entry check_segments).
  assert (filter is_queue_saturation_warning
            (warns (check_caches (cacheMetrics m) no_findings)) = [])
    as -> by (no_entry check_caches).
  cbn [app]. rewrite app_nil_r. reflexivity.
Qed.

(** Which rule can push a queue-saturation issue. *)
Lemma queue_saturation_issues m h pools nodes pending :
  filter is_queue_saturation_issue
    (issues (rules_applied m h pools nodes pending))
  = filter is_queue_saturation_issue
      (issues (check_queue (queueMetrics m) no_findings)).
Proof.
  rewrite (proj1 (rules_applied_lists m h pools nodes pending)).
  rewrite !filter_app, !filter_flat_map.
  assert (filter is_queue_saturation_issue
            (issues (check_health h no_findings)) = [])
    as -> by (no_entry check_health).
  rewrite (flat_map_nil _ pools) by (no_entry check_pool).
  rewrite (flat_map_nil _ nodes) by (no_entry check_node).
  assert (filter is_queue_saturation_issue
            (issues (check_refresh (indexStats m) no_findings)) = [])
    as -> by (no_entry check_refresh).
  assert (filter is_queue_saturation_issue
            (issues (check_pending pending no_findings)) = [])
    as -> by (no_entry check_pending).
  assert (filter is_queue_saturation_issue
            (issues (check_active (activeTasks m) no_findings)) = [])
    as -> by (no_entry check_active).
  assert (filter is_queue_saturation_issue
            (issues (check_breakers (circuitBreakerStatus m) no_findings))
          = []) as -> by (no_entry check_breakers).
  assert (filter is_queue_saturation_issue
            (issues (check_segments (segmentStats m)
                       (segmentStatsUserRooms m) no_findings)) = [])
    as -> by (no_entry check_segments).
  assert (filter is_queue_saturation_issue
            (issues (check_caches (cacheMetrics m) no_findings)) = [])
    as -> by (no_entry check_caches).
  cbn [app]. rewrite app_nil_r. reflexivity.
Qed.

(** Which rule can push a cache warning. *)
Lemma cache_warnings m h pools nodes pending :
  filter is_cache_warning (warns (rules_applied m h pools nodes pending))
  = filter is_cache_warning (warns (check_caches (cacheMetrics m) no_findings)).
Proof.
  rewrite (proj2 (rules_applied_lists m h pools nodes pending)).
  rewrite !filter_app, !filter_flat_map.
  assert (filter is_cache_warning (warns (check_health h no_findings)) = [])
    as -> by (no_entry check_health).
  rewrite (flat_map_nil _ pools) by (no_entry check_pool).
  rewrite (flat_map_nil _ nodes) by (no_entry check_node).
  assert (filter is_cache_warning
            (warns (check_refresh (indexStats m) no_findings)) = [])
    as -> by (no_entry check_refresh).
  assert (filter is_cache_warning
            (warns (check_pending pending no_findings)) = [])
    as -> by (no_entry check_pending).
  assert (filter is_cache_warning
            (warns (check_active (activeTasks m) no_findings)) = [])
    as -> by (no_entry check_active).
  assert (filter is_cache_warning
            (warns (check_breakers (circuitBreakerStatus m) no_findings))
          = []) as -> by (no_entry check_breakers).
  assert (filter is_cache_warning
            (warns (check_queue (queueMetrics m) no_findings)) = [])
    as -> by (no_entry check_queue).
  assert (filter is_cache_warning
            (warns (check_segments (segmentStats m)
                      (segmentStatsUserRooms m) no_findings)) = [])
    as -> by (no_entry check_segments).
  cbn [app]. reflexivity.
Qed.

(** The cache rule never pushes an issue. *)
Lemma check_caches_no_issue cm : issues (check_caches cm no_findings) = [].
Proof. no_entry check_caches. Qed.

End Lists.

Import Metrics MetricsSamples AnalysisSamples Scenarios.

(** Scenario D through the whole cycle: a search pool at 60 percent, seen by
    both thread-pool calls, gives one warning and no critical issue. *)
Example search_pool_at_60_percent :
  option_map (fun m => (critical_issues (summary m), warnings (summary m)))
    (snapshot_of
       (runFullCheck false "2025-01-01T00:00:00.000Z"
          (cluster_with_pool search_60) empty_world))
  = Some ([], [QueueSaturationHigh (JS.Fin 60)]).
Proof. vm_compute. reflexivity. Qed.

(** A search pool at 90 percent gives the critical saturation entry and the
    per-pool warning. *)
Example search_pool_at_90_percent :
  option_map (fun m => (critical_issues (summary m), warnings (summary m)))
    (snapshot_of
       (runFullCheck false "2025-01-01T00:00:00.000Z"
          (cluster_with_pool (pool_row "search" "900" "1000")) empty_world))
  = Some ([QueueSaturationCritical (JS.Fin 90)],
          [PoolQueueFull "search" (JS.Fin 90)]).
Proof. vm_compute. reflexivity. Qed.

(** A fill of 54.375 percent is printed as 54.37: the quotient 87/160 is not
    a Number, and the product held by the program is a last bit below
    54.375. *)
Example saturation_of_a_tie :
  saturation write_87_of_160 = JS.binary64 (5437 # 100)
  /\ JS.to_binary64
       (JS.mul (JS.to_binary64 (JS.div (JS.of_Z 87) (JS.of_Z 160)))
               (JS.of_Z 100))
     = JS.Fin (7652600929320959 # 140737488355328)
  /\ (JS.round2 (87 * 100 # 160) == 5438 # 100)%Q.
Proof. split; [|split]; vm_compute; reflexivity. Qed.

(** C6, as stated, fails: a refresh pool at 60 percent fill, and a search
    pool at 60 percent fill in a cycle whose queue-saturation call is
    rejected, both with every other metric below its threshold, leave the
    two lists of the summary empty. *)
Lemma pool_at_60_percent_without_warning :
  JS.parseInt (pool_queue refresh_60) = JS.of_Z 60
  /\ JS.parseInt (pool_queue_size refresh_60) = JS.of_Z 100
  /\ option_map
       (fun m => (threadPoolStats m, critical_issues (summary m),
                  warnings (summary m)))
       (snapshot_of
          (runFullCheck false "2025-01-01T00:00:00.000Z"
             (cluster_with_pool refresh_60) empty_world))
     = Some (Some [refresh_60], [], [])
  /\ JS.parseInt (pool_queue search_60) = JS.of_Z 600
  /\ JS.parseInt (pool_queue_size search_60) = JS.of_Z 1000
  /\ option_map
       (fun m => (threadPoolStats m, critical_issues (summary m),
                  warnings (summary m)))
       (snapshot_of
          (runFullCheck false "2025-01-01T00:00:00.000Z"
             (cluster_with_pool_queue_down search_60) empty_world))
     = Some (Some [search_60], [], []).
Proof. repeat split; vm_compute; reflexivity. Qed.

(** C6, amended.  On a snapshot whose four unguarded groups are present the
    classifier returns, and: the per-pool rule pushes one warning, never a
    critical issue, for each row whose queue depth exceeds 0.8 times its
    positive queue size, so none for a row at 60 percent; the 50/80 split is
    applied to the maximum saturation of the queue-saturation group, which
    gives exactly one critical entry and no warning above 80, exactly one
    warning and no critical entry above 50 and up to 80, and nothing
    otherwise or when the group is absent.  A row at 60 percent has
    saturation 60, and when it is the only row of the queue-saturation fetch
    and belongs to the write, bulk, search or get pool, the maximum
    saturation is 60.  The maximum saturation is taken over the write, bulk,
    search and get rows of the fetch: it is the saturation of any such row
    that is at least 0 and that no such row exceeds.  So when the
    queue-saturation group was computed from rows among which a row at 60
    percent is the fullest (no write, bulk, search or get row has a
    saturation above 60), the maximum saturation is 60 and the classifier
    pushes exactly one saturation warning, for 60, no saturation issue, and
    no per-pool warning for that row. *)
Theorem queue_fill_rules :
  forall (m : MetricsResult) h pools nodes pending,
    clusterHealth m = Some h -> threadPoolStats m = Some pools ->
    nodeStats m = Some nodes -> pendingTasks m = Some pending ->
    exists m' : MetricsResult,
      analyzeCriticalIssues m = Ok m'
      /\ List.length
           (filter is_pool_queue_warning (warnings (summary m')))
         = List.length (filter (fill_exceeds 8 10) pools)
      /\ filter is_queue_saturation_issue (critical_issues (summary m')) =
         match queueMetrics m with
         | Some qm =>
             if JS.gt (maxSaturation qm) (JS.of_Z 80)
             then [QueueSaturationCritical (maxSaturation qm)]
             else []
         | None => []
         end
      /\ filter is_queue_saturation_warning (warnings (summary m')) =
         match queueMetrics m with
         | Some qm =>
             if JS.gt (maxSaturation qm) (JS.of_Z 80) then []
             else if JS.gt (maxSaturation qm) (JS.of_Z 50)
             then [QueueSaturationHigh (maxSaturation qm)]
             else []
         | None => []
         end
      /\ (forall (p : pool) (size depth : Z),
            JS.parseInt (pool_queue_size p) = JS.of_Z size ->
            JS.parseInt (pool_queue p) = JS.of_Z depth ->
            0 < size -> 10 * depth = 6 * size ->
            fill_exceeds 8 10 p = false
            /\ saturation p = JS.Fin 60
            /\ (array_includes ["write"; "bulk"; "search"; "get"]
                  (pool_name p) = true ->
                maxSaturation (queueMetrics_of [p]) = JS.Fin 60))
      /\ (forall (stats : list pool) (p : pool),
            In p stats ->
            array_includes ["write"; "bulk"; "search"; "get"] (pool_name p)
              = true ->
            at_most (JS.of_Z 0) (saturation p) ->
            (forall r, In r stats ->
               array_includes ["write"; "bulk"; "search"; "get"]
                 (pool_name r) = true ->
               at_most (saturation r) (saturation p)) ->
            maxSaturation (queueMetrics_of stats) = saturation p)
      /\ (forall (stats : list pool) (p : pool) (size depth : Z),
            queueMetrics m = Some (queueMetrics_of stats) ->
            In p stats ->
            array_includes ["write"; "bulk"; "search"; "get"] (pool_name p)
              = true ->
            JS.parseInt (pool_queue_size p) = JS.of_Z size ->
            JS.parseInt (pool_queue p) = JS.of_Z depth ->
            0 < size -> 10 * depth = 6 * size ->
            (forall r, In r stats ->
               array_includes ["write"; "bulk"; "search"; "get"]
                 (pool_name r) = true ->
               at_most (saturation r) (JS.Fin 60)) ->
            maxSaturation (queueMetrics_of stats) = JS.Fin 60
            /\ filter is_queue_saturation_warning (warnings (summary m'))
               = [QueueSaturationHigh (JS.Fin 60)]
            /\ filter is_queue_saturation_issue
                 (critical_issues (summary m')) = []
            /\ fill_exceeds 8 10 p = false).
Proof.
  intros m h pools nodes pending H1 H2 H3 H4.
  eexists. split; [apply (analyze_ok m h pools nodes pending H1 H2 H3 H4)|].
  cbn [summary set_summary critical_issues warnings].
  split; [|split; [|split; [|split; [|split]]]].
  - rewrite pool_queue_warnings. apply pool_rule_count.
  - rewrite queue_saturation_issues.
    unfold check_queue, set_search_queue_saturation_pct, push_issue,
      push_warning.
    destruct (queueMetrics m) as [qm|]; [|reflexivity].
    destruct (JS.gt (maxSaturation qm) (JS.of_Z 80)); [reflexivity|].
    destruct (JS.gt (maxSaturation qm) (JS.of_Z 50)); reflexivity.
  - rewrite queue_saturation_warnings.
    unfold check_queue, set_search_queue_saturation_pct, push_issue,
      push_warning.
    destruct (queueMetrics m) as [qm|]; [|reflexivity].
    destruct (JS.gt (maxSaturation qm) (JS.of_Z 80)); [reflexivity|].
    destruct (JS.gt (maxSaturation qm) (JS.of_Z 50)); reflexivity.
  - intros p size depth Hs Hd Hpos H60.
    destruct (row_at_60_percent p size depth Hs Hd Hpos H60) as [Hf Hsat].
    split; [exact Hf|]. split; [exact Hsat|].
    intros Hin. apply single_row_saturation; assumption.
  - intros stats p. apply fullest_row_saturation.
  - intros stats p size depth Hqm Hp Hg Hs Hd Hpos H60 Hall.
    destruct (row_at_60_percent p size depth Hs Hd Hpos H60) as [Hf Hsat].
    assert (maxSaturation (queueMetrics_of stats) = JS.Fin 60) as Hmax.
    { rewrite <- Hsat. apply fullest_row_saturation; try assumption.
      - rewrite Hsat. split; [discriminate|].
        split; [discriminate | reflexivity].
      - rewrite Hsat. exact Hall. }
    split; [exact Hmax|].
    rewrite queue_saturation_warnings, queue_saturation_issues.
    unfold check_queue, set_search_queue_saturation_pct, push_issue,
      push_warning.
    rewrite Hqm, Hmax.
    split; [reflexivity|]. split; [reflexivity | exact Hf].
Qed.

Lemma queue_fill_rules_witness :
  exists m' : MetricsResult,
    analyzeCriticalIssues
      (snapshot_with [search_60; write_87_of_160] calm_nodes
         (Some (queueMetrics_of [search_60; write_87_of_160]))
         (Some no_cacheMetrics)) = Ok m'
    /\ List.length (filter is_pool_queue_warning (warnings (summary m')))
       = 0%nat
    /\ filter is_queue_saturation_issue (critical_issues (summary m')) = []
    /\ filter is_queue_saturation_warning (warnings (summary m'))
       = [QueueSaturationHigh (JS.Fin 60)]
    /\ maxSaturation (queueMetrics_of [search_60]) = JS.Fin 60
    /\ maxSaturation (queueMetrics_of [search_60; write_87_of_160])
       = JS.Fin 60.
Proof.
  destruct (queue_fill_rules
              (snapshot_with [search_60; write_87_of_160] calm_nodes
                 (Some (queueMetrics_of [search_60; write_87_of_160]))
                 (Some no_cacheMetrics))
              (mkHealth "green" 3) [search_60; write_87_of_160] calm_nodes []
              eq_refl eq_refl eq_refl eq_refl)
    as (m' & Hr & Hp & _ & _ & H60 & _ & Hfull).
  destruct (Hfull [search_60; write_87_of_160] search_60 1000 600 eq_refl
              ltac:(left; reflexivity) eq_refl eq_refl eq_refl
              ltac:(lia) ltac:(lia))
    as (Hmax & Hw & Hi & _).
  { intros r [<-|[<-|[]]] _;
      (split; [vm_compute; discriminate|]);
      (split; [discriminate | vm_compute; reflexivity]). }
  exists m'. split; [exact Hr|]. split; [exact Hp|]. split; [exact Hi|].
  split; [exact Hw|]. split; [|exact Hmax].
  apply (proj2 (proj2 (H60 search_60 1000 600 eq_refl eq_refl
                         ltac:(lia) ltac:(lia)))).
  reflexivity.
Defined.

(** C7, as stated, fails: 6000 query-cache evictions and no field-data
    evictions exceed 5000 on their own and combined, and make the cache fetch
    print its console line, but the classifier appends no cache warning. *)
Lemma evictions_6000_without_warning :
  option_map
    (fun m => (option_map queryCacheEvictions (cacheMetrics m),
               option_map fieldDataEvictions (cacheMetrics m),
               filter is_cache_warning (warnings (summary m))))
    (snapshot_of
       (runFullCheck false "2025-01-01T00:00:00.000Z"
          (cluster_with green (Resolved [search_60]) (Resolved [search_60])
             evictions_6000 calm_nodes) empty_world))
  = Some (Some 6000, Some 0, [])
  /\ highCacheEvictionRate 6000 0 = true
  /\ 5000 < 6000 + 0.
Proof. split; [vm_compute; reflexivity|]. split; [reflexivity|lia]. Qed.

(** C7, amended.  On a snapshot whose four unguarded groups are present the
    classifier returns, and the cache warnings of its summary are: one for
    the query cache exactly when the total of query-cache evictions exceeds
    10000, followed by one for field data exactly when the total of
    field-data evictions exceeds 1000, and none when the cache group is
    absent.  The critical issues are the same whatever the cache group
    holds. *)
Theorem cache_eviction_rules :
  forall (m : MetricsResult) h pools nodes pending,
    clusterHealth m = Some h -> threadPoolStats m = Some pools ->
    nodeStats m = Some nodes -> pendingTasks m = Some pending ->
    exists m' : MetricsResult,
      analyzeCriticalIssues m = Ok m'
      /\ filter is_cache_warning (warnings (summary m')) =
         match cacheMetrics m with
         | Some cm =>
             ((if 10000 <? queryCacheEvictions cm
               then [QueryCacheEvictions (queryCacheEvictions cm)] else [])
              ++ (if 1000 <? fieldDataEvictions cm
                  then [FieldDataEvictions (fieldDataEvictions cm)] else []))
             %list
         | None => []
         end
      /\ forall cm' : option cache_metrics,
           exists m'' : MetricsResult,
             analyzeCriticalIssues (with_cacheMetrics cm' m) = Ok m''
             /\ critical_issues (summary m'') = critical_issues (summary m').
Proof.
  intros m h pools nodes pending H1 H2 H3 H4.
  eexists. split; [apply (analyze_ok m h pools nodes pending H1 H2 H3 H4)|].
  cbn [summary set_summary critical_issues warnings].
  split.
  - rewrite cache_warnings.
    unfold check_caches, push_warning.
    destruct (cacheMetrics m) as [cm|]; [|reflexivity].
    destruct (10000 <? queryCacheEvictions cm),
      (1000 <? fieldDataEvictions cm); reflexivity.
  - intros cm'. eexists.
    split; [apply (analyze_ok (with_cacheMetrics cm' m) h pools nodes pending);
            assumption|].
    cbn [summary set_summary critical_issues].
    rewrite (proj1 (rules_applied_lists (with_cacheMetrics cm' m) h pools
                      nodes pending)),
      (proj1 (rules_applied_lists m h pools nodes pending)).
    cbn [with_cacheMetrics indexStats activeTasks circuitBreakerStatus
           queueMetrics segmentStats segmentStatsUserRooms cacheMetrics].
    rewrite !check_caches_no_issue. reflexivity.
Qed.

Lemma cache_eviction_rules_witness :
  exists m' : MetricsResult,
    analyzeCriticalIssues
      (snapshot_with [search_60] calm_nodes None
         (Some (mkCacheMetrics 12000 1500 []))) = Ok m'
    /\ filter is_cache_warning (warnings (summary m'))
       = [QueryCacheEvictions 12000; FieldDataEvictions 1500].
Proof.
  destruct (cache_eviction_rules
              (snapshot_with [search_60] calm_nodes None
                 (Some (mkCacheMetrics 12000 1500 [])))
              (mkHealth "green" 3) [search_60] calm_nodes []
              eq_refl eq_refl eq_refl eq_refl)
    as (m' & Hr & Hw & _).
  exists m'. split; [exact Hr | exact Hw].
Defined.

(** C9.  For every heap-used percentage the annotation of [checkNodeStats]
    is never the critical marker, and is the high marker for every value
    above 85; likewise the CPU annotation is never the critical marker, and
    is the high marker for every value above 90. *)
Theorem critical_annotation_unreachable :
  forall x : Z,
    heapWarning x <> " 🔴 CRITICAL"
    /\ (85 < x -> heapWarning x = " ⚠️ HIGH")
    /\ cpuWarning x <> " 🔴 CRITICAL"
    /\ (90 < x -> cpuWarning x = " ⚠️ HIGH").
Proof.
  intros x. unfold heapWarning, cpuWarning.
  destruct (Z.ltb_spec 75 x), (Z.ltb_spec 85 x), (Z.ltb_spec 80 x),
    (Z.ltb_spec 90 x); try lia;
    (split; [discriminate|]); (split; [intros; (reflexivity || lia)|]);
    (split; [discriminate|]); intros; (reflexivity || lia).
Qed.

Lemma critical_annotation_unreachable_witness :
  heapWarning 97 = " ⚠️ HIGH" /\ cpuWarning 99 = " ⚠️ HIGH".
Proof.
  split.
  - apply (proj1 (proj2 (critical_annotation_unreachable 97))). lia.
  - apply (proj2 (proj2 (proj2 (critical_annotation_unreachable 99)))). lia.
Defined.

Lemma int_or_0_Some (z : Z) : int_or_0 (Some z) = z.
Proof. cbn. destruct (Z.eqb_spec z 0); congruence. Qed.

(** C10.  For a snapshot whose node list is not empty, the cells of the
    appended CSV line under the headers [jvm_memory_percent] and
    [cpu_percent] hold the heap-used percentage and the CPU percentage of
    the first node of the list, whatever the other nodes report.  The line
    is appended whenever the output directory exists; without it the method
    throws and the file is left alone. *)
Theorem csv_row_reads_first_node :
  forall (m : MetricsResult) (first : node) (others : list node) (w : world),
    nodeStats m = Some (first :: others) ->
    nth_error headers 7 = Some "jvm_memory_percent"
    /\ nth_error headers 8 = Some "cpu_percent"
    /\ nth_error (summary_row m) 7 = Some (CInt (heap_used_percent first))
    /\ nth_error (summary_row m) 8 = Some (CInt (cpu_percent first))
    /\ (output_dir w = true ->
        exists lines : list (list cell),
          csv_file (fst (saveSummaryCSV m w)) =
          Some (lines ++ [summary_row m])%list)
    /\ (output_dir w = false ->
        csv_file (fst (saveSummaryCSV m w)) = csv_file w).
Proof.
  intros m first others w Hn.
  split; [reflexivity|]. split; [reflexivity|].
  assert (nth_error (summary_row m) 7 = Some (CInt (heap_used_percent first))
          /\ nth_error (summary_row m) 8 = Some (CInt (cpu_percent first)))
    as [H7 H8].
  { unfold summary_row. rewrite Hn. cbn [nth_error option_map].
    rewrite !int_or_0_Some. split; reflexivity. }
  split; [exact H7|]. split; [exact H8|].
  unfold saveSummaryCSV.
  split; intros ->; cbn [fst csv_file]; [eexists|]; reflexivity.
Qed.

Lemma csv_row_reads_first_node_witness :
  nth_error
    (summary_row
       (snapshot_with [search_60]
          [mkNode "node-1" 40 2 10; mkNode "node-2" 93 20 97] None None)) 7
  = Some (CInt 40)
  /\ nth_error
       (summary_row
          (snapshot_with [search_60]
             [mkNode "node-1" 40 2 10; mkNode "node-2" 93 20 97] None None)) 8
     = Some (CInt 10).
Proof.
  destruct (csv_row_reads_first_node
              (snapshot_with [search_60]
                 [mkNode "node-1" 40 2 10; mkNode "node-2" 93 20 97]
                 None None)
              (mkNode "node-1" 40 2 10) [mkNode "node-2" 93 20 97]
              empty_world eq_refl)
    as (_ & _ & H7 & H8 & _ & _).
  split; [exact H7 | exact H8].
Defined.

(* ================================================================== *)
(** ** The load driver: rooms, phases, counters and the report *)
(* ================================================================== *)

Section LoadCoverage.

Import ChatLoadTest LoadSamples CoverageSamples.



(** X2.  The phase tag never goes back: a later iteration is tagged with the
    same phase or a later one, from warmup below 100 to spike from 1000. *)
Theorem phase_never_goes_back :
  forall i j : Z,
    i <= j ->
    phase_rank (getCurrentPhase i) <= phase_rank (getCurrentPhase j)
    /\ (phase_rank (getCurrentPhase i) = 0 <-> i < 100)
    /\ (phase_rank (getCurrentPhase i) = 3 <-> 1000 <= i).
Proof.
  intros i j Hij. unfold getCurrentPhase.
  destruct (Z.ltb_spec i 100), (Z.ltb_spec i 500), (Z.ltb_spec i 1000),
    (Z.ltb_spec j 100), (Z.ltb_spec j 500), (Z.ltb_spec j 1000);
    try lia; cbn; repeat split; intros; lia.
Qed.

Lemma phase_never_goes_back_witness :
  phase_rank (getCurrentPhase 99) <= phase_rank (getCurrentPhase 100).
Proof.
  apply (proj1 (phase_never_goes_back 99 100 ltac:(lia))).
Defined.

Ltac iteration_cases r :=
  unfold default, isStorageErrorOnly, isGenericError, isS3SlowDown,
    isS3Error, rate_add;
  change ((status r =? 200) || (status r =? 201)) with (isSuccess r);
  destruct (isTimeout r), (isSuccess r),
    (body_includes r "SlowDown"), (body_includes r "S3"),
    (body_includes r "ServiceUnavailable"), (body_includes r "InternalError");
  cbn.

Lemma default_chatApiSuccess i r st :
  chatApiSuccess (default i r st) =
  (fst (chatApiSuccess st) + (if isSuccess r then 1 else 0),
   snd (chatApiSuccess st) + 1).
Proof.
  iteration_cases r; destruct (chatApiSuccess st);
    destruct (firstTimeoutIteration st), (firstErrorIteration st),
      (firstS3SlowDownIteration st); cbn; f_equal; lia.
Qed.

Lemma default_s3Errors_split i r st :
  s3Errors (default i r st) =
  s3Errors st + (if isS3SlowDown r then 1 else 0)
  + (if isStorageErrorOnly r then 1 else 0).
Proof.
  rewrite default_s3Errors. unfold isStorageErrorOnly.
  destruct (isS3SlowDown r), (isS3Error r); cbn; lia.
Qed.

Lemma run_app evs more : forall st,
  run (evs ++ more) st = run more (run evs st).
Proof.
  induction evs as [|[i r] evs IH]; intros st; cbn [run app];
    [reflexivity | apply IH].
Qed.

(** Every counter after a run, from any state. *)
Lemma run_all_counters evs : forall st,
  totalRequests (run evs st) = totalRequests st + Z.of_nat (List.length evs)
  /\ greendotUpdates (run evs st) =
     greendotUpdates st + occurrences isSuccess evs
  /\ chatApiSuccess (run evs st) =
     (fst (chatApiSuccess st) + occurrences isSuccess evs,
      snd (chatApiSuccess st) + Z.of_nat (List.length evs))
  /\ s3SlowDownErrors (run evs st) =
     s3SlowDownErrors st + occurrences isS3SlowDown evs
  /\ s3Errors (run evs st) =
     s3Errors st + occurrences isS3SlowDown evs
     + occurrences isStorageErrorOnly evs.
Proof.
  induction evs as [|[i r] evs IH]; intros st.
  - cbn [run]. unfold occurrences. cbn.
    rewrite !Z.add_0_r. rewrite <- surjective_pairing. repeat split.
  - cbn [run]. destruct (IH (default i r st)) as (H1 & H2 & H3 & H4 & H5).
    rewrite H1, H2, H3, H4, H5, !occurrences_cons.
    rewrite default_totalRequests, default_greendotUpdates,
      default_chatApiSuccess, default_s3SlowDownErrors,
      default_s3Errors_split.
    cbn [List.length fst snd].
    split; [lia|]. split; [lia|]. split; [f_equal; lia|]. split; lia.
Qed.

Lemma slowdown_storage_disjoint evs :
  occurrences isS3SlowDown evs + occurrences isStorageErrorOnly evs
  <= Z.of_nat (List.length evs).
Proof.
  induction evs as [|[i r] evs IH].
  - unfold occurrences. cbn. lia.
  - rewrite !occurrences_cons. cbn [List.length].
    assert ((if isS3SlowDown r then 1 else 0)
            + (if isStorageErrorOnly r then 1 else 0) <= 1) as Hr
      by (unfold isStorageErrorOnly;
          destruct (isS3SlowDown r), (isS3Error r); cbn; lia).
    lia.
Qed.

(** X3.  After any run from the fresh state: [total_requests] is the number
    of iterations; the green-dot counter and the true samples of the success
    rate are the number of successful responses, and the rate has one sample
    per iteration; [s3_slowdown_errors] counts the bodies with the rate-limit
    marker and [s3_errors_total] those plus the bodies with another storage
    marker and no rate-limit marker, so that
    [s3_slowdown_errors <= s3_errors_total <= total_requests].  Running
    further iterations never lowers a counter. *)
Theorem counters_after_run :
  forall evs more : list (Z * response),
    totalRequests (run evs initial) = Z.of_nat (List.length evs)
    /\ greendotUpdates (run evs initial) = occurrences isSuccess evs
    /\ chatApiSuccess (run evs initial) =
       (occurrences isSuccess evs, Z.of_nat (List.length evs))
    /\ s3SlowDownErrors (run evs initial) = occurrences isS3SlowDown evs
    /\ s3Errors (run evs initial) =
       occurrences isS3SlowDown evs + occurrences isStorageErrorOnly evs
    /\ s3SlowDownErrors (run evs initial) <= s3Errors (run evs initial)
    /\ s3Errors (run evs initial) <= totalRequests (run evs initial)
    /\ totalRequests (run evs initial)
       <= totalRequests (run (evs ++ more) initial)
    /\ totalErrors (run evs initial) <= totalErrors (run (evs ++ more) initial)
    /\ timeoutErrors (run evs initial)
       <= timeoutErrors (run (evs ++ more) initial)
    /\ s3SlowDownErrors (run evs initial)
       <= s3SlowDownErrors (run (evs ++ more) initial)
    /\ s3Errors (run evs initial) <= s3Errors (run (evs ++ more) initial)
    /\ greendotUpdates (run evs initial)
       <= greendotUpdates (run (evs ++ more) initial).
Proof.
  intros evs more.
  destruct (run_all_counters evs initial) as (H1 & H2 & H3 & H4 & H5).
  destruct (run_all_counters more (run evs initial))
    as (M1 & M2 & _ & M4 & M5).
  destruct (run_counters more (run evs initial)) as (_ & N2 & N3).
  pose proof (slowdown_storage_disjoint evs).
  pose proof (occurrences_nonneg isS3SlowDown evs).
  pose proof (occurrences_nonneg isStorageErrorOnly evs).
  pose proof (occurrences_nonneg isS3SlowDown more).
  pose proof (occurrences_nonneg isStorageErrorOnly more).
  pose proof (occurrences_nonneg isSuccess more).
  pose proof (occurrences_nonneg isTimeout more).
  pose proof (occurrences_nonneg isGenericError more).
  rewrite !run_app.
  cbn [initial totalRequests greendotUpdates chatApiSuccess s3SlowDownErrors
         s3Errors fst snd] in H1, H2, H3, H4, H5.
  rewrite ?Z.add_0_l in H1, H2, H3, H4, H5.
  split; [exact H1|]. split; [exact H2|]. split; [exact H3|].
  split; [exact H4|]. split; [exact H5|].
  repeat split; lia.
Qed.

Lemma find_none_occurrences cond (evs : list (Z * response)) :
  first_index cond evs = None <-> occurrences cond evs = 0.
Proof.
  unfold first_index, occurrences.
  induction evs as [|[i r] evs IH]; cbn [find filter snd].
  - cbn. split; reflexivity.
  - destruct (cond r); cbn [List.length option_map].
    + split; [discriminate | lia].
    + exact IH.
Qed.

(** X4.  The latches are module-level variables, so each VU has its own.
    Within one VU, after any sequence of iterations from the fresh state,
    each latch holds the iteration index of the first response of that
    sequence that met its condition, whatever responses came before it or
    after it, and it is unset exactly when no response of the sequence met
    the condition. *)
Theorem latch_holds_first_occurrence :
  forall evs : list (Z * response),
    firstTimeoutIteration (run evs initial) = first_index isTimeout evs
    /\ firstErrorIteration (run evs initial) = first_index isGenericError evs
    /\ firstS3SlowDownIteration (run evs initial)
       = first_index isS3SlowDown evs
    /\ (firstTimeoutIteration (run evs initial) = None
        <-> occurrences isTimeout evs = 0)
    /\ (firstErrorIteration (run evs initial) = None
        <-> occurrences isGenericError evs = 0)
    /\ (firstS3SlowDownIteration (run evs initial) = None
        <-> occurrences isS3SlowDown evs = 0).
Proof.
  intros evs.
  rewrite (run_latch firstTimeoutIteration isTimeout
             default_firstTimeoutIteration),
    (run_latch firstS3SlowDownIteration isS3SlowDown
       default_firstS3SlowDownIteration),
    (run_latch firstErrorIteration isGenericError
       default_firstErrorIteration).
  cbn [initial firstTimeoutIteration firstS3SlowDownIteration
         firstErrorIteration].
  fold (first_index isTimeout evs) (first_index isS3SlowDown evs)
    (first_index isGenericError evs).
  split; [reflexivity|]. split; [reflexivity|]. split; [reflexivity|].
  split; [|split]; apply find_none_occurrences.
Qed.

End LoadCoverage.

(* ================================================================== *)
(** ** The check methods: what they return *)
(* ================================================================== *)

Section CheckCoverage.

Import Metrics MetricsSamples AnalysisSamples Scenarios MetricsCoverage.

Lemma filter_length_mono {X : Type} (f g : X -> bool) (xs : list X) :
  (forall x, f x = true -> g x = true) ->
  (List.length (filter f xs) <= List.length (filter g xs))%nat.
Proof.
  intros Hfg. induction xs as [|x xs IH]; cbn [filter]; [lia|].
  destruct (f x) eqn:Ef.
  - rewrite (Hfg x Ef). cbn [List.length]. lia.
  - destruct (g x); cbn [List.length]; lia.
Qed.

Lemma activeTasks_of_nested body : counts_nested (activeTasks_of body).
Proof.
  unfold counts_nested, activeTasks_of, length_of, JS.slice0.
  cbn [total searchTasks longRunning5s longRunning10s longRunning30s tasks].
  set (all := match body with Some ts => ts | None => [] end).
  set (search := filter is_search_task all).
  pose proof (filter_length_mono
                (fun t => 30000000000 <? running_time_in_nanos t)
                (fun t => 10000000000 <? running_time_in_nanos t) search) as H1.
  pose proof (filter_length_mono
                (fun t => 10000000000 <? running_time_in_nanos t)
                (fun t => 5000000000 <? running_time_in_nanos t) search) as H2.
  pose proof (List.filter_length_le is_search_task all) as H3.
  pose proof (List.filter_length_le
                (fun t => 5000000000 <? running_time_in_nanos t) search) as H4.
  pose proof (length_firstn 20 search) as H5.
  assert (forall t : task, (30000000000 <? running_time_in_nanos t) = true ->
                           (10000000000 <? running_time_in_nanos t) = true)
    as I1 by (intros t; rewrite !Z.ltb_lt; lia).
  assert (forall t : task, (10000000000 <? running_time_in_nanos t) = true ->
                           (5000000000 <? running_time_in_nanos t) = true)
    as I2 by (intros t; rewrite !Z.ltb_lt; lia).
  specialize (H1 I1). specialize (H2 I2).
  fold search in H3.
  repeat split; lia.
Qed.

(** X6.  [checkActiveTasks] always returns, having made its one call, and
    the counts it returns are nested: 0 <= (>30s) <= (>10s) <= (>5s) <=
    search tasks <= all tasks, with at most 20 tasks kept; a rejected call
    gives all zeros. *)
Theorem active_task_counts_nested :
  forall (env : environment) (w : world),
    exists t : active_tasks,
      checkActiveTasks env w = (logged tasks_list w, Ok t)
      /\ counts_nested t
      /\ ((exists e, env_tasks env = Rejected e) -> t = no_activeTasks)
      /\ (env_tasks env = Resolved None -> t = no_activeTasks).
Proof.
  intros env w. rewrite checkActiveTasks_run. eexists.
  split; [reflexivity|]. unfold settle.
  destruct (env_tasks env) as [body|e].
  - split; [apply activeTasks_of_nested|].
    split; [intros [e He]; discriminate He|].
    intros H. inversion H. reflexivity.
  - split; [repeat split; cbn; lia|].
    split; [reflexivity | discriminate].
Qed.

Lemma sum_Z_app xs ys : sum_Z (xs ++ ys) = sum_Z xs + sum_Z ys.
Proof.
  unfold sum_Z. induction xs as [|x xs IH]; cbn [app fold_right]; lia.
Qed.

Lemma node_trips_fold (entries : list (string * breaker)) : forall acc,
  fold_left
    (fun totalTrips (entry : string * breaker) =>
       let (breakerName, breaker) := entry in
       if String.eqb breakerName "parent"
          || String.eqb breakerName "request"
          || String.eqb breakerName "fielddata"
       then totalTrips + tripped breaker
       else totalTrips) entries acc
  = acc + sum_Z (map (fun entry => tripped (snd entry))
                   (filter is_tracked_breaker entries)).
Proof.
  induction entries as [|[name b] entries IH]; intros acc;
    cbn [fold_left filter map].
  - cbn. lia.
  - rewrite IH. unfold is_tracked_breaker at 2. cbn [fst].
    destruct (String.eqb name "parent" || String.eqb name "request"
              || String.eqb name "fielddata");
      cbn [map sum_Z fold_right snd]; fold (sum_Z); unfold sum_Z; lia.
Qed.

Lemma totalTrips_sum (nodes : list breaker_node) :
  totalTrips (breakerStatus_of nodes) = sum_Z (map tracked_trips nodes).
Proof.
  unfold breakerStatus_of. cbn [totalTrips].
  assert (forall acc,
             fold_left
               (fun totalTrips node =>
                  fold_left
                    (fun totalTrips (entry : string * breaker) =>
                       let (breakerName, breaker) := entry in
                       if String.eqb breakerName "parent"
                          || String.eqb breakerName "request"
                          || String.eqb breakerName "fielddata"
                       then totalTrips + tripped breaker
                       else totalTrips) (breakers node) totalTrips)
               nodes acc
             = acc + sum_Z (map tracked_trips nodes)) as H.
  { induction nodes as [|n nodes IH]; intros acc; cbn [fold_left map].
    - cbn. lia.
    - rewrite IH, node_trips_fold. unfold tracked_trips at 2.
      cbn [sum_Z fold_right]. fold (sum_Z). unfold sum_Z. lia. }
  rewrite H. lia.
Qed.

Lemma sum_Z_nonneg zs : Forall (fun z => 0 <= z) zs -> 0 <= sum_Z zs.
Proof.
  induction 1 as [|z zs Hz _ IH]; cbn [sum_Z fold_right]; [lia|].
  fold (sum_Z zs). lia.
Qed.

(** X7.  The trip total of [checkCircuitBreakerStatus] is the sum, over the
    nodes, of the trips of their parent, request and fielddata breakers:
    other breakers never count, the total of two node lists is the sum of
    their totals, and it is not negative when no counted breaker reports a
    negative number.  The method always returns, with total 0 when its call
    is rejected. *)
Theorem breaker_trips_total :
  forall (nodes more : list breaker_node),
    totalTrips (breakerStatus_of nodes) = sum_Z (map tracked_trips nodes)
    /\ totalTrips (breakerStatus_of (nodes ++ more)) =
       totalTrips (breakerStatus_of nodes) + totalTrips (breakerStatus_of more)
    /\ (Forall (fun n => Forall (fun entry => 0 <= tripped (snd entry))
                           (filter is_tracked_breaker (breakers n))) nodes ->
        0 <= totalTrips (breakerStatus_of nodes))
    /\ forall (env : environment) (w : world),
         exists cb : circuit_breaker_status,
           checkCircuitBreakerStatus env w
             = (logged (nodes_stats ["breaker"]) w, Ok cb)
           /\ (env_breakers env = Resolved nodes ->
               totalTrips cb = sum_Z (map tracked_trips nodes))
           /\ ((exists e, env_breakers env = Rejected e) -> totalTrips cb = 0).
Proof.
  intros nodes more. split; [apply totalTrips_sum|]. split; [|split].
  - rewrite !totalTrips_sum, map_app, sum_Z_app. reflexivity.
  - intros Hall. rewrite totalTrips_sum. apply sum_Z_nonneg.
    apply Forall_map. eapply Forall_impl; [|exact Hall].
    intros n Hn. unfold tracked_trips. apply sum_Z_nonneg.
    apply Forall_map. exact Hn.
  - intros env w. rewrite checkCircuitBreakerStatus_run. eexists.
    split; [reflexivity|]. unfold settle.
    destruct (env_breakers env) as [body|e].
    + split; [intros H; inversion H; apply totalTrips_sum|].
      intros [e He]. discriminate He.
    + split; [discriminate | reflexivity].
Qed.

Lemma breaker_trips_total_witness :
  0 <= totalTrips
         (breakerStatus_of
            [mkBreakerNode "node-1"
               [("parent", mkBreaker 10 100 2);
                ("in_flight_requests", mkBreaker 1 100 (-7));
                ("fielddata", mkBreaker 5 100 1)]]).
Proof.
  apply (proj1 (proj2 (proj2 (breaker_trips_total
           [mkBreakerNode "node-1"
              [("parent", mkBreaker 10 100 2);
               ("in_flight_requests", mkBreaker 1 100 (-7));
               ("fielddata", mkBreaker 5 100 1)]] [])))).
  repeat constructor; cbn; lia.
Defined.

Lemma evictions_fold (pick : cache_node -> option cache_stats) nodes :
  forall acc,
    fold_left
      (fun acc node =>
         match pick node with
         | Some c => acc + evictions c
         | None => acc
         end) nodes acc
    = acc + sum_Z (map (fun n => evictions_or_0 (pick n)) nodes).
Proof.
  induction nodes as [|n nodes IH]; intros acc; cbn [fold_left map].
  - cbn. lia.
  - rewrite IH. cbn [sum_Z fold_right]. fold (sum_Z). unfold sum_Z.
    unfold evictions_or_0 at 2. destruct (pick n); lia.
Qed.

Lemma cacheMetrics_sums nodes :
  queryCacheEvictions (cacheMetrics_of nodes)
    = sum_Z (map (fun n => evictions_or_0 (query_cache n)) nodes)
  /\ fieldDataEvictions (cacheMetrics_of nodes)
     = sum_Z (map (fun n => evictions_or_0 (fielddata n)) nodes).
Proof.
  unfold cacheMetrics_of. cbn [queryCacheEvictions fieldDataEvictions].
  rewrite (evictions_fold query_cache), (evictions_fold fielddata).
  split; lia.
Qed.

End CheckCoverage.

(* ================================================================== *)
(** ** The issue classifier: rule by rule *)
(* ================================================================== *)

Section RuleCoverage.

Import Metrics MetricsSamples AnalysisSamples Scenarios MetricsCoverage
  RuleVocabulary.

Ltac rule_empty :=
  intros;
  unfold check_health, check_pool, check_node, check_refresh, check_pending,
    check_active, check_breakers, check_queue, check_segments, check_caches,
    push_issue, push_warning, set_active, set_circuit_breaker_trips,
    set_search_queue_saturation_pct;
  split_rules; reflexivity.

(** Drop from a filtered list of the summary a rule that cannot push an
    entry with the property. *)
Ltac drop_piece :=
  match goal with
  | |- context [filter ?P (?proj (?f ?a no_findings))] =>
      let H := fresh in
      assert (H : filter P (proj (f a no_findings)) = []) by rule_empty;
      rewrite H; clear H
  | |- context [flat_map (fun p => filter ?P (?proj (?f no_findings p))) ?xs] =>
      rewrite (flat_map_nil (fun p => filter P (proj (f no_findings p))) xs)
        by rule_empty
  end.

Ltac by_rules m h pools nodes pending :=
  first [ rewrite (proj1 (rules_applied_lists m h pools nodes pending))
        | rewrite (proj2 (rules_applied_lists m h pools nodes pending)) ];
  rewrite !filter_app, !filter_flat_map;
  repeat drop_piece; cbn [app]; rewrite ?app_nil_r.

(** X8.  [analyzeCriticalIssues] throws the error of reading [null] exactly
    when the cluster health, the thread-pool rows, the node list or the
    pending-task list is missing; the other groups may be missing.  When it
    returns, the snapshot differs from the one it was given in its summary
    only, and the health status of the summary is the cluster status. *)
Theorem analysis_needs_four_groups :
  forall m : MetricsResult,
    (clusterHealth m = None \/ threadPoolStats m = None
     \/ nodeStats m = None \/ pendingTasks m = None ->
     analyzeCriticalIssues m = Throw null_error)
    /\ (forall h pools nodes pending,
          clusterHealth m = Some h -> threadPoolStats m = Some pools ->
          nodeStats m = Some nodes -> pendingTasks m = Some pending ->
          exists m' : MetricsResult,
            analyzeCriticalIssues m = Ok m'
            /\ m' = set_summary (summary m') m
            /\ health_status (summary m') = status h).
Proof.
  intros m. split.
  - unfold analyzeCriticalIssues.
    destruct (clusterHealth m), (threadPoolStats m), (nodeStats m),
      (pendingTasks m); intros [H|[H|[H|H]]];
      (discriminate H || reflexivity).
  - intros h pools nodes pending H1 H2 H3 H4.
    eexists. split; [apply (analyze_ok m h pools nodes pending H1 H2 H3 H4)|].
    split; reflexivity.
Qed.

Lemma analysis_needs_four_groups_witness :
  analyzeCriticalIssues
    (mkMetricsResult "2025-01-01T00:00:00.000Z" None (Some []) (Some [])
       None None None (Some []) None None None None None None None
       initial_summary) = Throw null_error
  /\ exists m' : MetricsResult,
       analyzeCriticalIssues
         (mkMetricsResult "2025-01-01T00:00:00.000Z"
            (Some (mkHealth "green" 3)) (Some []) (Some [])
            None None None (Some []) None None None None None None None
            initial_summary) = Ok m'
       /\ health_status (summary m') = "green".
Proof.
  split.
  - apply (proj1 (analysis_needs_four_groups
             (mkMetricsResult "2025-01-01T00:00:00.000Z" None (Some [])
                (Some []) None None None (Some []) None None None None None
                None None initial_summary))).
    left. reflexivity.
  - destruct (proj2 (analysis_needs_four_groups
             (mkMetricsResult "2025-01-01T00:00:00.000Z"
                (Some (mkHealth "green" 3)) (Some []) (Some [])
                None None None (Some []) None None None None None None None
                initial_summary))
             (mkHealth "green" 3) [] [] [] eq_refl eq_refl eq_refl eq_refl)
      as (m' & Hr & _ & Hs).
    exists m'. split; [exact Hr | exact Hs].
Defined.

Lemma node_rule_counts (nodes : list node) :
  List.length
    (filter is_jvm_issue
       (flat_map (fun n => issues (check_node no_findings n)) nodes))
  = List.length (filter (fun n => 85 <? heap_used_percent n) nodes)
  /\ List.length
       (filter is_jvm_warning
          (flat_map (fun n => warns (check_node no_findings n)) nodes))
     = List.length
         (filter (fun n => (75 <? heap_used_percent n)
                           && negb (85 <? heap_used_percent n)) nodes)
  /\ List.length
       (filter is_cpu_issue
          (flat_map (fun n => issues (check_node no_findings n)) nodes))
     = List.length (filter (fun n => 90 <? cpu_percent n) nodes)
  /\ List.length
       (filter is_cpu_warning
          (flat_map (fun n => warns (check_node no_findings n)) nodes))
     = List.length
         (filter (fun n => (80 <? cpu_percent n)
                           && negb (90 <? cpu_percent n)) nodes).
Proof.
  induction nodes as [|n nodes (I1 & I2 & I3 & I4)]; cbn [flat_map filter];
    [repeat split|].
  rewrite !filter_app, !length_app, I1, I2, I3, I4.
  unfold check_node, push_issue, push_warning.
  destruct (85 <? heap_used_percent n), (75 <? heap_used_percent n),
    (90 <? cpu_percent n), (80 <? cpu_percent n),
    (10 <? old_collection_count n); cbn; repeat split.
Qed.

(** X9.  On a snapshot whose four unguarded groups are present, the
    classifier pushes for every node at most one entry about its heap and at
    most one about its CPU, never both a critical issue and a warning for
    the same metric: a critical issue for each node above 85 (heap) or 90
    (CPU), a warning for each node above 75 and up to 85 (heap) or above 80
    and up to 90 (CPU), and nothing for the others. *)
Theorem node_rules_are_exclusive :
  forall (m : MetricsResult) h pools nodes pending,
    clusterHealth m = Some h -> threadPoolStats m = Some pools ->
    nodeStats m = Some nodes -> pendingTasks m = Some pending ->
    exists m' : MetricsResult,
      analyzeCriticalIssues m = Ok m'
      /\ List.length (filter is_jvm_issue (critical_issues (summary m')))
         = List.length (filter (fun n => 85 <? heap_used_percent n) nodes)
      /\ List.length (filter is_jvm_warning (warnings (summary m')))
         = List.length
             (filter (fun n => (75 <? heap_used_percent n)
                               && negb (85 <? heap_used_percent n)) nodes)
      /\ List.length (filter is_cpu_issue (critical_issues (summary m')))
         = List.length (filter (fun n => 90 <? cpu_percent n) nodes)
      /\ List.length (filter is_cpu_warning (warnings (summary m')))
         = List.length
             (filter (fun n => (80 <? cpu_percent n)
                               && negb (90 <? cpu_percent n)) nodes).
Proof.
  intros m h pools nodes pending H1 H2 H3 H4.
  eexists. split; [apply (analyze_ok m h pools nodes pending H1 H2 H3 H4)|].
  cbn [summary set_summary critical_issues warnings].
  destruct (node_rule_counts nodes) as (N1 & N2 & N3 & N4).
  split; [|split; [|split]].
  - by_rules m h pools nodes pending. rewrite <- filter_flat_map. exact N1.
  - by_rules m h pools nodes pending. rewrite <- filter_flat_map. exact N2.
  - by_rules m h pools nodes pending. rewrite <- filter_flat_map. exact N3.
  - by_rules m h pools nodes pending. rewrite <- filter_flat_map. exact N4.
Qed.

Lemma node_rules_are_exclusive_witness :
  exists m' : MetricsResult,
    analyzeCriticalIssues
      (snapshot_with [] [mkNode "node-1" 90 2 10; mkNode "node-2" 80 3 95]
         None None) = Ok m'
    /\ List.length (filter is_jvm_issue (critical_issues (summary m')))
       = 1%nat
    /\ List.length (filter is_jvm_warning (warnings (summary m'))) = 1%nat.
Proof.
  destruct (node_rules_are_exclusive
              (snapshot_with [] [mkNode "node-1" 90 2 10;
                                 mkNode "node-2" 80 3 95] None None)
              (mkHealth "green" 3) []
              [mkNode "node-1" 90 2 10; mkNode "node-2" 80 3 95] []
              eq_refl eq_refl eq_refl eq_refl)
    as (m' & Hr & Hi & Hw & _).
  exists m'. split; [exact Hr|]. split; [exact Hi | exact Hw].
Defined.

(** [time / count > k], multiplied out. *)
Lemma gt_ratio (time count k : Z) :
  0 < count ->
  JS.gt (JS.div (JS.of_Z time) (JS.of_Z count)) (JS.of_Z k)
  = (k * count <? time).
Proof.
  intros Hc. unfold JS.div, JS.of_Z. rewrite Qeq_bool_inject_Z_0.
  destruct (Z.eqb_spec count 0) as [E|_]; [lia|].
  cbn [JS.gt].
  assert (Qle_bool (Qred (inject_Z time / inject_Z count)) (inject_Z k)
          = (time <=? k * count)) as ->.
  { destruct count as [|p|p]; try lia.
    destruct (time <=? k * Z.pos p) eqn:E.
    - apply Qle_bool_iff. rewrite Qred_correct. apply Z.leb_le in E.
      unfold Qle, Qdiv, Qmult, Qinv, inject_Z. cbn. lia.
    - destruct (Qle_bool (Qred (inject_Z time / inject_Z (Z.pos p)))
                  (inject_Z k)) eqn:F; [|reflexivity].
      apply Qle_bool_iff in F. rewrite Qred_correct in F.
      apply Z.leb_gt in E.
      unfold Qle, Qdiv, Qmult, Qinv, inject_Z in F. cbn in F. lia. }
  destruct (Z.leb_spec time (k * count)), (Z.ltb_spec (k * count) time);
    (reflexivity || lia).
Qed.

Lemma refresh_rule (stats : option index_total) :
  filter is_refresh_issue (issues (check_refresh stats no_findings))
  = (if refresh_exceeds 100 stats
     then filter is_refresh_issue (issues (check_refresh stats no_findings))
     else [])
  /\ List.length
       (filter is_refresh_issue (issues (check_refresh stats no_findings)))
     = (if refresh_exceeds 100 stats then 1 else 0)%nat
  /\ List.length
       (filter is_refresh_warning (warns (check_refresh stats no_findings)))
     = (if refresh_exceeds 50 stats && negb (refresh_exceeds 100 stats)
        then 1 else 0)%nat.
Proof.
  unfold check_refresh, refresh_exceeds, push_issue, push_warning.
  destruct stats as [s|]; [|repeat split].
  destruct (Z.ltb_spec 0 (refresh_total s)) as [Hpos|Hpos].
  - rewrite !gt_ratio by exact Hpos. cbn [andb].
    destruct (100 * refresh_total s <? refresh_total_time_in_millis s) eqn:E1,
      (50 * refresh_total s <? refresh_total_time_in_millis s) eqn:E2;
      cbn; repeat split.
  - cbn. repeat split.
Qed.

(** X10.  On a snapshot whose four unguarded groups are present, the refresh
    rule pushes exactly one critical issue when the index has refreshed and
    the total refresh time is more than 100 ms times the number of
    refreshes, exactly one warning when it is more than 50 ms and at most
    100 ms times that number, and nothing otherwise: in particular nothing
    for an index that never refreshed or whose stats are missing. *)
Theorem refresh_latency_rule :
  forall (m : MetricsResult) h pools nodes pending,
    clusterHealth m = Some h -> threadPoolStats m = Some pools ->
    nodeStats m = Some nodes -> pendingTasks m = Some pending ->
    exists m' : MetricsResult,
      analyzeCriticalIssues m = Ok m'
      /\ List.length (filter is_refresh_issue (critical_issues (summary m')))
         = (if refresh_exceeds 100 (indexStats m) then 1 else 0)%nat
      /\ List.length (filter is_refresh_warning (warnings (summary m')))
         = (if refresh_exceeds 50 (indexStats m)
               && negb (refresh_exceeds 100 (indexStats m))
            then 1 else 0)%nat.
Proof.
  intros m h pools nodes pending H1 H2 H3 H4.
  eexists. split; [apply (analyze_ok m h pools nodes pending H1 H2 H3 H4)|].
  cbn [summary set_summary critical_issues warnings].
  destruct (refresh_rule (indexStats m)) as (_ & R1 & R2).
  split.
  - by_rules m h pools nodes pending. exact R1.
  - by_rules m h pools nodes pending. exact R2.
Qed.

Lemma refresh_latency_rule_witness :
  exists m' : MetricsResult,
    analyzeCriticalIssues
      (mkMetricsResult "2025-01-01T00:00:00.000Z"
         (Some (mkHealth "green" 3)) (Some []) (Some [])
         (Some (mkIndexTotal 1000 5000 10 1001)) None None (Some []) None
         None None None None None None initial_summary) = Ok m'
    /\ List.length (filter is_refresh_issue (critical_issues (summary m')))
       = 1%nat
    /\ List.length (filter is_refresh_warning (warnings (summary m')))
       = 0%nat.
Proof.
  destruct (refresh_latency_rule
              (mkMetricsResult "2025-01-01T00:00:00.000Z"
                 (Some (mkHealth "green" 3)) (Some []) (Some [])
                 (Some (mkIndexTotal 1000 5000 10 1001)) None None (Some [])
                 None None None None None None None initial_summary)
              (mkHealth "green" 3) [] [] [] eq_refl eq_refl eq_refl eq_refl)
    as (m' & Hr & Hi & Hw).
  exists m'. split; [exact Hr|]. split; [exact Hi | exact Hw].
Defined.

(** X11.  On a snapshot whose four unguarded groups are present: when the
    cluster status is exactly "red" the list of critical issues starts with
    the cluster entry and there is no cluster warning; when it is exactly
    "yellow" the list of warnings starts with the cluster entry and there is
    no cluster issue; for any other status, also "RED" or "green", neither
    list has a cluster entry. *)
Theorem cluster_status_rule :
  forall (m : MetricsResult) h pools nodes pending,
    clusterHealth m = Some h -> threadPoolStats m = Some pools ->
    nodeStats m = Some nodes -> pendingTasks m = Some pending ->
    exists m' : MetricsResult,
      analyzeCriticalIssues m = Ok m'
      /\ (status h = "red" ->
          hd_error (critical_issues (summary m')) = Some ClusterRed
          /\ filter is_cluster_warning (warnings (summary m')) = [])
      /\ (status h = "yellow" ->
          hd_error (warnings (summary m')) = Some ClusterYellow
          /\ filter is_cluster_issue (critical_issues (summary m')) = [])
      /\ (status h <> "red" -> status h <> "yellow" ->
          filter is_cluster_issue (critical_issues (summary m')) = []
          /\ filter is_cluster_warning (warnings (summary m')) = []).
Proof.
  intros m h pools nodes pending H1 H2 H3 H4.
  eexists. split; [apply (analyze_ok m h pools nodes pending H1 H2 H3 H4)|].
  cbn [summary set_summary critical_issues warnings].
  assert (filter is_cluster_issue
            (issues (rules_applied m h pools nodes pending))
          = filter is_cluster_issue (issues (check_health h no_findings)))
    as Fi by (by_rules m h pools nodes pending; reflexivity).
  assert (filter is_cluster_warning
            (warns (rules_applied m h pools nodes pending))
          = filter is_cluster_warning (warns (check_health h no_findings)))
    as Fw by (by_rules m h pools nodes pending; reflexivity).
  rewrite Fi, Fw.
  rewrite (proj1 (rules_applied_lists m h pools nodes pending)),
    (proj2 (rules_applied_lists m h pools nodes pending)).
  unfold check_health, push_issue, push_warning.
  split; [|split].
  - intros E. rewrite E. cbn. split; reflexivity.
  - intros E. rewrite E. cbn. split; reflexivity.
  - intros N1 N2.
    destruct (String.eqb_spec (status h) "red") as [E|_]; [contradiction|].
    destruct (String.eqb_spec (status h) "yellow") as [E|_];
      [contradiction|].
    cbn. split; reflexivity.
Qed.

Lemma cluster_status_rule_witness :
  exists m' : MetricsResult,
    analyzeCriticalIssues
      (mkMetricsResult "2025-01-01T00:00:00.000Z"
         (Some (mkHealth "red" 3)) (Some [pool_row "write" "0" "200"])
         (Some [mkNode "node-1" 99 0 99]) None None None (Some []) None
         None None None None None None initial_summary) = Ok m'
    /\ hd_error (critical_issues (summary m')) = Some ClusterRed.
Proof.
  destruct (cluster_status_rule
              (mkMetricsResult "2025-01-01T00:00:00.000Z"
                 (Some (mkHealth "red" 3)) (Some [pool_row "write" "0" "200"])
                 (Some [mkNode "node-1" 99 0 99]) None None None (Some [])
                 None None None None None None None initial_summary)
              (mkHealth "red" 3) [pool_row "write" "0" "200"]
              [mkNode "node-1" 99 0 99] [] eq_refl eq_refl eq_refl eq_refl)
    as (m' & Hr & Hred & _).
  exists m'. split; [exact Hr|]. exact (proj1 (Hred eq_refl)).
Defined.

(** X12.  A query that has been running for more than 30 seconds is reported
    twice: when the active-tasks group is what [checkActiveTasks] computes
    from a task list with such a search task, the summary holds the critical
    entry for the queries over 30 seconds and the warning for the queries
    over 10 seconds, the second count being at least the first. *)
Theorem long_running_query_reported_twice :
  forall (m : MetricsResult) h pools nodes pending body,
    clusterHealth m = Some h -> threadPoolStats m = Some pools ->
    nodeStats m = Some nodes -> pendingTasks m = Some pending ->
    activeTasks m = Some (activeTasks_of body) ->
    0 < longRunning30s (activeTasks_of body) ->
    exists m' : MetricsResult,
      analyzeCriticalIssues m = Ok m'
      /\ In (LongRunning30s (longRunning30s (activeTasks_of body)))
            (critical_issues (summary m'))
      /\ In (LongRunning10s (longRunning10s (activeTasks_of body)))
            (warnings (summary m'))
      /\ longRunning30s (activeTasks_of body)
         <= longRunning10s (activeTasks_of body).
Proof.
  intros m h pools nodes pending body H1 H2 H3 H4 Ha Hpos.
  destruct (activeTasks_of_nested body) as (_ & N1 & _).
  eexists. split; [apply (analyze_ok m h pools nodes pending H1 H2 H3 H4)|].
  cbn [summary set_summary critical_issues warnings].
  rewrite (proj1 (rules_applied_lists m h pools nodes pending)),
    (proj2 (rules_applied_lists m h pools nodes pending)), Ha.
  set (t := activeTasks_of body) in *.
  assert ((0 <? longRunning30s t) = true) as E30 by (apply Z.ltb_lt; lia).
  assert ((0 <? longRunning10s t) = true) as E10 by (apply Z.ltb_lt; lia).
  split; [|split; [|exact N1]].
  - rewrite !in_app_iff. do 5 right. left.
    unfold check_active, push_issue, push_warning, set_active.
    rewrite E30, E10. destruct (5 <? longRunning5s t); cbn; left; reflexivity.
  - rewrite !in_app_iff. do 5 right. left.
    unfold check_active, push_issue, push_warning, set_active.
    rewrite E30, E10. destruct (5 <? longRunning5s t); cbn; left; reflexivity.
Qed.

Lemma long_running_query_reported_twice_witness :
  exists m' : MetricsResult,
    analyzeCriticalIssues
      (mkMetricsResult "2025-01-01T00:00:00.000Z"
         (Some (mkHealth "green" 3)) (Some []) (Some []) None None None
         (Some [])
         (Some (activeTasks_of
                  (Some [mkTask (Some "indices:data/read/search")
                           31000000000])))
         None None None None None None initial_summary) = Ok m'
    /\ In (LongRunning30s 1) (critical_issues (summary m'))
    /\ In (LongRunning10s 1) (warnings (summary m')).
Proof.
  destruct (long_running_query_reported_twice
              (mkMetricsResult "2025-01-01T00:00:00.000Z"
                 (Some (mkHealth "green" 3)) (Some []) (Some []) None None
                 None (Some [])
                 (Some (activeTasks_of
                          (Some [mkTask (Some "indices:data/read/search")
                                   31000000000])))
                 None None None None None None initial_summary)
              (mkHealth "green" 3) [] [] []
              (Some [mkTask (Some "indices:data/read/search") 31000000000])
              eq_refl eq_refl eq_refl eq_refl eq_refl ltac:(cbn; lia))
    as (m' & Hr & Hi & Hw & _).
  exists m'. split; [exact Hr|]. split; [exact Hi | exact Hw].
Defined.

(** X13.  The totals of [checkCacheMetrics] are the sums, over the nodes, of
    the query-cache and of the field-data evictions, a node without the
    cache counting for 0; the totals of two node lists add up.  Whenever the
    classifier pushes a cache warning for these totals, the cache fetch has
    printed its high-eviction line. *)
Theorem cache_eviction_totals :
  forall (nodes more : list cache_node),
    queryCacheEvictions (cacheMetrics_of nodes)
      = sum_Z (map (fun n => evictions_or_0 (query_cache n)) nodes)
    /\ fieldDataEvictions (cacheMetrics_of nodes)
       = sum_Z (map (fun n => evictions_or_0 (fielddata n)) nodes)
    /\ queryCacheEvictions (cacheMetrics_of (nodes ++ more))
       = queryCacheEvictions (cacheMetrics_of nodes)
         + queryCacheEvictions (cacheMetrics_of more)
    /\ fieldDataEvictions (cacheMetrics_of (nodes ++ more))
       = fieldDataEvictions (cacheMetrics_of nodes)
         + fieldDataEvictions (cacheMetrics_of more)
    /\ forall (m : MetricsResult) h pools ns pending,
         clusterHealth m = Some h -> threadPoolStats m = Some pools ->
         nodeStats m = Some ns -> pendingTasks m = Some pending ->
         cacheMetrics m = Some (cacheMetrics_of nodes) ->
         exists m' : MetricsResult,
           analyzeCriticalIssues m = Ok m'
           /\ (filter is_cache_warning (warnings (summary m')) <> [] ->
               highCacheEvictionRate
                 (queryCacheEvictions (cacheMetrics_of nodes))
                 (fieldDataEvictions (cacheMetrics_of nodes)) = true).
Proof.
  intros nodes more.
  destruct (cacheMetrics_sums nodes) as [Q F].
  destruct (cacheMetrics_sums more) as [Q' F'].
  destruct (cacheMetrics_sums (nodes ++ more)) as [Q'' F''].
  split; [exact Q|]. split; [exact F|].
  split; [rewrite Q'', Q, Q', map_app, sum_Z_app; reflexivity|].
  split; [rewrite F'', F, F', map_app, sum_Z_app; reflexivity|].
  intros m h pools ns pending H1 H2 H3 H4 Hc.
  eexists. split; [apply (analyze_ok m h pools ns pending H1 H2 H3 H4)|].
  cbn [summary set_summary warnings].
  rewrite cache_warnings, Hc.
  unfold check_caches, push_warning, highCacheEvictionRate.
  set (q := queryCacheEvictions (cacheMetrics_of nodes)).
  set (f := fieldDataEvictions (cacheMetrics_of nodes)).
  clearbody q f.
  destruct (Z.ltb_spec 10000 q), (Z.ltb_spec 1000 f); cbn; intros Hne.
  - apply orb_true_iff. left. apply Z.ltb_lt. lia.
  - apply orb_true_iff. left. apply Z.ltb_lt. lia.
  - apply orb_true_iff. right. apply Z.ltb_lt. lia.
  - contradiction.
Qed.

Lemma cache_eviction_totals_witness :
  exists m' : MetricsResult,
    analyzeCriticalIssues
      (snapshot_with [] calm_nodes None
         (Some (cacheMetrics_of
                  [mkCacheNode "node-1" (Some (mkCacheStats 7000)) None None;
                   mkCacheNode "node-2" (Some (mkCacheStats 5000))
                     (Some (mkCacheStats 3)) None]))) = Ok m'
    /\ queryCacheEvictions
         (cacheMetrics_of
            [mkCacheNode "node-1" (Some (mkCacheStats 7000)) None None;
             mkCacheNode "node-2" (Some (mkCacheStats 5000))
               (Some (mkCacheStats 3)) None]) = 12000.
Proof.
  destruct (proj2 (proj2 (proj2 (proj2 (cache_eviction_totals
              [mkCacheNode "node-1" (Some (mkCacheStats 7000)) None None;
               mkCacheNode "node-2" (Some (mkCacheStats 5000))
                 (Some (mkCacheStats 3)) None] []))))
              (snapshot_with [] calm_nodes None
                 (Some (cacheMetrics_of
                    [mkCacheNode "node-1" (Some (mkCacheStats 7000)) None None;
                     mkCacheNode "node-2" (Some (mkCacheStats 5000))
                       (Some (mkCacheStats 3)) None])))
              (mkHealth "green" 3) [] calm_nodes []
              eq_refl eq_refl eq_refl eq_refl eq_refl)
    as (m' & Hr & _).
  exists m'. split; [exact Hr | reflexivity].
Defined.

End RuleCoverage.

(* ================================================================== *)
(** ** Queue saturation and hot threads *)
(* ================================================================== *)

Section SaturationCoverage.

Import Metrics MetricsSamples AnalysisSamples Scenarios MetricsCoverage.

(** X14.  When every row of the thread-pool call has a finite numeric queue
    depth, no saturation is [NaN], and the maximum saturation of
    [checkQueueMetrics] is a number that is at least 0 and at least the
    saturation of every write, bulk, search or get row, and it is either 0
    or the saturation of one of those rows.  One such row whose saturation is
    [NaN] makes the maximum [NaN]. *)
Theorem max_saturation_is_maximum :
  forall stats : list pool,
    (Forall (fun p => exists d : Q, JS.parseInt (pool_queue p) = JS.Fin d)
       stats ->
     at_most (JS.of_Z 0) (maxSaturation (queueMetrics_of stats))
     /\ (forall p, In p stats ->
           array_includes ["write"; "bulk"; "search"; "get"] (pool_name p)
             = true ->
           at_most (saturation p) (maxSaturation (queueMetrics_of stats)))
     /\ (maxSaturation (queueMetrics_of stats) = JS.of_Z 0
         \/ exists p, In p stats
              /\ array_includes ["write"; "bulk"; "search"; "get"]
                   (pool_name p) = true
              /\ maxSaturation (queueMetrics_of stats) = saturation p))
    /\ ((exists p, In p stats
            /\ array_includes ["write"; "bulk"; "search"; "get"]
                 (pool_name p) = true
            /\ saturation p = JS.NaN) ->
        maxSaturation (queueMetrics_of stats) = JS.NaN).
Proof.
  intros stats. rewrite maxSaturation_fold. split.
  - intros Hnum.
    assert (Forall (fun x => x <> JS.NaN)
              (map saturation (visited_rows stats))) as Hn.
    { apply Forall_map, Forall_forall. intros r Hr.
      apply visited_rows_In in Hr. destruct Hr as [Hr _].
      rewrite Forall_forall in Hnum. apply saturation_not_NaN, Hnum, Hr. }
    destruct (fold_max_spec _ Hn (JS.of_Z 0) ltac:(discriminate))
      as (H0 & Hle & Hc).
    split; [exact H0|]. split.
    + intros p Hp Hg. rewrite Forall_forall in Hle.
      apply Hle, in_map, visited_rows_In. split; assumption.
    + destruct Hc as [E|Hin]; [left; exact E|]. right.
      apply in_map_iff in Hin. destruct Hin as (p & Hs & Hp).
      apply visited_rows_In in Hp. destruct Hp as [Hp Hg].
      exists p. split; [exact Hp|]. split; [exact Hg|].
      symmetry. exact Hs.
  - intros (p & Hp & Hg & Hnan). apply fold_max_with_NaN.
    rewrite <- Hnan. apply in_map, visited_rows_In. split; assumption.
Qed.

Lemma max_saturation_is_maximum_witness :
  at_most (saturation (pool_row "search" "600" "1000"))
    (maxSaturation
       (queueMetrics_of
          [pool_row "write" "87" "160"; pool_row "search" "600" "1000";
           pool_row "refresh" "99" "100"]))
  /\ maxSaturation
       (queueMetrics_of
          [pool_row "write" "87" "160"; pool_row "search" "n/a" "1000"])
     = JS.NaN.
Proof.
  split.
  - apply (proj1 (proj2 (proj1 (max_saturation_is_maximum
             [pool_row "write" "87" "160"; pool_row "search" "600" "1000";
              pool_row "refresh" "99" "100"])
             ltac:(repeat constructor; eexists; vm_compute; reflexivity)))).
    + right. left. reflexivity.
    + reflexivity.
  - apply (proj2 (max_saturation_is_maximum
             [pool_row "write" "87" "160"; pool_row "search" "n/a" "1000"])).
    exists (pool_row "search" "n/a" "1000").
    split; [right; left; reflexivity|]. split; reflexivity.
Defined.

Lemma split_lines_nonempty s : JS.split_lines s <> [].
Proof.
  destruct s as [|c s]; cbn [JS.split_lines]; [discriminate|].
  destruct (Ascii.eqb c JS.newline); [discriminate|].
  destruct (JS.split_lines s); discriminate.
Qed.

Lemma join_lines_cons l ls :
  ls <> [] ->
  JS.join_lines (l :: ls)
  = (l ++ String JS.newline (JS.join_lines ls))%string.
Proof.
  intros Hne. unfold JS.join_lines. cbn [String.concat].
  destruct ls; [contradiction | reflexivity].
Qed.

Lemma join_split (s : string) : JS.join_lines (JS.split_lines s) = s.
Proof.
  induction s as [|c s IH]; [reflexivity|].
  cbn [JS.split_lines].
  destruct (Ascii.eqb_spec c JS.newline) as [E|N].
  - rewrite join_lines_cons by apply split_lines_nonempty.
    rewrite IH, E. reflexivity.
  - pose proof (split_lines_nonempty s) as Hne.
    destruct (JS.split_lines s) as [|l ls]; [contradiction|].
    destruct ls as [|l' ls].
    + unfold JS.join_lines in *. cbn [String.concat] in *. rewrite IH.
      reflexivity.
    + rewrite join_lines_cons by discriminate.
      rewrite join_lines_cons in IH by discriminate.
      cbn [append]. rewrite IH. reflexivity.
Qed.

Lemma prefix_empty (t : string) : String.prefix "" t = true.
Proof. destruct t; reflexivity. Qed.

Lemma prefix_refl (s : string) : String.prefix s s = true.
Proof.
  induction s as [|c s IH]; [reflexivity|].
  cbn [String.prefix]. destruct (ascii_dec c c); [exact IH | contradiction].
Qed.

Lemma prefix_append_r (s t : string) : String.prefix s (s ++ t) = true.
Proof.
  induction s as [|c s IH]; [apply prefix_empty|].
  cbn [String.prefix append].
  destruct (ascii_dec c c); [exact IH | contradiction].
Qed.

Lemma prefix_append_both (s t u : string) :
  String.prefix t u = true -> String.prefix (s ++ t) (s ++ u) = true.
Proof.
  intros H. induction s as [|c s IH]; [exact H|].
  cbn [String.prefix append].
  destruct (ascii_dec c c); [exact IH | contradiction].
Qed.

Lemma join_firstn_prefix (ls : list string) : forall n,
  String.prefix (JS.join_lines (firstn n ls)) (JS.join_lines ls) = true.
Proof.
  induction ls as [|l ls IH]; intros n.
  - rewrite firstn_nil. reflexivity.
  - destruct n as [|n]; [apply prefix_empty|]. cbn [firstn].
    destruct ls as [|l' ls].
    + rewrite firstn_nil. apply prefix_refl.
    + rewrite (join_lines_cons l (l' :: ls)) by discriminate.
      destruct n as [|n].
      * cbn [firstn]. unfold JS.join_lines at 1. cbn [String.concat].
        apply prefix_append_r.
      * rewrite join_lines_cons by (cbn [firstn]; discriminate).
        apply prefix_append_both. cbn [String.prefix].
        destruct (ascii_dec JS.newline JS.newline); [|contradiction].
        apply IH.
Qed.

(** X15.  Splitting a text at its line ends and joining the lines gives the
    text back.  [checkHotThreads] always returns; the summary it keeps is the
    first 15 lines of the output joined again, which is a prefix of the
    output and the whole output when it has at most 15 lines; a rejected
    call gives "Not available". *)
Theorem hot_threads_summary :
  forall (output : string) (env : environment) (w : world),
    JS.join_lines (JS.split_lines output) = output
    /\ hot_summary (hotThreads_of output)
       = JS.join_lines (firstn 15 (JS.split_lines output))
    /\ String.prefix (hot_summary (hotThreads_of output)) output = true
    /\ ((List.length (JS.split_lines output) <= 15)%nat ->
        hot_summary (hotThreads_of output) = output)
    /\ exists ht : hot_threads,
         checkHotThreads env w = (logged nodes_hotThreads w, Ok ht)
         /\ (env_hotThreads env = Resolved output ->
             ht = hotThreads_of output)
         /\ ((exists e, env_hotThreads env = Rejected e) ->
             hot_summary ht = "Not available").
Proof.
  intros output env w.
  assert (hot_summary (hotThreads_of output)
          = JS.join_lines (firstn 15 (JS.split_lines output))) as Hs.
  { unfold hotThreads_of, JS.slice0. cbn [hot_summary].
    rewrite firstn_firstn. reflexivity. }
  split; [apply join_split|]. split; [exact Hs|]. split; [|split].
  - rewrite Hs. rewrite <- (join_split output) at 2.
    apply join_firstn_prefix.
  - intros Hlen. rewrite Hs, firstn_all2 by exact Hlen. apply join_split.
  - rewrite checkHotThreads_run. eexists. split; [reflexivity|].
    unfold settle. destruct (env_hotThreads env) as [body|e].
    + split; [intros H; inversion H; reflexivity|].
      intros [e He]. discriminate He.
    + split; [discriminate | reflexivity].
Qed.

Lemma hot_threads_summary_witness :
  hot_summary (hotThreads_of "::: {node-1}
   100.0% cpu usage by thread 'search'") = "::: {node-1}
   100.0% cpu usage by thread 'search'".
Proof.
  apply (proj1 (proj2 (proj2 (proj2 (hot_threads_summary "::: {node-1}
   100.0% cpu usage by thread 'search'" hot_threads_down empty_world))))).
  cbn. lia.
Defined.

End SaturationCoverage.

(* ================================================================== *)
(** ** Files and cycles *)
(* ================================================================== *)

Section CycleCoverage.

Import Metrics MetricsSamples AnalysisSamples Scenarios MetricsCoverage
  CycleVocabulary.

Ltac with_outcomes lem :=
  rewrite lem;
  repeat match goal with
    | H : _ = Resolved _ |- _ => rewrite H
    | H : _ = Rejected _ |- _ => rewrite H
    end;
  reflexivity.

Ltac fetch lem :=
  first [ erewrite bind_Ok by (with_outcomes lem)
        | erewrite bind_Throw by (with_outcomes lem) ].

Ltac fetch_any :=
  first [ fetch checkClusterHealth_run
        | fetch checkThreadPools_run
        | fetch checkNodeStats_run
        | fetch checkIndexStats_run
        | fetch checkIndexSettings_run
        | fetch checkClusterSettings_run
        | fetch checkPendingTasks_run
        | fetch checkActiveTasks_run
        | fetch checkCircuitBreakerStatus_run
        | fetch checkCacheMetrics_run
        | fetch checkSegmentStats_run
        | fetch checkQueueMetrics_run
        | fetch checkHotThreads_run ].

Lemma summary_row_width (m : MetricsResult) :
  List.length (summary_row m) = List.length headers.
Proof. reflexivity. Qed.

(** X16.  [saveSummaryCSV] does not create the output directory: when it is
    missing the method throws the "no such file or directory" error and
    changes nothing.  When the directory exists the method returns; it writes
    the header line only when the file does not exist yet and then appends
    one line, keeping every line that was there, in order.  The line has one
    cell per header, so a file that starts with the header and has lines of
    that width stays so, one line longer.  The calls and the JSON files are
    left alone in both cases. *)
Theorem csv_header_written_once :
  forall (m : MetricsResult) (w : world),
    (output_dir w = false ->
     saveSummaryCSV m w = (w, Throw no_directory_error))
    /\ (output_dir w = true ->
        snd (saveSummaryCSV m w) = Ok tt
        /\ output_dir (fst (saveSummaryCSV m w)) = true
        /\ (csv_file w = None ->
            csv_file (fst (saveSummaryCSV m w))
            = Some [map CString headers; summary_row m])
        /\ (forall file, csv_file w = Some file ->
            csv_file (fst (saveSummaryCSV m w))
            = Some (file ++ [summary_row m])%list))
    /\ List.length (summary_row m) = List.length headers
    /\ (forall file, csv_file w = Some file -> csv_well_formed file ->
        csv_well_formed (file ++ [summary_row m]))
    /\ csv_well_formed [map CString headers; summary_row m]
    /\ requests (fst (saveSummaryCSV m w)) = requests w
    /\ json_files (fst (saveSummaryCSV m w)) = json_files w.
Proof.
  intros m w. unfold saveSummaryCSV.
  split; [intros ->; reflexivity|].
  split.
  { intros ->. cbn [fst snd csv_file output_dir].
    split; [reflexivity|]. split; [reflexivity|].
    split; [intros ->; reflexivity | intros file ->; reflexivity]. }
  split; [apply summary_row_width|]. split; [|split].
  - intros file _ (rows & -> & Hrows).
    exists (rows ++ [summary_row m])%list. split; [reflexivity|].
    apply Forall_app. split; [exact Hrows|].
    constructor; [apply summary_row_width | constructor].
  - exists [summary_row m]. split; [reflexivity|].
    constructor; [apply summary_row_width | constructor].
  - destruct (output_dir w); split; reflexivity.
Qed.

Lemma csv_header_written_once_witness :
  csv_file
    (fst (saveSummaryCSV (snapshot_with [] calm_nodes None None)
            (fst (saveSummaryCSV (snapshot_with [] [] None None)
                    (mkWorld [] true [] None)))))
  = Some [map CString headers;
          summary_row (snapshot_with [] [] None None);
          summary_row (snapshot_with [] calm_nodes None None)]
  /\ saveSummaryCSV (snapshot_with [] calm_nodes None None) empty_world
     = (empty_world, Throw no_directory_error).
Proof.
  split.
  - apply (proj2 (proj2 (proj2 (proj1 (proj2 (csv_header_written_once
             (snapshot_with [] calm_nodes None None)
             (fst (saveSummaryCSV (snapshot_with [] [] None None)
                     (mkWorld [] true [] None))))) eq_refl)))
             [map CString headers;
              summary_row (snapshot_with [] [] None None)]).
    reflexivity.
  - apply (proj1 (csv_header_written_once
             (snapshot_with [] calm_nodes None None) empty_world)).
    reflexivity.
Defined.

(** The client could not be initialised. *)
Lemma initializeOpenSearchClient_fails env w :
  (env_parameter env = Resolved None
   \/ env_parameter env = Resolved (Some "") ->
   initializeOpenSearchClient env w = (logged ssm_send w, Throw no_host_error))
  /\ (forall e, env_parameter env = Rejected e ->
      initializeOpenSearchClient env w = (logged ssm_send w, Throw e)).
Proof.
  unfold initializeOpenSearchClient, try_catch, bind, await, throw.
  split.
  - intros [H|H]; rewrite H; reflexivity.
  - intros e H. rewrite H. reflexivity.
Qed.

(** What a cycle does to the world, in every case. *)
Lemma runFullCheck_effects saveToFile ts env w :
  (exists k : nat,
      requests (fst (runFullCheck saveToFile ts env w))
      = (requests w ++ firstn (S k) all_requests)%list)
  /\ match snd (runFullCheck saveToFile ts env w) with
     | Throw _ =>
         json_files (fst (runFullCheck saveToFile ts env w)) = json_files w
         /\ csv_file (fst (runFullCheck saveToFile ts env w)) = csv_file w
     | Ok m =>
         requests (fst (runFullCheck saveToFile ts env w))
         = (requests w ++ all_requests)%list
         /\ json_files (fst (runFullCheck saveToFile ts env w))
            = (if saveToFile then json_files w ++ [m] else json_files w)%list
         /\ csv_file (fst (runFullCheck saveToFile ts env w))
            = (if saveToFile then Some (csv_after m (csv_file w))
               else csv_file w)
     end.
Proof.
  destruct (env_parameter env) as [[host|]|e0] eqn:Hp.
  1: destruct (String.eqb_spec host "") as [E|Hne].
  2: {
    unfold runFullCheck, try_catch.
    erewrite bind_Ok
      by (apply initializeOpenSearchClient_resolved; eassumption).
    destruct (env_health env) as [h|e1] eqn:Hh.
    2: { fetch_any. unfold throw. cbn [fst snd].
         split; [exists 1%nat; cbn; rewrite <- !app_assoc; reflexivity
                | split; reflexivity]. }
    destruct (env_threadPool env) as [stats|e2] eqn:Ht.
    2: { do 2 fetch_any. unfold throw. cbn [fst snd].
         split; [exists 2%nat; cbn; rewrite <- !app_assoc; reflexivity
                | split; reflexivity]. }
    destruct (env_nodes env) as [nodes|e3] eqn:Hn.
    2: { do 3 fetch_any. unfold throw. cbn [fst snd].
         split; [exists 3%nat; cbn; rewrite <- !app_assoc; reflexivity
                | split; reflexivity]. }
    destruct (env_clusterSettings env) as [settings|e4] eqn:Hs.
    2: { do 8 fetch_any. unfold throw. cbn [fst snd].
         split; [exists 8%nat; cbn; rewrite <- !app_assoc; reflexivity
                | split; reflexivity]. }
    destruct (env_pendingTasks env) as [pending|e5] eqn:Hq.
    2: { do 9 fetch_any. unfold throw. cbn [fst snd].
         split; [exists 9%nat; cbn; rewrite <- !app_assoc; reflexivity
                | split; reflexivity]. }
    do 16 fetch_any. cbv zeta.
    erewrite bind_Ok
      by (unfold lift; erewrite analyze_ok by reflexivity; reflexivity).
    destruct saveToFile;
      cbn [bind ensure_directory write_json saveSummaryCSV ret fst snd
             requests output_dir json_files csv_file logged];
      (split; [exists 16%nat; cbn; rewrite <- !app_assoc; reflexivity|]);
      (split; [rewrite <- !app_assoc; reflexivity|]);
      split; reflexivity. }
  all: unfold runFullCheck, try_catch.
  - erewrite bind_Throw
      by (apply (proj1 (initializeOpenSearchClient_fails env w));
          right; rewrite Hp, E; reflexivity).
    unfold throw. cbn [fst snd].
    split; [exists 0%nat; reflexivity | split; reflexivity].
  - erewrite bind_Throw
      by (apply (proj1 (initializeOpenSearchClient_fails env w));
          left; exact Hp).
    unfold throw. cbn [fst snd].
    split; [exists 0%nat; reflexivity | split; reflexivity].
  - erewrite bind_Throw
      by (apply (proj2 (initializeOpenSearchClient_fails env w)); exact Hp).
    unfold throw. cbn [fst snd].
    split; [exists 0%nat; reflexivity | split; reflexivity].
Qed.

(** X17.  A poll cycle that throws leaves the JSON files and the CSV file as
    they were, and so does a cycle run without saving.  A cycle that returns
    a snapshot has made all seventeen calls, and when it saves it has written
    that very snapshot, summary included, as one more JSON file and one more
    CSV line.  In every case the calls made are a non-empty prefix of the
    seventeen, starting with the endpoint lookup. *)
Theorem cycle_file_effects :
  forall (saveToFile : bool) (ts : string) (env : environment) (w : world),
    (returned (runFullCheck saveToFile ts env w) = false ->
     json_files (fst (runFullCheck saveToFile ts env w)) = json_files w
     /\ csv_file (fst (runFullCheck saveToFile ts env w)) = csv_file w)
    /\ (saveToFile = false ->
        json_files (fst (runFullCheck saveToFile ts env w)) = json_files w
        /\ csv_file (fst (runFullCheck saveToFile ts env w)) = csv_file w)
    /\ (forall m, snd (runFullCheck saveToFile ts env w) = Ok m ->
        requests (fst (runFullCheck saveToFile ts env w))
        = (requests w ++ all_requests)%list
        /\ (saveToFile = true ->
            json_files (fst (runFullCheck saveToFile ts env w))
            = (json_files w ++ [m])%list
            /\ csv_file (fst (runFullCheck saveToFile ts env w))
               = Some (csv_after m (csv_file w))))
    /\ exists k : nat,
         requests (fst (runFullCheck saveToFile ts env w))
         = (requests w ++ firstn (S k) all_requests)%list.
Proof.
  intros saveToFile ts env w.
  destruct (runFullCheck_effects saveToFile ts env w) as [Hk Hr].
  unfold returned.
  destruct (snd (runFullCheck saveToFile ts env w)) as [m|e].
  - destruct Hr as (Hq & Hj & Hc).
    split; [discriminate|]. split; [|split; [|exact Hk]].
    + intros ->. split; assumption.
    + intros m' Hm. inversion Hm. subst m'. split; [exact Hq|].
      intros ->. split; assumption.
  - destruct Hr as (Hj & Hc).
    split; [intros _; split; assumption|].
    split; [intros _; split; assumption|].
    split; [intros m' Hm; discriminate Hm | exact Hk].
Qed.

Lemma cycle_file_effects_witness :
  json_files
    (fst (runFullCheck true "2025-01-01T00:00:00.000Z" health_down
            empty_world)) = []
  /\ csv_file
       (fst (runFullCheck true "2025-01-01T00:00:00.000Z" health_down
               empty_world)) = None.
Proof.
  apply (proj1 (cycle_file_effects true "2025-01-01T00:00:00.000Z"
                  health_down empty_world)).
  reflexivity.
Defined.

(** X18.  When the endpoint lookup is rejected, or resolves to no value or
    to an empty one, the cycle throws (the rejection, or the "Failed to
    retrieve" error) after that single call: no call is made to the
    cluster. *)
Theorem endpoint_failure_is_fatal :
  forall (saveToFile : bool) (ts : string) (env : environment) (w : world),
    (env_parameter env = Resolved None
     \/ env_parameter env = Resolved (Some "") ->
     runFullCheck saveToFile ts env w
     = (logged ssm_send w, Throw no_host_error))
    /\ (forall e, env_parameter env = Rejected e ->
        runFullCheck saveToFile ts env w = (logged ssm_send w, Throw e)).
Proof.
  intros saveToFile ts env w.
  destruct (initializeOpenSearchClient_fails env w) as [F1 F2].
  unfold runFullCheck, try_catch. split.
  - intros H. erewrite bind_Throw by (apply F1; exact H). reflexivity.
  - intros e H. erewrite bind_Throw by (apply F2; exact H). reflexivity.
Qed.

Lemma endpoint_failure_is_fatal_witness :
  runFullCheck true "2025-01-01T00:00:00.000Z"
    (mkEnvironment (Resolved None) green (Resolved []) (Resolved [])
       (fun _ => Resolved None) (fun _ => Resolved None)
       (Resolved (mkSettings [] [])) (Resolved []) (Resolved None)
       (Resolved []) (Resolved []) (fun _ => Resolved None) (Resolved [])
       (Resolved "")) empty_world
  = (mkWorld [ssm_send] false [] None, Throw no_host_error).
Proof.
  apply (proj1 (endpoint_failure_is_fatal true "2025-01-01T00:00:00.000Z"
                  (mkEnvironment (Resolved None) green (Resolved [])
                     (Resolved []) (fun _ => Resolved None)
                     (fun _ => Resolved None) (Resolved (mkSettings [] []))
                     (Resolved []) (Resolved None) (Resolved [])
                     (Resolved []) (fun _ => Resolved None) (Resolved [])
                     (Resolved "")) empty_world)).
  left. reflexivity.
Defined.

Lemma continuous_cycle_run ts env w :
  continuous_cycle ts env w = (fst (runFullCheck true ts env w), Ok tt).
Proof.
  unfold continuous_cycle, try_catch, bind, ret.
  destruct (runFullCheck true ts env w) as [w' [m|e]]; reflexivity.
Qed.

Lemma filter_firstn_none {X : Type} (P : X -> bool) (xs : list X) :
  Forall (fun x => P x = false) xs ->
  forall k, filter P (firstn k xs) = [].
Proof.
  induction 1 as [|x xs Hx _ IH]; intros k.
  - rewrite firstn_nil. reflexivity.
  - destruct k as [|k]; [reflexivity|]. cbn [firstn filter].
    rewrite Hx. apply IH.
Qed.

Lemma one_initialization_per_cycle saveToFile ts env w :
  initializations (fst (runFullCheck saveToFile ts env w))
  = S (initializations w).
Proof.
  destruct (runFullCheck_effects saveToFile ts env w) as [[k Hk] _].
  unfold initializations. rewrite Hk, filter_app, length_app.
  unfold all_requests. cbn [firstn filter is_ssm_send].
  rewrite filter_firstn_none by (repeat constructor).
  cbn [List.length]. lia.
Qed.

Lemma csv_rows_after_cycle ts env w :
  (csv_file w = None \/ exists l ls, csv_file w = Some (l :: ls)) ->
  let w' := fst (runFullCheck true ts env w) in
  (csv_file w' = None \/ exists l ls, csv_file w' = Some (l :: ls))
  /\ List.length (csv_rows w')
     = (List.length (csv_rows w)
        + (if returned (runFullCheck true ts env w) then 1 else 0))%nat
  /\ List.length (json_files w')
     = (List.length (json_files w)
        + (if returned (runFullCheck true ts env w) then 1 else 0))%nat.
Proof.
  intros Hcsv. cbv zeta.
  destruct (runFullCheck_effects true ts env w) as [_ Hr].
  unfold returned, csv_rows.
  destruct (snd (runFullCheck true ts env w)) as [m|e].
  - destruct Hr as (_ & Hj & Hc). rewrite Hj, Hc, length_app.
    unfold csv_after.
    destruct Hcsv as [E|(l & ls & E)]; rewrite E; cbn [app List.length].
    + split; [right; eauto|]. split; lia.
    + split; [right; eauto|]. rewrite length_app. cbn [List.length].
      split; lia.
  - destruct Hr as (Hj & Hc). rewrite Hj, Hc.
    split; [exact Hcsv|]. split; lia.
Qed.

(** X19.  In continuous mode a cycle that throws does not stop the loop:
    after any number of passes the loop has not thrown, it has looked up the
    endpoint once per pass, and it has written one JSON file and, starting
    from no CSV file or from one that has its first line, one CSV line for
    each pass whose cycle returned a snapshot. *)
Theorem continuous_mode_absorbs_failures :
  forall (cycles : list (string * environment)) (w : world),
    snd (continuous cycles w) = Ok tt
    /\ initializations (fst (continuous cycles w))
       = (initializations w + List.length cycles)%nat
    /\ ((csv_file w = None \/ exists l ls, csv_file w = Some (l :: ls)) ->
        List.length (json_files (fst (continuous cycles w)))
        = (List.length (json_files w) + returning_cycles cycles w)%nat
        /\ List.length (csv_rows (fst (continuous cycles w)))
           = (List.length (csv_rows w) + returning_cycles cycles w)%nat).
Proof.
  induction cycles as [|[ts env] cycles IH]; intros w.
  - cbn [continuous ret fst snd List.length returning_cycles].
    split; [reflexivity|]. split; [lia|]. intros _. split; lia.
  - cbn [continuous returning_cycles]. unfold bind.
    rewrite !continuous_cycle_run. cbn [fst].
    destruct (IH (fst (runFullCheck true ts env w))) as (I1 & I2 & I3).
    split; [exact I1|]. split.
    + rewrite I2, one_initialization_per_cycle. cbn [List.length]. lia.
    + intros Hcsv.
      destruct (csv_rows_after_cycle ts env w Hcsv) as (C1 & C2 & C3).
      cbv zeta in C1, C2, C3.
      destruct (I3 C1) as [J1 J2]. rewrite J1, J2, C2, C3.
      split; lia.
Qed.

Lemma continuous_mode_absorbs_failures_witness :
  List.length
    (csv_rows
       (fst (continuous
               [("2025-01-01T00:00:00.000Z", cluster_with_pool search_60);
                ("2025-01-01T00:00:30.000Z", health_down);
                ("2025-01-01T00:01:00.000Z", cluster_with_pool search_60)]
               empty_world))) = 2%nat.
Proof.
  apply (proj2 (proj2 (proj2 (continuous_mode_absorbs_failures
           [("2025-01-01T00:00:00.000Z", cluster_with_pool search_60);
            ("2025-01-01T00:00:30.000Z", health_down);
            ("2025-01-01T00:01:00.000Z", cluster_with_pool search_60)]
           empty_world)) ltac:(left; reflexivity))).
Defined.

End CycleCoverage.

(* ================================================================== *)
(** ** The command line of the checker *)
(* ================================================================== *)

Section CommandLine.

Import Metrics MetricsSamples MetricsCoverage CommandLineVocabulary.

Ltac digit_cases d H :=
  assert (d = 0 \/ d = 1 \/ d = 2 \/ d = 3 \/ d = 4 \/ d = 5 \/ d = 6
          \/ d = 7 \/ d = 8 \/ d = 9) as H by (unfold is_digit in *; lia);
  repeat (destruct H as [H|H]; [subst d|]); [..|subst d].

Lemma digit_char_facts (d : Z) :
  is_digit d ->
  let c := ascii_of_nat (48 + Z.to_nat d) in
  JS.digit_value c = Some d
  /\ Ascii.eqb c "="%char = false
  /\ JS.is_white_space c = false
  /\ c <> "-"%char /\ c <> "+"%char /\ c <> "x"%char /\ c <> "X"%char.
Proof.
  intros Hd. digit_cases d H; cbv zeta;
    (split; [reflexivity|]); (split; [reflexivity|]);
    (split; [reflexivity|]); repeat split; discriminate.
Qed.

(** [parseInt] on a text that starts with neither white space, nor a sign,
    nor a hexadecimal prefix. *)
Lemma parseInt_plain (c : ascii) (rest : string) :
  JS.is_white_space c = false ->
  c <> "-"%char -> c <> "+"%char ->
  (forall c' rest', rest = String c' rest' ->
                    c' <> "x"%char /\ c' <> "X"%char) ->
  JS.parseInt (String c rest)
  = match JS.parse_digits 10 (String c rest) None with
    | Some v => JS.binary64 (inject_Z v)
    | None => JS.NaN
    end.
Proof.
  intros Hws Hm Hp Hx. unfold JS.parseInt. cbn [JS.skip_white_space].
  rewrite Hws.
  destruct rest as [|c' rest'].
  - destruct c as [[] [] [] [] [] [] [] []];
      try reflexivity; contradiction.
  - destruct (Hx c' rest' eq_refl) as [X1 X2].
    destruct c as [[] [] [] [] [] [] [] []];
      try reflexivity; try contradiction.
    destruct c' as [[] [] [] [] [] [] [] []];
      try reflexivity; contradiction.
Qed.

Lemma parse_digits_decimal (digits : list Z) :
  Forall is_digit digits ->
  forall acc : Z,
    JS.parse_digits 10 (decimal_string digits) (Some acc)
    = Some (fold_left (fun a d => a * 10 + d) digits acc).
Proof.
  induction 1 as [|d ds Hd _ IH]; intros acc;
    cbn [decimal_string JS.parse_digits fold_left]; [reflexivity|].
  rewrite (proj1 (digit_char_facts d Hd)).
  destruct (Z.ltb_spec d 10) as [_|C]; [|unfold is_digit in Hd; lia].
  apply IH.
Qed.

Lemma parseInt_decimal (digits : list Z) :
  digits <> [] -> Forall is_digit digits ->
  JS.parseInt (decimal_string digits)
  = JS.binary64 (inject_Z (decimal_value digits)).
Proof.
  intros Hne Hall. destruct digits as [|d ds]; [contradiction|].
  inversion Hall as [|? ? Hd Hds]; subst.
  destruct (digit_char_facts d Hd) as (Hv & _ & Hws & Hm & Hp & _).
  cbv zeta in *. cbn [decimal_string].
  rewrite parseInt_plain; try assumption.
  - cbn [JS.parse_digits]. rewrite Hv.
    destruct (Z.ltb_spec d 10) as [_|C]; [|unfold is_digit in Hd; lia].
    rewrite parse_digits_decimal by exact Hds.
    unfold decimal_value. cbn [fold_left]. reflexivity.
  - intros c' rest' E. destruct ds as [|d' ds]; [discriminate E|].
    inversion Hds as [|? ? Hd' _]; subst.
    cbn [decimal_string] in E. inversion E; subst.
    destruct (digit_char_facts d' Hd') as (_ & _ & _ & _ & _ & X1 & X2).
    split; assumption.
Qed.

Lemma decimal_value_nonneg (digits : list Z) :
  Forall is_digit digits -> 0 <= decimal_value digits.
Proof.
  intros Hall. unfold decimal_value.
  assert (forall a, 0 <= a ->
            0 <= fold_left (fun acc d => acc * 10 + d) digits a) as H.
  { induction Hall as [|d ds Hd _ IH]; intros a Ha; cbn [fold_left];
      [exact Ha|]. apply IH. unfold is_digit in Hd. lia. }
  apply H. lia.
Qed.

Lemma split_on_decimal (digits : list Z) :
  Forall is_digit digits ->
  JS.split_on "="%char (decimal_string digits) = [decimal_string digits].
Proof.
  induction 1 as [|d ds Hd _ IH]; cbn [decimal_string JS.split_on];
    [reflexivity|].
  rewrite (proj1 (proj2 (digit_char_facts d Hd))), IH. reflexivity.
Qed.

Lemma find_app_skip {X : Type} (P : X -> bool) (before rest : list X) :
  Forall (fun x => P x = false) before ->
  find P (before ++ rest) = find P rest.
Proof.
  induction 1 as [|x xs Hx _ IH]; cbn [app find]; [reflexivity|].
  rewrite Hx. exact IH.
Qed.

Lemma interval_of_flag (value : string) (before after : list string) :
  Forall (fun arg => String.prefix "--interval=" arg = false) before ->
  JS.split_on "="%char value = [value] ->
  interval (before ++ ("--interval=" ++ value)%string :: after)
  = JS.parseInt (if String.eqb value "" then "30" else value).
Proof.
  intros Hb Hs. unfold interval. rewrite find_app_skip by exact Hb.
  cbn [find append String.prefix].
  repeat match goal with
         | |- context [ascii_dec ?a ?a] =>
             destruct (ascii_dec a a); [|contradiction]
         end.
  rewrite prefix_empty.
  cbn [JS.split_on Ascii.eqb Bool.eqb]. rewrite Hs.
  cbn [nth_error]. reflexivity.
Qed.

(** X20.  [parseInt] reads a number written in decimal digits as the Number
    nearest to it, which is the number itself up to 2^53 =
    9007199254740992 and can differ from it beyond.  The polling interval is
    30 when no argument starts with [--interval=] and when the first such
    argument has an empty value; when the first such argument is
    [--interval=N] with N in decimal digits, it is the Number nearest to N,
    so N itself up to 2^53, whatever follows it. *)
Theorem interval_from_command_line :
  forall (before after : list string) (digits : list Z),
    Forall (fun arg => String.prefix "--interval=" arg = false) before ->
    interval before = JS.of_Z 30
    /\ interval (before ++ "--interval=" :: after) = JS.of_Z 30
    /\ (digits <> [] -> Forall is_digit digits ->
        JS.parseInt (decimal_string digits)
        = JS.binary64 (inject_Z (decimal_value digits))
        /\ interval (before ++ interval_flag digits :: after)
           = JS.binary64 (inject_Z (decimal_value digits))
        /\ (decimal_value digits <= 9007199254740992 ->
            JS.parseInt (decimal_string digits)
            = JS.of_Z (decimal_value digits)
            /\ interval (before ++ interval_flag digits :: after)
               = JS.of_Z (decimal_value digits))).
Proof.
  intros before after digits Hb. split; [|split].
  - unfold interval.
    rewrite <- (app_nil_r before), find_app_skip by exact Hb.
    vm_compute. reflexivity.
  - change "--interval=" with ("--interval=" ++ "")%string.
    rewrite interval_of_flag by (exact Hb || reflexivity).
    vm_compute. reflexivity.
  - intros Hne Hall.
    assert (interval (before ++ interval_flag digits :: after)
            = JS.parseInt (decimal_string digits)) as Hi.
    { unfold interval_flag.
      rewrite interval_of_flag
        by (exact Hb || (apply split_on_decimal; exact Hall)).
      destruct digits as [|d ds]; [contradiction|]. reflexivity. }
    rewrite Hi, parseInt_decimal by assumption.
    split; [reflexivity|]. split; [reflexivity|].
    intros Hle.
    assert (JS.binary64 (inject_Z (decimal_value digits))
            = JS.of_Z (decimal_value digits)) as ->.
    { apply binary64_integer.
      pose proof (decimal_value_nonneg digits Hall).
      change (2 ^ 53) with 9007199254740992. lia. }
    split; reflexivity.
Qed.

Lemma interval_from_command_line_witness :
  interval ["node"; "checkOpenSearchMetrics.js"; "--continuous";
            interval_flag [1; 0]; "--interval=99"] = JS.of_Z 10
  /\ interval [interval_flag [9; 0; 0; 7; 1; 9; 9; 2; 5; 4; 7; 4; 0; 9; 9; 3]]
     = JS.of_Z 9007199254740992.
Proof.
  split.
  - destruct (interval_from_command_line
                ["node"; "checkOpenSearchMetrics.js"; "--continuous"]
                ["--interval=99"] [1; 0] ltac:(repeat constructor))
      as (_ & _ & H).
    destruct (H ltac:(discriminate)
                ltac:(repeat constructor; unfold is_digit; lia))
      as (_ & _ & Hsmall).
    apply Hsmall. vm_compute. discriminate.
  - destruct (interval_from_command_line [] []
                [9; 0; 0; 7; 1; 9; 9; 2; 5; 4; 7; 4; 0; 9; 9; 3]
                ltac:(constructor))
      as (_ & _ & H).
    destruct (H ltac:(discriminate)
                ltac:(repeat constructor; unfold is_digit; lia))
      as (_ & Hi & _).
    cbn [app] in Hi. rewrite Hi. vm_compute. reflexivity.
Defined.

End CommandLine.
